(** * The BTO recommendation service of [services/recommendation.py]

    A shallow embedding of the analytics engine: the cached table loader,
    the per-town gap analysis, the two-tier price estimate, the ranking
    with its rationale strings, and the per-town market report.

    Conventions of the embedding.
    - A [DataFrame] is the list of its rows, in row order.  The rows carry
      the columns the service reads after preprocessing.
    - Prices, floor areas and scores are floats in the source; they are
      embedded as exact rationals [Q].  Years and counts are integers [Z].
    - The mean of a price column is a float64 computation of pandas: its
      value depends on the order of summation and on binary rounding, and
      is taken from the runtime ([Float64]).
    - A [str] is the string of its UTF-8 bytes.
    - [str.lower] and [str.upper] follow the Unicode case mapping.  On
      text that is all ASCII they are defined here; on other text the
      mapping is taken from the runtime ([Unicode]).
    - A computation that may raise ends in a [result]; a [try]/[except]
      is a handler applied to that outcome. *)

From Stdlib Require Import ZArith QArith Qround Qminmax String Ascii List Lia DecimalString.
From stdpp Require Import base list sorting strings gmap.

Local Open Scope Z_scope.

(** ** What is taken from the runtime *)

(** The Unicode case mapping of [str.upper] and [str.lower], consulted
    for text that is not all ASCII. *)
Class Unicode := {
  unicode_upper : string → string;
  unicode_lower : string → string
}.

(** [Series.mean()] followed by [.round(2)], as pandas computes them in
    float64 on a non-empty column. *)
Class Float64 := {
  mean_round2 : list Q → Q
}.

(** ** Python and pandas numerics *)

Module Py.

(** [round(x)]: nearest integer, ties to the even neighbour. *)
Definition round (q : Q) : Z :=
  let f := Qfloor q in
  match Qcompare (q - inject_Z f) (1 # 2) with
  | Lt => f
  | Gt => f + 1
  | Eq => if Z.even f then f else f + 1
  end.

(** [round(x, 2)] and pandas' [.round(2)].  A float has one
    representation, so computed values are kept in lowest terms. *)
Definition round2 (q : Q) : Q := Qred (round (q * 100) # 100)%Q.

(** [int(x)] on a float: truncation towards zero. *)
Definition int (q : Q) : Z := Z.quot (Qnum q) (Z.pos (Qden q)).

(** [bool(x)] on a float. *)
Definition truthy (q : Q) : bool := negb (Qeq_bool q 0).

(** [str(n)] on an int. *)
Definition str (n : Z) : string := NilZero.string_of_int (Z.to_int n).

Definition map_chars (f : ascii → ascii) : string → string :=
  fix go s := match s with
              | EmptyString => EmptyString
              | String c s' => String (f c) (go s')
              end.

Definition lower_char (c : ascii) : ascii :=
  let n := N_of_ascii c in
  if ((65 <=? n) && (n <=? 90))%N then ascii_of_N (n + 32) else c.

Definition upper_char (c : ascii) : ascii :=
  let n := N_of_ascii c in
  if ((97 <=? n) && (n <=? 122))%N then ascii_of_N (n - 32) else c.

(** Text whose characters are all ASCII. *)
Definition is_ascii (s : string) : bool :=
  forallb (λ c, (N_of_ascii c <? 128)%N) (list_ascii_of_string s).

Definition ascii_lower : string → string := map_chars lower_char.
Definition ascii_upper : string → string := map_chars upper_char.

(** [s.lower()] and [s.upper()] *)
Definition lower `{!Unicode} (s : string) : string :=
  if is_ascii s then ascii_lower s else unicode_lower s.
Definition upper `{!Unicode} (s : string) : string :=
  if is_ascii s then ascii_upper s else unicode_upper s.

(** [s.replace(a, b)] for one-character [a] and [b]. *)
Definition replace_char (a b : ascii) : string → string :=
  map_chars (λ c, if Ascii.eqb c a then b else c).

(** [sep.join(parts)]. *)
Definition join (sep : string) (parts : list string) : string :=
  String.concat sep parts.

End Py.

Module Pd.

Fixpoint insert_asc (x : Q) (l : list Q) : list Q :=
  match l with
  | [] => [x]
  | y :: l' => if Qle_bool x y then x :: l else y :: insert_asc x l'
  end.

Definition sort_values (xs : list Q) : list Q := foldr insert_asc [] xs.

(** [Series.median()] on a column without nulls: the middle value of the
    sorted column, or the mean of the two middle values.  On the empty
    column pandas gives NaN; every call site below guards against it and
    the value chosen here is never read. *)
Definition median (xs : list Q) : Q :=
  let s := sort_values xs in
  let n := length s in
  if Nat.even n
  then Qred ((nth (n / 2 - 1) s 0 + nth (n / 2) s 0) / 2)%Q
  else nth (n / 2) s 0%Q.

Definition sum (xs : list Q) : Q := foldr Qplus 0%Q xs.

(** The mean of a non-empty column in exact arithmetic: what
    [Series.mean()] gives when no float operation rounds. *)
Definition exact_mean (xs : list Q) : Q :=
  Qred (sum xs / inject_Z (Z.of_nat (length xs)))%Q.

(** [Series.max()] / [Series.min()] on a non-empty integer column;
    [d] is only returned for the empty column. *)
Definition max_Z (d : Z) (xs : list Z) : Z :=
  match xs with [] => d | x :: xs' => foldl Z.max x xs' end.
Definition min_Z (d : Z) (xs : list Z) : Z :=
  match xs with [] => d | x :: xs' => foldl Z.min x xs' end.

End Pd.

(** ** More of Python: whitespace, substrings, ordered dicts *)

Module PyStr.

(** The characters that [str.isspace] accepts, as UTF-8 byte sequences:
    U+0009 to U+000D, U+001C to U+0020, U+0085, U+00A0, U+1680, U+2000 to
    U+200A, U+2028, U+2029, U+202F, U+205F and U+3000. *)
Definition whitespace : list (list ascii) :=
  (λ bytes : list nat, ascii_of_nat <$> bytes) <$>
    [[9]; [10]; [11]; [12]; [13]; [28]; [29]; [30]; [31]; [32];
     [194; 133]; [194; 160]; [225; 154; 128];
     [226; 128; 128]; [226; 128; 129]; [226; 128; 130]; [226; 128; 131];
     [226; 128; 132]; [226; 128; 133]; [226; 128; 134]; [226; 128; 135];
     [226; 128; 136]; [226; 128; 137]; [226; 128; 138];
     [226; 128; 168]; [226; 128; 169]; [226; 128; 175];
     [226; 129; 159]; [227; 128; 128]]%nat.

(** [s] without the prefix [p], if it begins with [p]. *)
Fixpoint after_prefix (p s : list ascii) : option (list ascii) :=
  match p, s with
  | [], _ => Some s
  | a :: p', c :: s' => if Ascii.eqb a c then after_prefix p' s' else None
  | _ :: _, [] => None
  end.

(** [s] without the first of [codes] that it begins with. *)
Fixpoint drop_first (codes : list (list ascii)) (s : list ascii)
    : option (list ascii) :=
  match codes with
  | [] => None
  | p :: codes' =>
      match after_prefix p s with
      | Some r => Some r
      | None => drop_first codes' s
      end
  end.

(** Dropping leading [codes] for as long as there is one; every step
    removes a byte, so [fuel] the length of [s] is enough. *)
Fixpoint drop_leading (codes : list (list ascii)) (fuel : nat) (s : list ascii)
    : list ascii :=
  match fuel with
  | O => s
  | S fuel' =>
      match drop_first codes s with
      | Some r => drop_leading codes fuel' r
      | None => s
      end
  end.

Definition lstrip_bytes (s : list ascii) : list ascii :=
  drop_leading whitespace (length s) s.
Definition rstrip_bytes (s : list ascii) : list ascii :=
  reverse (drop_leading (reverse <$> whitespace) (length s) (reverse s)).

(** [s.lstrip()], [s.rstrip()] and [s.strip()] *)
Definition lstrip (s : string) : string :=
  string_of_list_ascii (lstrip_bytes (list_ascii_of_string s)).
Definition rstrip (s : string) : string :=
  string_of_list_ascii (rstrip_bytes (list_ascii_of_string s)).
Definition strip (s : string) : string :=
  string_of_list_ascii
    (rstrip_bytes (lstrip_bytes (list_ascii_of_string s))).

(** [needle in s] *)
Fixpoint contains (needle s : string) : bool :=
  String.prefix needle s
  || match s with
     | EmptyString => false
     | String _ s' => contains needle s'
     end.

Definition newline : string := String (ascii_of_nat 10) EmptyString.

End PyStr.

(** A [dict] with string keys, in insertion order. *)
Module Dict.

Fixpoint get {V} (d : list (string * V)) (k : string) : option V :=
  match d with
  | [] => None
  | (k', v) :: d' => if decide (k' = k) then Some v else get d' k
  end.

(** [d[k] = v]: replaces the value in place, or appends the key. *)
Fixpoint set {V} (d : list (string * V)) (k : string) (v : V)
    : list (string * V) :=
  match d with
  | [] => [(k, v)]
  | (k', v') :: d' =>
      if decide (k' = k) then (k, v) :: d' else (k', v') :: set d' k v
  end.

(** [{k: v for k in ks}] *)
Definition from_keys {V} (ks : list string) (v : V) : list (string * V) :=
  foldl (λ d k, set d k v) [] ks.

Definition keys {V} (d : list (string * V)) : list string := fst <$> d.

End Dict.

(** ** Exceptions *)

(** The exceptions the service meets, and the outcome of a computation
    that may raise one. *)
Inductive exn :=
  | FileNotFoundError
  | ValueError (msg : string)
  | OtherError (msg : string).

Inductive result (A : Type) :=
  | Ok (a : A)
  | Raise (e : exn).
Arguments Ok {A} a.
Arguments Raise {A} e.

(** ** The table *)

(** One row of the preprocessed table: the required columns of the extract
    plus the derived [transaction_year]. *)
Record transaction := {
  month : string;
  town : string;
  flat_type : string;
  floor_area_sqm : Q;
  lease_commence_date : Z;
  resale_price : Q;
  transaction_year : Z
}.

Abbreviation DataFrame := (list transaction).

(** Configuration *)
Definition BTO_DISCOUNT_RATE : Q := 2 # 10.
Definition CURRENT_YEAR : Z := 2025.
Definition MIN_YEARS_SINCE_LAUNCH : Z := 5.

(** ** Price estimate *)

(** [df[(df['town'] == town) & (df['flat_type'] == flat_type)]] *)
Definition matching (town0 flat_type0 : string) (r : transaction) : Prop :=
  town r = town0 ∧ flat_type r = flat_type0.

(** [... & (df['transaction_year'] >= 2022)] *)
Definition matching_recent (town0 flat_type0 : string) (r : transaction) : Prop :=
  town r = town0 ∧ flat_type r = flat_type0 ∧ 2022 ≤ transaction_year r.

#[global] Instance matching_dec t f r : Decision (matching t f r).
Proof. unfold matching. apply _. Defined.
#[global] Instance matching_recent_dec t f r : Decision (matching_recent t f r).
Proof. unfold matching_recent. apply _. Defined.

Definition _calculate_single_pricing
    (df : DataFrame) (town0 flat_type0 : string) : option Q :=
  let recent_data := filter (matching_recent town0 flat_type0) df in
  if decide (10 ≤ length recent_data)%nat
  then Some (Pd.median (resale_price <$> recent_data))
  else
    let all_data := filter (matching town0 flat_type0) df in
    if decide (0 < length all_data)%nat
    then Some (Pd.median (resale_price <$> all_data))
    else None.

(** [calculate_representative_pricing], the legacy wrapper. *)
Definition calculate_representative_pricing
    (df : DataFrame) (town0 : string) (flat_type0 : string) : option Q :=
  _calculate_single_pricing df town0 flat_type0.

Section Service.
Context `{casemap : !Unicode} `{floats : !Float64}.

(** ** Gap analysis *)

(** One row of [town_stats] after [reset_index], as [to_dict('records')]
    returns it. *)
Record town_stats := {
  ts_town : string;
  max_lease_year : Z;
  total_transactions : Z;
  recent_transactions : Z;
  avg_price : Q;
  years_since_last_major_launch : Z
}.

(** A stable sort: [before y x] says that the key of [y] orders strictly
    ahead of the key of [x].  Rows with tied keys keep their input order.
    Both [DataFrame.sort_values] on several columns and [list.sort] are
    stable, also in descending order. *)
Section stable_sort.
Context {A : Type} (before : A → A → bool).

Fixpoint insert_stable (x : A) (l : list A) : list A :=
  match l with
  | [] => [x]
  | y :: l' => if before y x then y :: insert_stable x l' else x :: l
  end.

Definition stable_sort (l : list A) : list A := foldr insert_stable [] l.

(** With [pos] the order in which the input presents its elements, [x] is
    placed ahead of [y] when its key is strictly better, or when the keys
    are tied and [x] came earlier in the input. *)
Definition ahead (pos : relation A) (x y : A) : Prop :=
  before x y = true ∨ (before x y = false ∧ before y x = false ∧ pos x y).

#[global] Instance ahead_dec (pos : relation A)
    `{!∀ x y, Decision (pos x y)} x y : Decision (ahead pos x y).
Proof. unfold ahead. apply _. Defined.
End stable_sort.

(** [df.groupby('town')]: one group per distinct town, groups in ascending
    order of the town name. *)
Definition groupby_keys (df : DataFrame) : list string :=
  merge_sort String.le (remove_dups (town <$> df)).

Definition group (df : DataFrame) (t : string) : DataFrame :=
  filter (λ r, town r = t) df.

(** The [agg] of one group, rounded, with the derived gap column. *)
Definition aggregate (df : DataFrame) (t : string) : town_stats :=
  let g := group df t in
  let newest := Pd.max_Z 0 (lease_commence_date <$> g) in
  {| ts_town := t;
     max_lease_year := newest;
     total_transactions := Z.of_nat (length g);
     recent_transactions :=
       Z.of_nat (length (filter (λ r, 2022 ≤ transaction_year r) g));
     avg_price := mean_round2 (resale_price <$> g);
     years_since_last_major_launch := CURRENT_YEAR - newest |}.

Definition groupby_town (df : DataFrame) : list town_stats :=
  aggregate df <$> groupby_keys df.

Definition qualified (s : town_stats) : Prop :=
  100 < total_transactions s ∧
  MIN_YEARS_SINCE_LAUNCH ≤ years_since_last_major_launch s.

#[global] Instance qualified_dec s : Decision (qualified s).
Proof. unfold qualified. apply _. Defined.

(** [sort_values(['years_since_last_major_launch', 'recent_transactions'],
    ascending=[False, False])]: [a] goes ahead of [b]. *)
Definition gap_before (a b : town_stats) : bool :=
  (years_since_last_major_launch b <? years_since_last_major_launch a)
  || ((years_since_last_major_launch a =? years_since_last_major_launch b)
      && (recent_transactions b <? recent_transactions a)).

Definition analyze_bto_gaps (df : option DataFrame) : list town_stats :=
  match df with
  | None | Some [] => []
  | Some df =>
      take 8 (stable_sort gap_before (filter qualified (groupby_town df)))
  end.

(** ** Town characteristics *)

(** [Series.unique()]: the distinct values in order of first appearance. *)
Definition unique (xs : list string) : list string :=
  reverse (remove_dups (reverse xs)).

(** [Series.value_counts()]: the distinct values with their counts, most
    frequent first.  pandas leaves the order of equally frequent values
    open; here they stay in order of first appearance. *)
Definition value_counts (xs : list string) : list (string * nat) :=
  stable_sort (λ a b, (b.2 <? a.2)%nat)
              ((λ k, (k, length (filter (λ x, x = k) xs))) <$> unique xs).

(** [groupby('flat_type')]: the distinct flat types in ascending order. *)
Definition groupby_flat_type (df : DataFrame) : list string :=
  merge_sort String.le (remove_dups (flat_type <$> df)).

Definition Qmin_list (xs : list Q) : Q :=
  match xs with
  | [] => 0%Q
  | x :: xs' => foldl (λ a b, if Qle_bool a b then a else b) x xs'
  end.
Definition Qmax_list (xs : list Q) : Q :=
  match xs with
  | [] => 0%Q
  | x :: xs' => foldl (λ a b, if Qle_bool b a then a else b) x xs'
  end.

(** [agg(['min', 'max', 'median']).to_dict()]: one dict per statistic. *)
Record price_range_dicts := {
  pr_min : list (string * Q);
  pr_max : list (string * Q);
  pr_median : list (string * Q)
}.

(** The non-empty result of [get_town_characteristics]; each [to_dict] is
    the list of its items in key order. *)
Record characteristics := {
  flat_type_mix : list (string * Q);
  typical_sizes : list (string * Q);
  price_ranges : price_range_dicts;
  ch_total_transactions : Z
}.

(** [None] stands for the empty dict [{}]. *)
Definition get_town_characteristics
    (df : option DataFrame) (town0 : string) : option characteristics :=
  match df with
  | None => None
  | Some df =>
      let town_data := filter (λ r, town r = town0) df in
      if decide (length town_data = 0%nat) then None
      else
        let n := Z.of_nat (length town_data) in
        let by_type ft := filter (λ r, flat_type r = ft) town_data in
        Some {|
          flat_type_mix :=
            (λ kc, (kc.1, Qred (inject_Z (Z.of_nat kc.2) / inject_Z n)))
              <$> value_counts (flat_type <$> town_data);
          typical_sizes :=
            (λ ft, (ft, Pd.median (floor_area_sqm <$> by_type ft)))
              <$> groupby_flat_type town_data;
          price_ranges :=
            let stat f := (λ ft, (ft, f (resale_price <$> by_type ft)))
                            <$> groupby_flat_type town_data in
            {| pr_min := stat Qmin_list; pr_max := stat Qmax_list;
               pr_median := stat Pd.median |};
          ch_total_transactions := n |}
  end.

(** ** Recommendations *)

Record market_summary := {
  ms_total_transactions : Z;
  predominant_flat_types : list string
}.

(** The dict built for one candidate town (and the dict of the
    system-error fallback, which has the same keys). *)
Record recommendation := {
  rec_town : string;
  rec_years_since_last_major_launch : Z;
  demand_score : Q;
  recent_market_activity : Z;
  predicted_pricing : gmap string Z;
  rationale : string;
  market_characteristics : market_summary
}.

(** The four-key dict returned when the table is unavailable. *)
Record fallback_estimate := {
  fb_town : string;
  fb_years_since_last_major_launch : Z;
  predicted_4room_bto_price : Z;
  fb_rationale : string
}.

Inductive entry :=
  | Recommended (r : recommendation)
  | Estimate (f : fallback_estimate).

Definition entry_town (e : entry) : string :=
  match e with Recommended r => rec_town r | Estimate f => fb_town f end.
Definition entry_rationale (e : entry) : string :=
  match e with Recommended r => rationale r | Estimate f => fb_rationale f end.

Definition flat_types : list string := ["3 ROOM"; "4 ROOM"; "5 ROOM"].

(** [flat_type.lower().replace(' ', '_')] *)
Definition pricing_key (ft : string) : string :=
  Py.replace_char " " "_" (Py.lower ft).

(** [resale_price * (1 - BTO_DISCOUNT_RATE)], rounded. *)
Definition bto_price (resale : Q) : Z :=
  Py.round (resale * (1 - BTO_DISCOUNT_RATE)).

(** One turn of the pricing loop. *)
Definition add_pricing (df : DataFrame) (town0 : string)
    (pricing : gmap string Z) (ft : string) : gmap string Z :=
  match _calculate_single_pricing df town0 ft with
  | Some resale =>
      if Py.truthy resale
      then <[pricing_key ft := bto_price resale]> pricing
      else pricing
  | None => pricing
  end.

Definition pricing_for (df : DataFrame) (town0 : string)
    (fts : list string) : gmap string Z :=
  foldl (add_pricing df town0) ∅ fts.

(** [calculate_pricing_async]: one pool task per flat type, collected in
    the order of [fts].  [task_result ft] is what [task.result(timeout=5)]
    gives for the task of [ft]: the estimate, or the exception (a timeout
    among them) that makes the loop skip the flat type. *)
Definition calculate_pricing_async
    (task_result : string → result (option Q)) (fts : list string)
    : gmap string Z :=
  foldl (λ pricing ft,
           match task_result ft with
           | Ok (Some resale) =>
               if Py.truthy resale
               then <[pricing_key ft := bto_price resale]> pricing
               else pricing
           | Ok None | Raise _ => pricing
           end) ∅ fts.

(** [min(years_gap / 10.0, 1.0) if years_gap > 0 else 0.5] *)
Definition demand_score_of (years_gap : Z) : Q :=
  if decide (0 < years_gap)
  then (let x := inject_Z years_gap / 10 in
        if Qlt_le_dec 1 x then 1 else x)%Q
  else (1 # 2)%Q.

Definition rationale_parts
    (years_gap recent_activity : Z) (pricing : gmap string Z) : list string :=
  (if decide (8 ≤ years_gap)
   then ["No major launches for " +:+ Py.str years_gap +:+ " years"]
   else [])
  ++ (if decide (50 < recent_activity)
      then ["Active resale market (" +:+ Py.str recent_activity
            +:+ " recent transactions)"]
      else [])
  ++ (if decide (default 0 (pricing !! "4_room") < 400000)
      then ["Affordable pricing segment"]
      else []).

Definition rationale_of
    (years_gap recent_activity : Z) (pricing : gmap string Z) : string :=
  match rationale_parts years_gap recent_activity pricing with
  | [] => "Moderate BTO opportunity"
  | parts => Py.join "; " parts
  end.

(** The body of the loop over the candidates. *)
Definition recommendation_for
    (df : DataFrame) (town_info : town_stats) : recommendation :=
  let town0 := ts_town town_info in
  let pricing := pricing_for df town0 flat_types in
  let characteristics := get_town_characteristics (Some df) town0 in
  let years_gap := years_since_last_major_launch town_info in
  let recent_activity := recent_transactions town_info in
  {| rec_town := town0;
     rec_years_since_last_major_launch := years_gap;
     demand_score := Py.round2 (demand_score_of years_gap);
     recent_market_activity := recent_activity;
     predicted_pricing := pricing;
     rationale := rationale_of years_gap recent_activity pricing;
     market_characteristics :=
       {| ms_total_transactions :=
            from_option ch_total_transactions 0 characteristics;
          predominant_flat_types :=
            take 3 (from_option (λ c, fst <$> flat_type_mix c) []
                                characteristics) |} |}.

(** [recommendations.sort(key=lambda x: (x['demand_score'],
    x['years_since_last_major_launch']), reverse=True)]: [a] goes ahead
    of [b]. *)
Definition rec_before (a b : recommendation) : bool :=
  match Qcompare (demand_score a) (demand_score b) with
  | Gt => true
  | Eq => rec_years_since_last_major_launch b
          <? rec_years_since_last_major_launch a
  | Lt => false
  end.

Definition data_unavailable_fallback : fallback_estimate :=
  {| fb_town := "WOODLANDS";
     fb_years_since_last_major_launch := 8;
     predicted_4room_bto_price := 350000;
     fb_rationale := "Data unavailable - using fallback estimate" |}.

Definition system_error_fallback : recommendation :=
  {| rec_town := "WOODLANDS";
     rec_years_since_last_major_launch := 8;
     demand_score := (8 # 10)%Q;
     recent_market_activity := 150;
     predicted_pricing :=
       <["5_room" := 420000]> (<["4_room" := 350000]> (<["3_room" := 280000]> ∅));
     rationale := "Fallback recommendation - system error occurred";
     market_characteristics :=
       {| ms_total_transactions := 1000;
          predominant_flat_types := ["4 ROOM"; "5 ROOM"; "3 ROOM"] |} |}.

(** The [try] inside the loop: the candidate body under its handler.  The
    body of this embedding is total, so it always ends in [Ok]. *)
Definition process_candidate
    (df : DataFrame) (town_info : town_stats) : result recommendation :=
  Ok (recommendation_for df town_info).

(** The loop over [town_analysis[:6]]: a candidate whose body raises is
    logged and skipped, the others are appended in order. *)
Definition collect_recommendations
    (df : DataFrame) (candidates : list town_stats) : list recommendation :=
  foldl (λ recommendations town_info,
           match process_candidate df town_info with
           | Ok r => recommendations ++ [r]
           | Raise _ => recommendations
           end) [] candidates.

(** The outer [try] block of [recommend_estates], after the table was
    loaded. *)
Definition ranking (loaded : option DataFrame) : result (list entry) :=
  match loaded with
  | None => Ok [Estimate data_unavailable_fallback]
  | Some df =>
      let town_analysis := analyze_bto_gaps (Some df) in
      let recommendations :=
        collect_recommendations df (take 6 town_analysis) in
      Ok (Recommended <$> take 6 (stable_sort rec_before recommendations))
  end.

(** The outer [except Exception] of [recommend_estates]. *)
Definition or_fallback (body : result (list entry)) : list entry :=
  match body with
  | Ok recs => recs
  | Raise _ => [Recommended system_error_fallback]
  end.

(** [recommend_estates] on the outcome of [load_resale_data()]. *)
Definition recommend_estates_on (loaded : option DataFrame) : list entry :=
  or_fallback (ranking loaded).

(** ** Market report for one town *)

Definition string_min (xs : list string) : string :=
  match xs with
  | [] => ""
  | x :: xs' => foldl (λ a b, if String.leb a b then a else b) x xs'
  end.
Definition string_max (xs : list string) : string :=
  match xs with
  | [] => ""
  | x :: xs' => foldl (λ a b, if String.leb b a then a else b) x xs'
  end.

Record price_trends := {
  overall_median : Z;
  recent_median : option Z
}.

Record lease_vintage := {
  oldest : Z;
  newest : Z
}.

Record analysis := {
  an_town : string;
  data_period : string;
  an_total_transactions : Z;
  an_flat_types : list (string * nat);
  an_price_trends : price_trends;
  size_distribution : list (string * Q);
  an_lease_vintage : lease_vintage
}.

(** The two shapes of the returned dict: [{"error": ...}] or the report. *)
Inductive analysis_result :=
  | ErrorDict (error : string)
  | Report (a : analysis).

(** [town_data = df[df['town'].str.upper() == town_name.upper()]] *)
Definition town_rows (df : DataFrame) (town_name : string) : DataFrame :=
  filter (λ r, Py.upper (town r) = Py.upper town_name) df.

(** [get_town_market_analysis] on the outcome of [load_resale_data()]. *)
Definition get_town_market_analysis_on
    (loaded : option DataFrame) (town_name : string) : analysis_result :=
  match loaded with
  | None => ErrorDict "Data not available"
  | Some df =>
      let town_data := town_rows df town_name in
      if decide (length town_data = 0%nat)
      then ErrorDict ("No data found for " +:+ town_name)
      else
        let recent := filter (λ r, 2023 ≤ transaction_year r) town_data in
        Report {|
          an_town := town_name;
          data_period := string_min (month <$> town_data) +:+ " to "
                         +:+ string_max (month <$> town_data);
          an_total_transactions := Z.of_nat (length town_data);
          an_flat_types := value_counts (flat_type <$> town_data);
          an_price_trends :=
            {| overall_median := Py.int (Pd.median (resale_price <$> town_data));
               recent_median :=
                 if decide (0 < length recent)%nat
                 then Some (Py.int (Pd.median (resale_price <$> recent)))
                 else None |};
          size_distribution :=
            (λ ft, (ft, Pd.median (floor_area_sqm <$>
                          filter (λ r, flat_type r = ft) town_data)))
              <$> groupby_flat_type town_data;
          an_lease_vintage :=
            {| oldest := Pd.min_Z 0 (lease_commence_date <$> town_data);
               newest := Pd.max_Z 0 (lease_commence_date <$> town_data) |} |}
  end.

(** ** The cached loader *)

(** A row of the extract as [read_csv] delivers it.  The cells that
    preprocessing checks for nulls are optional. *)
Record raw_row := {
  raw_month : option string;
  raw_town : string;
  raw_flat_type : string;
  raw_floor_area_sqm : Q;
  raw_lease_commence_date : option Z;
  raw_resale_price : option Q
}.

Record csv_file := {
  csv_columns : list string;
  csv_rows : list raw_row
}.

Definition required_columns : list string :=
  ["month"; "town"; "flat_type"; "resale_price"; "lease_commence_date";
   "floor_area_sqm"].

(** The attributes of the service object that the loader reads and writes. *)
Record BTORecommendationService := {
  _data_cache : option DataFrame;
  _cache_timestamp : option Z;
  cache_duration : Z
}.

Definition __init__ : BTORecommendationService :=
  {| _data_cache := None; _cache_timestamp := None; cache_duration := 3600 |}.

(** What one call reads from outside the process: the clock (in seconds)
    when the cache is checked, the outcome of [pd.read_csv], and the clock
    when the timestamp is stored. *)
Record load_io := {
  clock_at_check : Z;
  read_csv : result csv_file;
  clock_at_store : Z
}.

(** [timedelta.seconds]: the seconds field of the normalised difference,
    which leaves whole days out. *)
Definition timedelta_seconds (d : Z) : Z := d mod 86400.

(** Statements that mutate [self] and may raise. *)
Definition M (A : Type) : Type :=
  BTORecommendationService → BTORecommendationService * result A.

Definition ret {A} (a : A) : M A := λ self, (self, Ok a).
Definition raise {A} (e : exn) : M A := λ self, (self, Raise e).
Definition lift {A} (r : result A) : M A := λ self, (self, r).
Definition bind {A B} (m : M A) (k : A → M B) : M B :=
  λ self, match m self with
          | (self', Ok a) => k a self'
          | (self', Raise e) => (self', Raise e)
          end.
Definition get_self : M BTORecommendationService := λ self, (self, Ok self).
Definition set_data_cache (df : DataFrame) : M unit :=
  λ self, ({| _data_cache := Some df;
              _cache_timestamp := _cache_timestamp self;
              cache_duration := cache_duration self |}, Ok tt).
Definition set_cache_timestamp (now : Z) : M unit :=
  λ self, ({| _data_cache := _data_cache self;
              _cache_timestamp := Some now;
              cache_duration := cache_duration self |}, Ok tt).
Definition try_except {A} (body : M A) (handler : exn → M A) : M A :=
  λ self, match body self with
          | (self', Ok a) => (self', Ok a)
          | (self', Raise e) => handler e self'
          end.

Notation "'do' x <- m ; k" := (bind m (λ x, k))
  (at level 10, x name, m at level 100, k at level 200).
Notation "'run' m ; k" := (bind m (λ _, k))
  (at level 10, m at level 100, k at level 200).

(** The process-wide state: the module-level [bto_service] and the
    memo table that [@lru_cache(maxsize=1)] keeps for the method
    [load_resale_data], keyed by [self].  Only [bto_service] ever calls
    the method, so the table is empty or holds the result of its first
    call. *)
Record process := {
  bto_service : BTORecommendationService;
  lru_cache : option (option DataFrame)
}.

Definition start : process :=
  {| bto_service := __init__; lru_cache := None |}.

Section Loader.

(** [pd.to_datetime(..., errors='coerce')] followed by [.dt.year]: the
    year of a period string, or [None] where it does not parse (NaT). *)
Variable to_datetime_year : string → option Z.

(** The preprocessing of one row: [None] when [dropna] or the
    [resale_price > 0] filter removes it. *)
Definition preprocess_row (r : raw_row) : option transaction :=
  m ← raw_month r;
  y ← to_datetime_year m;
  p ← raw_resale_price r;
  l ← raw_lease_commence_date r;
  if Qlt_le_dec 0 p
  then Some {| month := m; town := raw_town r; flat_type := raw_flat_type r;
               floor_area_sqm := raw_floor_area_sqm r;
               lease_commence_date := l; resale_price := p;
               transaction_year := y |}
  else None.

Definition preprocess (rows : list raw_row) : DataFrame :=
  omap preprocess_row rows.

(** Lines 37-58: read, validate, preprocess, store. *)
Definition reload (io : load_io) : M (option DataFrame) :=
  do csv <- lift (read_csv io);
  let missing_columns : gset string :=
    list_to_set required_columns ∖ list_to_set (csv_columns csv) in
  if decide (missing_columns = ∅)
  then
    let df := preprocess (csv_rows csv) in
    run set_data_cache df;
    run set_cache_timestamp (clock_at_store io);
    ret (Some df)
  else raise (ValueError "Missing required columns").

(** The method body, without its decorator. *)
Definition load_resale_data_body (io : load_io) : M (option DataFrame) :=
  try_except
    (do self <- get_self;
     match _data_cache self, _cache_timestamp self with
     | Some cached, Some stamp =>
         if decide (timedelta_seconds (clock_at_check io - stamp)
                    < cache_duration self)
         then ret (Some cached)
         else reload io
     | _, _ => reload io
     end)
    (λ e, ret None).

(** The decorated method as [bto_service.load_resale_data()] runs it:
    a memo hit returns the stored result and skips the body; a miss runs
    the body and stores what it returns.  An exception leaving the body
    would not be stored. *)
Definition load_resale_data (io : load_io) (p : process)
    : process * result (option DataFrame) :=
  match lru_cache p with
  | Some hit => (p, Ok hit)
  | None =>
      match load_resale_data_body io (bto_service p) with
      | (self', Ok df) =>
          ({| bto_service := self'; lru_cache := Some df |}, Ok df)
      | (self', Raise e) =>
          ({| bto_service := self'; lru_cache := None |}, Raise e)
      end
  end.

Definition recommend_estates (io : load_io) (p : process)
    : process * list entry :=
  match load_resale_data io p with
  | (p', Ok df) => (p', or_fallback (ranking df))
  | (p', Raise e) => (p', or_fallback (Raise e))
  end.

Definition get_town_market_analysis (io : load_io) (town_name : string)
    (p : process) : process * result analysis_result :=
  match load_resale_data io p with
  | (p', Ok df) => (p', Ok (get_town_market_analysis_on df town_name))
  | (p', Raise e) => (p', Raise e)
  end.

End Loader.

(** A reader of [YYYY-MM] period strings, for concrete runs. *)
Definition digit_of (c : ascii) : option Z :=
  let n := N_of_ascii c in
  if ((48 <=? n) && (n <=? 57))%N then Some (Z.of_N (n - 48)) else None.

Definition year_of_period (s : string) : option Z :=
  match s with
  | String a (String b (String c (String d (String "-" (String m1 (String m2 EmptyString)))))) =>
      a ← digit_of a; b ← digit_of b; c ← digit_of c; d ← digit_of d;
      m1 ← digit_of m1; m2 ← digit_of m2;
      if decide (1 ≤ 10 * m1 + m2 ≤ 12)
      then Some (1000 * a + 100 * b + 10 * c + d)
      else None
  | _ => None
  end.

(** ** The ranking of candidate towns, in the words of the specification *)

(** The groupby presents the towns in ascending order of their names. *)
Definition name_before (a b : town_stats) : Prop :=
  (ts_town a ≤ ts_town b)%string ∧ ts_town a ≠ ts_town b.

#[global] Instance name_before_dec a b : Decision (name_before a b).
Proof. unfold name_before. apply _. Defined.

(** Non-increasing in the pair (years since launch, recent count). *)
Definition gap_ge (a b : town_stats) : Prop :=
  years_since_last_major_launch b < years_since_last_major_launch a
  ∨ (years_since_last_major_launch a = years_since_last_major_launch b
     ∧ recent_transactions b ≤ recent_transactions a).

Definition gap_tied (a b : town_stats) : Prop :=
  years_since_last_major_launch a = years_since_last_major_launch b
  ∧ recent_transactions a = recent_transactions b.

(** [a] is ranked strictly ahead of [b]: more years since the last launch;
    or as many years and more recent transactions; or equal on both and
    met earlier by the groupby. *)
Definition ranks_ahead (a b : town_stats) : Prop :=
  years_since_last_major_launch b < years_since_last_major_launch a
  ∨ (years_since_last_major_launch a = years_since_last_major_launch b
     ∧ recent_transactions b < recent_transactions a)
  ∨ (gap_tied a b ∧ name_before a b).

#[global] Instance ranks_ahead_dec a b : Decision (ranks_ahead a b).
Proof. unfold ranks_ahead, gap_tied. apply _. Defined.

(** The number of qualifying towns of the table ranked ahead of town [z]. *)
Definition zones_ahead (df : DataFrame) (z : string) : nat :=
  length (filter (λ z', qualified (aggregate df z')
                        ∧ ranks_ahead (aggregate df z') (aggregate df z))
                 (remove_dups (town <$> df))).

(** [a] occurs at an earlier index of [l] than [b]. *)
Definition precedes {A} (l : list A) (a b : A) : Prop :=
  ∃ i j : nat, (i < j)%nat ∧ l !! i = Some a ∧ l !! j = Some b.

(** ** Auxiliary definitions for the statements *)

(** What one flat type contributes to the mapping. *)
Definition pricing_entry (df : DataFrame) (t ft : string) : option Z :=
  match _calculate_single_pricing df t ft with
  | Some p => if Py.truthy p then Some (bto_price p) else None
  | None => None
  end.

(** A row for concrete tables. *)
Definition sample_row (t ft : string) (lease : Z) (price : Q) (year : Z)
    : transaction :=
  {| month := "2023-01"; town := t; flat_type := ft; floor_area_sqm := 90;
     lease_commence_date := lease; resale_price := price;
     transaction_year := year |}.

(** A candidate summary with a given gap, for concrete runs of the loop
    body. *)
Definition gap_info (t : string) (years recent : Z) : town_stats :=
  {| ts_town := t; max_lease_year := CURRENT_YEAR - years;
     total_transactions := 101; recent_transactions := recent;
     avg_price := 0; years_since_last_major_launch := years |}.

(** 101 three-room sales in one town, leases from 2019, all sold in 2021:
    the town qualifies with a gap of 6 and has no four-room record. *)
Definition no_4room_table : DataFrame :=
  replicate 101 (sample_row "BISHAN" "3 ROOM" 2019 300000 2021).

(** The cache of [self] is present and younger than [cache_duration], by
    the test of line 32-34. *)
Definition cache_fresh (io : load_io) (self : BTORecommendationService) : Prop :=
  ∃ cached stamp,
    _data_cache self = Some cached ∧ _cache_timestamp self = Some stamp
    ∧ timedelta_seconds (clock_at_check io - stamp) < cache_duration self.

(** Two extracts and two calls, for concrete runs of the loader. *)
Definition raw_sample (m t : string) (price : Q) : raw_row :=
  {| raw_month := Some m; raw_town := t; raw_flat_type := "4 ROOM";
     raw_floor_area_sqm := 90; raw_lease_commence_date := Some 2000;
     raw_resale_price := Some price |}.

Definition first_extract : csv_file :=
  {| csv_columns := required_columns;
     csv_rows := [raw_sample "2023-01" "WOODLANDS" 400000] |}.

Definition second_extract : csv_file :=
  {| csv_columns := required_columns;
     csv_rows := [raw_sample "2023-01" "WOODLANDS" 400000;
                  raw_sample "2025-06" "TAMPINES" 500000] |}.

Definition call_at (now : Z) (extract : csv_file) : load_io :=
  {| clock_at_check := now; read_csv := Ok extract; clock_at_store := now |}.

(** Twelve recent four-room sales in one town. *)
Definition twelve_recent : DataFrame :=
  replicate 12 (sample_row "A" "4 ROOM" 2000 400000 2023).

(** Three recent and twenty older four-room sales in one town. *)
Definition three_recent_twenty_old : DataFrame :=
  replicate 3 (sample_row "A" "4 ROOM" 2000 500000 2023)
  ++ replicate 20 (sample_row "A" "4 ROOM" 2000 300000 2015).

(** 150 sales in town A, newest lease 2010, 40 of them recent. *)
Definition town_a_table : DataFrame :=
  replicate 40 (sample_row "A" "4 ROOM" 2010 475000 2023)
  ++ replicate 110 (sample_row "A" "4 ROOM" 2005 475000 2020).

(** Two towns with the same gap and the same recent count; the rows of
    town B come first in the table. *)
Definition tied_towns_table : DataFrame :=
  replicate 101 (sample_row "B" "4 ROOM" 2000 400000 2023)
  ++ replicate 101 (sample_row "A" "4 ROOM" 2000 400000 2023).

(** ** Further notions for the statements *)

(** The columns of a summary that pandas computes in integers: all but
    [avg_price]. *)
Definition integer_columns (s : town_stats) : string * Z * Z * Z * Z :=
  (ts_town s, max_lease_year s, total_transactions s, recent_transactions s,
   years_since_last_major_launch s).

Section clean_tables.
Variable to_datetime_year : string → option Z.

(** What preprocessing establishes for a row: a positive price, and a
    transaction year read off the period string. *)
Definition clean_row (r : transaction) : Prop :=
  (0 < resale_price r)%Q ∧ to_datetime_year (month r) = Some (transaction_year r).

(** Every table the process holds, in the service cache or in the memo
    of the loader, consists of clean rows. *)
Definition clean_process (p : process) : Prop :=
  (∀ df, _data_cache (bto_service p) = Some df → Forall clean_row df)
  ∧ (∀ df, lru_cache p = Some (Some df) → Forall clean_row df).
End clean_tables.

(** ** Feature alignment, [api/main.py] and [ml_models/predict.py] *)

(** [create_prediction_features]; [expected_features] is the module global,
    assigned once at startup, so the function's [lru_cache] returns what
    the body would compute.  The values are numbers: the floor area is a
    float, the others are ints. *)
Definition create_prediction_features (expected_features : list string)
    (town0 flat_type0 : string) (floor_area : Q) (storey lease_year : Z)
    : list (string * Q) :=
  let features := Dict.from_keys expected_features 0%Q in
  let features := Dict.set features "floor_area_sqm" floor_area in
  let features := Dict.set features "storey_low" (inject_Z storey) in
  let features := Dict.set features "storey_high" (inject_Z storey) in
  let features := Dict.set features "lease_commence_year" (inject_Z lease_year) in
  let features := Dict.set features "tx_year" 2025%Q in
  let features := Dict.set features "tx_month" 6%Q in
  let town_feature := "town_" +:+ town0 in
  let features :=
    if decide (is_Some (Dict.get features town_feature))
    then Dict.set features town_feature 1%Q else features in
  let flat_type_feature := "flat_type_" +:+ flat_type0 in
  if decide (is_Some (Dict.get features flat_type_feature))
  then Dict.set features flat_type_feature 1%Q else features.

(** The one-row frame that [predict_price] hands to the model, as the list
    of its columns with their values.  [expected_features] is the list
    read from the features file, or [None] when the file is missing. *)
Definition aligned_frame (expected_features : option (list string))
    (features : list (string * Q)) : list (string * Q) :=
  match expected_features with
  | None | Some [] => features
  | Some expected =>
      (λ col, (col, default 0%Q (Dict.get features col))) <$> expected
  end.

(** [predict_price]; [model_predict] is [model.predict(df)[0]]. *)
Definition predict_price
    (model_predict : list (string * Q) → result Q)
    (expected_features : option (list string))
    (features : list (string * Q)) : result Q :=
  model_predict (aligned_frame expected_features features).

(** [calculate_affordability] *)
Definition calculate_affordability (bto_price : Q) : string :=
  if Qle_bool bto_price 300000 then "Lower Income (<$7,000)"
  else if Qle_bool bto_price 450000 then "Middle Income ($7,000-$14,000)"
  else if Qle_bool bto_price 600000 then "Upper Middle Income ($14,000-$21,000)"
  else "High Income (>$21,000)".

(** ** The endpoints of [api/main.py] *)

(** What the body of an endpoint may raise. *)
Inductive raised :=
  | HTTPException (status_code : Z) (detail : string)
  | PyError (e : exn).

(** What the client receives: the returned value, or the error response
    that FastAPI makes of an [HTTPException] leaving the endpoint. *)
Inductive response (A : Type) :=
  | Respond (a : A)
  | HttpError (status_code : Z) (detail : string).
#[global] Arguments Respond {A} a.
#[global] Arguments HttpError {A} status_code detail.

Record PredictRequest := {
  req_town : string;
  req_flat_type : string;
  req_floor_area_sqm : Q;
  req_storey : Z;
  req_lease_commence_year : Z
}.

Record PredictResponse := {
  resp_town : string;
  resp_flat_type : string;
  predicted_resale_price : Q;
  predicted_bto_price : Q;
  affordability : string
}.

Record RecommendationResponse := {
  prompt : string;
  rr_analysis : string;
  recommended_towns : list entry
}.

Record towns_listing := {
  listed : list string;
  listed_count : nat
}.

(** The reply of the Perplexity endpoint: its status code and, when the
    JSON body has a [choices] key, the choices, each with the content of
    its message if it has one. *)
Record perplexity_reply := {
  reply_status : Z;
  reply_choices : option (list (option string))
}.

Definition fallback_long_text : string :=
"
Based on historical BTO launch patterns, the recommended towns show significant potential:

• Towns with 10+ years since last BTO launch indicate underserved areas with potential pent-up demand
• These locations may be prime candidates for new BTO developments due to market gaps
• Consider proximity to MRT lines, schools, and commercial developments
• Long gaps between launches often correlate with infrastructure improvements and area maturation

Investment considerations:
- Established neighborhoods with proven demand
- Higher years since last BTO may indicate upcoming development
- Potential capital appreciation once new BTOs launch
".

(** [generate_fallback_analysis] of [services/llm_analysis.py] *)
Definition generate_fallback_analysis (data error_reason : string) : string :=
  let fallback := "LLM analysis unavailable - " +:+ error_reason +:+ "."
                  +:+ PyStr.newline +:+ PyStr.newline in
  if PyStr.contains "years_since_last_bto" data
     || PyStr.contains "Years since BTO" data
  then fallback +:+ fallback_long_text
  else fallback
       +:+ "Recommendations align with current market trends and historical patterns.".

(** [analyze_with_perplexity]: [api_key] says whether the key is
    configured, [post] is the outcome of [requests.post] and of decoding
    the JSON body.  Every failure leaves as a plain [Exception]; its
    message embeds the cause and is cut here to its fixed beginning. *)
Definition analyze_with_perplexity
    (api_key : bool) (post : result perplexity_reply) : result string :=
  if negb api_key then Raise (OtherError "Perplexity API key not configured")
  else
    match post with
    | Raise e => Raise (OtherError "Perplexity API call failed: ")
    | Ok reply =>
        if decide (reply_status reply ≠ 200)
        then Raise (OtherError "Perplexity API error: ")
        else
          match reply_choices reply with
          | None | Some [] => Raise (OtherError "Perplexity API error: ")
          | Some (None :: _) => Raise (OtherError "Perplexity API error: ")
          | Some (Some content :: _) => Ok (PyStr.strip content)
          end
    end.

(** [analyze_with_llm]: one OpenAI attempt, then Perplexity, then the
    fallback text.  [openai] is the content of the first choice of the
    completion, or what the call raised. *)
Definition analyze_with_llm
    (openai : result string) (api_key : bool) (post : result perplexity_reply)
    (data : string) : string :=
  match openai with
  | Ok content => PyStr.strip content
  | Raise _ =>
      match analyze_with_perplexity api_key post with
      | Ok content => content
      | Raise _ =>
          generate_fallback_analysis data
            "Both OpenAI and Perplexity APIs unavailable"
      end
  end.

Section Endpoints.

(** [str(e)] for what an endpoint catches, and [str(d)] for a pricing
    dict inside an f-string. *)
Variable str_raised : raised → string.
Variable str_pricing : gmap string Z → string.

(** The digest line of one entry; a key the entry lacks takes the default
    of its [r.get]. *)
Definition digest_line (e : entry) : string :=
  match e with
  | Recommended r =>
      "Town: " +:+ rec_town r
      +:+ ", Years since BTO: " +:+ Py.str (rec_years_since_last_major_launch r)
      +:+ ", Recent activity: " +:+ Py.str (recent_market_activity r)
      +:+ ", Pricing: " +:+ str_pricing (predicted_pricing r)
      +:+ ", Rationale: " +:+ rationale r
  | Estimate f =>
      "Town: " +:+ fb_town f
      +:+ ", Years since BTO: " +:+ Py.str (fb_years_since_last_major_launch f)
      +:+ ", Recent activity: " +:+ Py.str 0
      +:+ ", Pricing: " +:+ str_pricing ∅
      +:+ ", Rationale: " +:+ fb_rationale f
  end.

(** [data_str]: the lines of the first five entries. *)
Definition digest (recs : list entry) : string :=
  Py.join PyStr.newline (digest_line <$> take 5 recs).

(** [GET /recommend], on the list that [recommend_estates()] returned and
    the outcomes of the two LLM services. *)
Definition recommend (recs : list entry) (openai : result string)
    (api_key : bool) (post : result perplexity_reply)
    : response RecommendationResponse :=
  let body : RecommendationResponse + raised :=
    match recs with
    | [] => inr (HTTPException 404 "No recommendations available")
    | _ =>
        inl {| prompt := "limited_bto_last_decade_with_pricing_analysis";
               rr_analysis := analyze_with_llm openai api_key post (digest recs);
               recommended_towns := recs |}
    end in
  match body with
  | inl r => Respond r
  | inr e => HttpError 500 ("Recommendation failed: " +:+ str_raised e)
  end.

(** [GET /town/{town_name}/analysis], on the outcome of
    [load_resale_data()]. *)
Definition get_town_analysis (loaded : option DataFrame) (town_name : string)
    : response analysis :=
  let town_name_clean := PyStr.strip (Py.upper town_name) in
  match get_town_market_analysis_on loaded town_name_clean with
  | ErrorDict error => HttpError 404 error
  | Report a => Respond a
  end.

(** [GET /towns] and [GET /flat-types]: [sorted(df[column].unique())]. *)
Definition sorted_unique (column : list string) : list string :=
  merge_sort String.le (unique column).

Definition list_available_towns (loaded : option DataFrame)
    : response towns_listing :=
  let body : towns_listing + raised :=
    match loaded with
    | None => inr (HTTPException 503 "Data not available")
    | Some df =>
        let towns := sorted_unique (town <$> df) in
        inl {| listed := towns; listed_count := length towns |}
    end in
  match body with
  | inl r => Respond r
  | inr _ => HttpError 500 "Failed to fetch towns"
  end.

Definition list_flat_types (loaded : option DataFrame)
    : response towns_listing :=
  let body : towns_listing + raised :=
    match loaded with
    | None => inr (HTTPException 503 "Data not available")
    | Some df =>
        let flat_types := sorted_unique (flat_type <$> df) in
        inl {| listed := flat_types; listed_count := length flat_types |}
    end in
  match body with
  | inl r => Respond r
  | inr _ => HttpError 500 "Failed to fetch flat types"
  end.

(** [POST /predict].  [model_loaded] and [expected_features] are the
    globals set at startup, [env_discount] is the configured discount,
    [predict_expected] the feature list of [ml_models/predict.py]. *)
Variable model_predict : list (string * Q) → result Q.

Definition predict (model_loaded : bool) (expected_features : list string)
    (predict_expected : option (list string)) (env_discount : Q)
    (req : PredictRequest) : response PredictResponse :=
  if negb model_loaded
  then HttpError 503 "Model not available. Please check model files."
  else
    let body : PredictResponse + raised :=
      if Qle_bool (req_floor_area_sqm req) 0
         || negb (Qle_bool (req_floor_area_sqm req) 300)
      then inr (HTTPException 400 "Invalid floor area")
      else if (req_storey req <? 1) || (50 <? req_storey req)
      then inr (HTTPException 400 "Invalid storey level")
      else if (req_lease_commence_year req <? 1960)
              || (2025 <? req_lease_commence_year req)
      then inr (HTTPException 400 "Invalid lease commence year")
      else
        let features :=
          create_prediction_features expected_features (req_town req)
            (req_flat_type req) (req_floor_area_sqm req) (req_storey req)
            (req_lease_commence_year req) in
        match predict_price model_predict predict_expected features with
        | Raise e => inr (PyError e)
        | Ok resale_price =>
            let bto_price := (resale_price * (1 - env_discount))%Q in
            inl {| resp_town := req_town req;
                   resp_flat_type := req_flat_type req;
                   predicted_resale_price := Py.round2 resale_price;
                   predicted_bto_price := Py.round2 bto_price;
                   affordability := calculate_affordability bto_price |}
        end in
    match body with
    | inl r => Respond r
    | inr (PyError (ValueError msg)) =>
        HttpError 400 ("Invalid input: " +:+ str_raised (PyError (ValueError msg)))
    | inr e => HttpError 500 ("Prediction failed: " +:+ str_raised e)
    end.

End Endpoints.

(** ** The value of a feature, in closed form *)

(** The six numeric features that [create_prediction_features] always
    sets. *)
Definition numeric_feature (floor_area : Q) (storey lease_year : Z)
    (c : string) : option Q :=
  if decide (c = "floor_area_sqm") then Some floor_area
  else if decide (c = "storey_low" ∨ c = "storey_high") then Some (inject_Z storey)
  else if decide (c = "lease_commence_year") then Some (inject_Z lease_year)
  else if decide (c = "tx_year") then Some 2025%Q
  else if decide (c = "tx_month") then Some 6%Q
  else None.

(** What [create_prediction_features] stores under the key [c]. *)
Definition feature_value (expected_features : list string)
    (town0 flat_type0 : string) (floor_area : Q) (storey lease_year : Z)
    (c : string) : option Q :=
  match numeric_feature floor_area storey lease_year c with
  | Some v => Some v
  | None =>
      if decide (c ∈ expected_features)
      then Some (if decide (c = "town_" +:+ town0 ∨ c = "flat_type_" +:+ flat_type0)
                 then 1%Q else 0%Q)
      else None
  end.

(** * Properties *)

(** ** The stable sort *)

Lemma StronglySorted_sublist {A} (R : relation A) (l k : list A) :
  l `sublist_of` k → StronglySorted R k → StronglySorted R l.
Proof.
  induction 1 as [|x l k Hs IH|x l k Hs IH]; intros Hk.
  - constructor.
  - apply StronglySorted_inv in Hk as [Hk Hx]. constructor; [by apply IH|].
    eapply Forall_forall. intros y Hy. eapply Forall_forall in Hx; [done|].
    by eapply elem_of_sublist.
  - apply StronglySorted_inv in Hk as [Hk _]. by apply IH.
Qed.

Lemma StronglySorted_impl {A} (R1 R2 : relation A) (l : list A) :
  (∀ x y, x ∈ l → y ∈ l → R1 x y → R2 x y) →
  StronglySorted R1 l → StronglySorted R2 l.
Proof.
  induction l as [|a l IH]; intros HR Hs; [constructor|].
  apply StronglySorted_inv in Hs as [Hs Ha]. constructor.
  - apply IH; [|done]. intros x y Hx Hy. apply HR; by right.
  - eapply Forall_forall. intros y Hy. apply HR; [by left|by right|].
    by eapply Forall_forall in Ha.
Qed.

Lemma filter_none {A} (P : A → Prop) `{!∀ x, Decision (P x)} (l : list A) :
  (∀ y, y ∈ l → ¬ P y) → filter P l = [].
Proof.
  induction l as [|a l IH]; intros Hl; [done|].
  rewrite filter_cons_False by (apply Hl; by left).
  apply IH. intros y Hy. apply Hl. by right.
Qed.

Section stable_sort_facts.
Context {A : Type} (before : A → A → bool).

Lemma insert_stable_perm (x : A) (l : list A) :
  insert_stable before x l ≡ₚ x :: l.
Proof.
  induction l as [|y l IH]; simpl; [done|].
  destruct (before y x); [|done].
  rewrite IH. apply Permutation_swap.
Qed.

Lemma stable_sort_perm (l : list A) : stable_sort before l ≡ₚ l.
Proof.
  induction l as [|x l IH]; simpl; [done|].
  rewrite insert_stable_perm. by rewrite IH.
Qed.

Lemma stable_sort_length (l : list A) :
  length (stable_sort before l) = length l.
Proof. apply Permutation_length, stable_sort_perm. Qed.

Lemma elem_of_stable_sort (x : A) (l : list A) :
  x ∈ stable_sort before l ↔ x ∈ l.
Proof. by rewrite stable_sort_perm. Qed.

(** The keys form a strict weak order. *)
Hypothesis before_asym : ∀ x y, before x y = true → before y x = false.
Hypothesis before_negtrans :
  ∀ x y z, before x y = false → before y z = false → before x z = false.

(** [pos] is the order in which the input list presents its elements. *)
Variable pos : relation A.

Lemma insert_stable_ahead (x : A) (s : list A) :
  StronglySorted (ahead before pos) s → Forall (pos x) s →
  StronglySorted (ahead before pos) (insert_stable before x s).
Proof.
  induction s as [|y s IH]; simpl; intros Hs Hx.
  - repeat constructor.
  - apply StronglySorted_inv in Hs as [Hs Hy].
    apply Forall_cons in Hx as [Hxy Hxs].
    destruct (before y x) eqn:Hyx.
    + constructor; [by apply IH|].
      rewrite insert_stable_perm. constructor; [by left|done].
    + constructor; [by constructor|].
      constructor.
      * destruct (before x y) eqn:E; [by left|by right].
      * eapply Forall_forall. intros z Hz.
        eapply Forall_forall in Hy; [|done].
        eapply Forall_forall in Hxs; [|done].
        destruct (before x z) eqn:E; [by left|right].
        split; [done|]. split; [|done].
        apply before_negtrans with y; [|done].
        destruct Hy as [Hy|(_ & Hy & _)]; [by apply before_asym|done].
Qed.

Lemma stable_sort_ahead (l : list A) :
  StronglySorted pos l → StronglySorted (ahead before pos) (stable_sort before l).
Proof.
  induction l as [|x l IH]; simpl; intros Hl; [constructor|].
  apply StronglySorted_inv in Hl as [Hl Hx].
  apply insert_stable_ahead; [by apply IH|].
  by rewrite stable_sort_perm.
Qed.

Hypothesis pos_asym : ∀ x y, pos x y → pos y x → False.

Lemma ahead_asym (x y : A) : ahead before pos x y → ahead before pos y x → False.
Proof.
  intros [H1|(H1 & H1' & Hp1)] [H2|(H2 & H2' & Hp2)].
  - apply before_asym in H1. congruence.
  - congruence.
  - congruence.
  - eauto.
Qed.

Context `{!∀ x y, Decision (pos x y)}.

(** In a list sorted by [ahead], the place of an element is the number
    of elements ahead of it. *)
Lemma elem_of_take_sorted (s : list A) (x : A) (n : nat) :
  StronglySorted (ahead before pos) s → x ∈ s →
  x ∈ take n s ↔ (length (filter (λ y, ahead before pos y x) s) < n)%nat.
Proof.
  intros Hs. revert n. induction Hs as [|a s Hs IH Ha]; intros n Hx.
  { by apply elem_of_nil in Hx. }
  assert (Hnone : ∀ y, y ∈ s → ahead before pos a y) by (by apply Forall_forall).
  destruct (decide (ahead before pos a x)) as [Hax|Hax].
  - assert (x ∈ s) as Hxs.
    { apply elem_of_cons in Hx as [->|]; [|done].
      exfalso. by eapply ahead_asym. }
    assert (x ≠ a) by (intros ->; by eapply ahead_asym).
    rewrite filter_cons_True by done. simpl.
    destruct n as [|n]; simpl.
    + split; [intros ?%elem_of_nil; done|lia].
    + rewrite elem_of_cons, IH by done. split; [intros [|]; [done|lia]|].
      intros. right. lia.
  - assert (x = a) as ->.
    { apply elem_of_cons in Hx as [|Hx]; [done|]. by apply Hnone in Hx. }
    rewrite filter_cons_False by done.
    assert (filter (λ y, ahead before pos y a) s = []) as ->.
    { apply filter_none. intros y Hy Hya. eapply ahead_asym; [|exact Hya].
      by apply Hnone. }
    destruct n; simpl.
    + split; [intros ?%elem_of_nil; done|lia].
    + split; [lia|]. intros _. by left.
Qed.
End stable_sort_facts.

(** ** The price estimate *)

(** C2.  The estimate is the median price of the recent matching rows
    (transaction year 2022 or later) whenever there are at least ten of
    them; it is the median over all matching rows when there are fewer
    than ten recent ones and at least one matching row; and it is [None]
    exactly when no row of the table matches the town and flat type. *)
Theorem calculate_single_pricing_tiers (df : DataFrame) (t ft : string) :
  let recent := filter (matching_recent t ft) df in
  let all := filter (matching t ft) df in
  ((10 ≤ length recent)%nat →
     _calculate_single_pricing df t ft = Some (Pd.median (resale_price <$> recent)))
  ∧ ((length recent < 10)%nat → (0 < length all)%nat →
     _calculate_single_pricing df t ft = Some (Pd.median (resale_price <$> all)))
  ∧ (_calculate_single_pricing df t ft = None ↔ length all = 0%nat)
  ∧ (length all = 0%nat ↔ ∀ r, r ∈ df → ¬ (town r = t ∧ flat_type r = ft))
  ∧ recent = filter (λ r, 2022 ≤ transaction_year r) all
  ∧ (length recent ≤ length all)%nat.
Proof.
  intros recent all.
  assert (recent = filter (λ r, 2022 ≤ transaction_year r) all) as Hrec.
  { unfold recent, all. rewrite list_filter_filter.
    apply list_filter_iff. intros r. unfold matching_recent, matching. tauto. }
  assert (length recent ≤ length all)%nat as Hle.
  { rewrite Hrec. apply length_filter. }
  unfold _calculate_single_pricing. fold recent all.
  split_and!; [| |split| |done..].
  - intros H. repeat case_decide; try done; lia.
  - intros H1 H2. repeat case_decide; try done; lia.
  - repeat case_decide; try done. lia.
  - intros H. repeat case_decide; try done; lia.
  - split.
    + intros H r Hr Hm. assert (r ∈ all) as Hin.
      { apply list_elem_of_filter. by split. }
      destruct all; [by apply elem_of_nil in Hin|done].
    + intros H. destruct all as [|r all'] eqn:E; [done|].
      assert (r ∈ filter (matching t ft) df) as Hin
        by (fold all; rewrite E; by left).
      apply list_elem_of_filter in Hin as [Hm Hin]. by apply H in Hin.
Qed.

(** ** Gap analysis *)

Lemma StronglySorted_lookup_lt {A} (R : relation A) (l : list A) i j x y :
  StronglySorted R l → (i < j)%nat → l !! i = Some x → l !! j = Some y → R x y.
Proof.
  intros Hs. revert i j. induction Hs as [|a l Hs IH Ha]; intros i j Hij Hi Hj.
  { done. }
  destruct j as [|j]; [lia|]. simpl in Hj.
  destruct i as [|i]; simpl in Hi.
  - injection Hi as ->. eapply Forall_forall in Ha; [done|].
    by eapply list_elem_of_lookup_2.
  - eapply IH; [|done..]. lia.
Qed.

Lemma StronglySorted_precedes {A} (R : relation A) (l : list A) a b :
  (∀ x y, R x y → R y x → False) →
  StronglySorted R l → a ∈ l → b ∈ l → R a b → precedes l a b.
Proof.
  intros Hasym Hs [i Hi]%list_elem_of_lookup [j Hj]%list_elem_of_lookup Hab.
  exists i, j. split; [|done].
  destruct (lt_eq_lt_dec i j) as [[?| ->]|?]; [done|..].
  - rewrite Hi in Hj. injection Hj as ->. exfalso. eauto.
  - exfalso. eapply Hasym; [done|]. by eapply StronglySorted_lookup_lt.
Qed.

Lemma length_filter_fmap {A B} (f : A → B) (P : B → Prop) `{!∀ y, Decision (P y)}
    (l : list A) :
  length (filter P (f <$> l)) = length (filter (λ x, P (f x)) l).
Proof.
  induction l as [|x l IH]; [done|]. rewrite fmap_cons, !filter_cons.
  destruct (decide (P (f x))); simpl; by rewrite IH.
Qed.

Lemma gap_before_true (a b : town_stats) :
  gap_before a b = true ↔
  years_since_last_major_launch b < years_since_last_major_launch a
  ∨ (years_since_last_major_launch a = years_since_last_major_launch b
     ∧ recent_transactions b < recent_transactions a).
Proof.
  unfold gap_before.
  rewrite orb_true_iff, andb_true_iff, !Z.ltb_lt, Z.eqb_eq. tauto.
Qed.

Lemma gap_before_false (a b : town_stats) :
  gap_before a b = false ↔ gap_ge b a.
Proof.
  rewrite <-not_true_iff_false, gap_before_true. unfold gap_ge. lia.
Qed.

Lemma gap_before_asym a b : gap_before a b = true → gap_before b a = false.
Proof. rewrite gap_before_true, gap_before_false. unfold gap_ge. lia. Qed.

Lemma gap_before_negtrans a b c :
  gap_before a b = false → gap_before b c = false → gap_before a c = false.
Proof. rewrite !gap_before_false. unfold gap_ge. lia. Qed.

Lemma name_before_asym a b : name_before a b → name_before b a → False.
Proof.
  intros [H1 Hne] [H2 _]. apply Hne. by apply (anti_symm String.le).
Qed.

Lemma ahead_ranks_ahead a b :
  ahead gap_before name_before a b ↔ ranks_ahead a b.
Proof.
  unfold ahead, ranks_ahead, gap_tied.
  rewrite gap_before_true, !gap_before_false. unfold gap_ge.
  generalize (name_before a b). intros P. split; intros H; intuition lia.
Qed.

(** The keys of the groupby: each town of the table once, ascending. *)
Lemma elem_of_groupby_keys df t :
  t ∈ groupby_keys df ↔ ∃ r, r ∈ df ∧ town r = t.
Proof.
  unfold groupby_keys.
  rewrite merge_sort_Permutation, elem_of_remove_dups, list_elem_of_fmap.
  split; intros (r & Hr & Hr'); exists r; by split.
Qed.

Lemma groupby_keys_NoDup df : NoDup (groupby_keys df).
Proof.
  unfold groupby_keys. rewrite merge_sort_Permutation. apply NoDup_remove_dups.
Qed.

Lemma groupby_keys_ascending df :
  StronglySorted (λ a b : string, (a ≤ b)%string ∧ a ≠ b) (groupby_keys df).
Proof.
  pose proof (groupby_keys_NoDup df) as Hnd.
  assert (StronglySorted String.le (groupby_keys df)) as Hs.
  { apply Sorted_StronglySorted; [apply _|].
    unfold groupby_keys. apply Sorted_merge_sort. apply _. }
  induction Hs as [|a l Hs IH Ha]; [constructor|].
  apply NoDup_cons in Hnd as [Hnotin Hnd]. constructor; [by apply IH|].
  eapply Forall_forall. intros b Hb. split.
  - by eapply Forall_forall in Ha.
  - by intros ->.
Qed.

Lemma groupby_town_ascending df :
  StronglySorted name_before (groupby_town df).
Proof.
  unfold groupby_town.
  eapply StronglySorted_fmap; [|apply groupby_keys_ascending].
  by intros x y.
Qed.

Lemma elem_of_groupby_town df s :
  s ∈ groupby_town df ↔ s = aggregate df (ts_town s) ∧ ∃ r, r ∈ df ∧ town r = ts_town s.
Proof.
  unfold groupby_town. rewrite list_elem_of_fmap. split.
  - intros (k & -> & Hk). simpl. by apply elem_of_groupby_keys in Hk.
  - intros [Hs Hr]. exists (ts_town s). split; [done|].
    by apply elem_of_groupby_keys.
Qed.

(** A town with a positive transaction count occurs in the table. *)
Lemma aggregate_total_pos df z :
  0 < total_transactions (aggregate df z) → ∃ r, r ∈ df ∧ town r = z.
Proof.
  simpl. intros H. destruct (group df z) as [|r g] eqn:E; [simpl in H; lia|].
  exists r. assert (r ∈ group df z) as Hin by (rewrite E; by left).
  unfold group in Hin. by apply list_elem_of_filter in Hin as [? ?].
Qed.

(** The candidates before the cut to eight: sorted by [ranks_ahead]. *)
Lemma ranked_sorted df :
  StronglySorted ranks_ahead
    (stable_sort gap_before (filter qualified (groupby_town df))).
Proof.
  eapply StronglySorted_impl; [intros x y _ _; apply ahead_ranks_ahead|].
  apply stable_sort_ahead;
    [apply gap_before_asym|apply gap_before_negtrans|].
  eapply StronglySorted_sublist; [apply sublist_filter|].
  apply groupby_town_ascending.
Qed.

Lemma ranks_ahead_count df z :
  length (filter (λ y, ranks_ahead y (aggregate df z))
            (stable_sort gap_before (filter qualified (groupby_town df))))
  = zones_ahead df z.
Proof.
  rewrite (Permutation_length
    (filter_Permutation _ _ _ (stable_sort_perm gap_before _))).
  rewrite list_filter_filter. unfold groupby_town.
  rewrite length_filter_fmap. unfold zones_ahead.
  apply Permutation_length.
  erewrite list_filter_iff.
  - apply filter_Permutation. unfold groupby_keys. apply merge_sort_Permutation.
  - intros k. simpl. tauto.
Qed.

Lemma elem_of_take_ranked df s n :
  let ranked := stable_sort gap_before (filter qualified (groupby_town df)) in
  s ∈ ranked →
  s ∈ take n ranked ↔ (length (filter (λ y, ranks_ahead y s) ranked) < n)%nat.
Proof.
  intros ranked Hs.
  rewrite (elem_of_take_sorted gap_before gap_before_asym
             name_before name_before_asym ranked s n).
  - erewrite list_filter_iff; [done|]. intros y. apply ahead_ranks_ahead.
  - apply stable_sort_ahead;
      [apply gap_before_asym|apply gap_before_negtrans|].
    eapply StronglySorted_sublist; [apply sublist_filter|].
    apply groupby_town_ascending.
  - done.
Qed.

Lemma elem_of_ranked df s :
  s ∈ stable_sort gap_before (filter qualified (groupby_town df)) ↔
  qualified s ∧ s = aggregate df (ts_town s).
Proof.
  rewrite elem_of_stable_sort, list_elem_of_filter, elem_of_groupby_town.
  split; [tauto|]. intros [Hq Hs]. split_and!; [done..|].
  apply aggregate_total_pos. rewrite <-Hs. destruct Hq. lia.
Qed.

Lemma analyze_bto_gaps_unfold df :
  analyze_bto_gaps (Some df)
  = take 8 (stable_sort gap_before (filter qualified (groupby_town df))).
Proof. by destruct df. Qed.

(** C3.  A town has a summary in the output of the gap analysis exactly
    when it has more than 100 transactions, at least 5 years have passed
    since its newest lease year, and fewer than 8 qualifying towns are
    ranked ahead of it.  Each summary is the aggregate of its town, at most
    8 summaries are returned, and an empty (or missing) table gives the
    empty list. *)
Theorem analyze_bto_gaps_members (df : DataFrame) (z : string) :
  ((∃ s, s ∈ analyze_bto_gaps (Some df) ∧ ts_town s = z) ↔
     100 < Z.of_nat (length (filter (λ r, town r = z) df))
     ∧ 5 ≤ 2025 - Pd.max_Z 0 (lease_commence_date <$> filter (λ r, town r = z) df)
     ∧ (zones_ahead df z < 8)%nat)
  ∧ (∀ s, s ∈ analyze_bto_gaps (Some df) → s = aggregate df (ts_town s))
  ∧ (length (analyze_bto_gaps (Some df)) ≤ 8)%nat
  ∧ analyze_bto_gaps (Some []) = []
  ∧ analyze_bto_gaps None = [].
Proof.
  rewrite analyze_bto_gaps_unfold.
  set (ranked := stable_sort gap_before (filter qualified (groupby_town df))).
  split_and!; [split| | |done..].
  - intros (s & Hs & <-).
    assert (s ∈ ranked) as Hr.
    { eapply elem_of_sublist; [done|apply sublist_take]. }
    apply elem_of_take_ranked in Hs; [|done].
    apply elem_of_ranked in Hr as [Hq Heq].
    rewrite Heq in Hs. rewrite ranks_ahead_count in Hs.
    rewrite Heq in Hq. destruct Hq as [Hq1 Hq2]. done.
  - intros (H1 & H2 & H3).
    assert (aggregate df z ∈ ranked) as Hr.
    { apply elem_of_ranked. by split. }
    exists (aggregate df z). split; [|done].
    apply elem_of_take_ranked; [done|]. fold ranked.
    unfold ranked. by rewrite ranks_ahead_count.
  - intros s Hs. assert (s ∈ ranked) as Hr.
    { eapply elem_of_sublist; [done|apply sublist_take]. }
    by apply elem_of_ranked in Hr as [_ ?].
  - rewrite length_take. lia.
Qed.

(** C4.  The output of the gap analysis is non-increasing in the pair
    (years since launch, recent count), and two summaries that agree on
    both appear in the order in which the groupby met their towns. *)
Theorem analyze_bto_gaps_sorted_stable (df : DataFrame) :
  StronglySorted
    (λ a b, gap_ge a b ∧ (gap_tied a b → precedes (groupby_town df) a b))
    (analyze_bto_gaps (Some df)).
Proof.
  rewrite analyze_bto_gaps_unfold.
  eapply StronglySorted_sublist; [apply sublist_take|].
  eapply StronglySorted_impl; [|apply ranked_sorted].
  intros a b Ha Hb Hab.
  apply elem_of_stable_sort, list_elem_of_filter in Ha as [_ Ha].
  apply elem_of_stable_sort, list_elem_of_filter in Hb as [_ Hb].
  unfold ranks_ahead, gap_tied, gap_ge in *. split; [lia|].
  intros Htie. destruct Hab as [?|[?|[_ Hn]]]; [lia..|].
  eapply StronglySorted_precedes;
    [apply name_before_asym|apply groupby_town_ascending|done..].
Qed.

(** ** Recommendations *)

Lemma collect_recommendations_all df candidates :
  collect_recommendations df candidates = recommendation_for df <$> candidates.
Proof.
  unfold collect_recommendations.
  assert (∀ acc, foldl (λ recommendations town_info,
                          match process_candidate df town_info with
                          | Ok r => recommendations ++ [r]
                          | Raise _ => recommendations
                          end) acc candidates
                 = acc ++ (recommendation_for df <$> candidates)) as H.
  { induction candidates as [|c cs IH]; intros acc; simpl.
    - by rewrite app_nil_r.
    - rewrite IH. by rewrite <-app_assoc. }
  apply H.
Qed.

Lemma elem_of_recommend_estates_on df e :
  e ∈ recommend_estates_on (Some df) →
  ∃ info, info ∈ analyze_bto_gaps (Some df)
          ∧ e = Recommended (recommendation_for df info).
Proof.
  unfold recommend_estates_on, ranking, or_fallback.
  rewrite collect_recommendations_all.
  intros (r & -> & Hr)%list_elem_of_fmap.
  assert (r ∈ stable_sort rec_before
            (recommendation_for df <$> take 6 (analyze_bto_gaps (Some df))))
    as Hr' by (eapply elem_of_sublist; [done|apply sublist_take]).
  apply elem_of_stable_sort, list_elem_of_fmap in Hr' as (info & -> & Hinfo).
  exists info. split; [|done].
  eapply elem_of_sublist; [done|apply sublist_take].
Qed.

Lemma recommend_estates_on_length df :
  length (recommend_estates_on (Some df))
  = Nat.min 6 (length (analyze_bto_gaps (Some df))).
Proof.
  unfold recommend_estates_on, ranking, or_fallback.
  rewrite collect_recommendations_all.
  rewrite length_fmap, length_take, stable_sort_length, length_fmap, length_take.
  lia.
Qed.

(** *** The pricing mapping *)

Lemma truthy_true (p : Q) : Py.truthy p = true ↔ ¬ p == 0.
Proof.
  unfold Py.truthy. rewrite negb_true_iff, <-not_true_iff_false.
  by rewrite Qeq_bool_iff.
Qed.

Lemma truthy_false (p : Q) : Py.truthy p = false ↔ p == 0.
Proof.
  unfold Py.truthy. rewrite negb_false_iff. apply Qeq_bool_iff.
Qed.

Lemma add_pricing_lookup df t (acc : gmap string Z) ft k :
  add_pricing df t acc ft !! k =
  if bool_decide (pricing_key ft = k)
  then from_option Some (acc !! k) (pricing_entry df t ft)
  else acc !! k.
Proof.
  unfold add_pricing, pricing_entry.
  destruct (_calculate_single_pricing df t ft) as [p|]; [|by case_bool_decide].
  destruct (Py.truthy p); simpl; [|by case_bool_decide].
  case_bool_decide as Hk.
  - subst k. apply lookup_insert_eq.
  - by apply lookup_insert_ne.
Qed.

(** Whatever the list of flat types, a key is present only with the
    discounted, rounded estimate of one of the flat types it stands for. *)
Lemma pricing_for_present df t fts k v :
  pricing_for df t fts !! k = Some v →
  ∃ ft p, ft ∈ fts ∧ k = pricing_key ft
          ∧ _calculate_single_pricing df t ft = Some p
          ∧ ¬ p == 0 ∧ v = bto_price p.
Proof.
  unfold pricing_for.
  assert (∀ acc : gmap string Z,
    foldl (add_pricing df t) acc fts !! k = Some v →
    acc !! k = Some v ∨
    ∃ ft p, ft ∈ fts ∧ k = pricing_key ft
            ∧ _calculate_single_pricing df t ft = Some p
            ∧ ¬ p == 0 ∧ v = bto_price p) as Hgen.
  { induction fts as [|ft fts IH]; intros acc; simpl; [by left|].
    intros [Hacc|(ft' & p & Hin & ?)]%IH.
    - rewrite add_pricing_lookup in Hacc. unfold pricing_entry in Hacc.
      case_bool_decide; [|by left].
      destruct (_calculate_single_pricing df t ft) as [p|] eqn:E; [|by left].
      destruct (Py.truthy p) eqn:Ht; simpl in Hacc; [|by left].
      right. exists ft, p.
      injection Hacc as <-. apply truthy_true in Ht.
      split_and!; [by left|done..].
    - right. exists ft', p. split; [by right|done]. }
  intros [Hempty|?]%Hgen; [|done]. by rewrite lookup_empty in Hempty.
Qed.

Lemma pricing_keys : pricing_key <$> flat_types = ["3_room"; "4_room"; "5_room"].
Proof. reflexivity. Qed.

Lemma pricing_for_flat_types_lookup df t ft :
  ft ∈ flat_types →
  pricing_for df t flat_types !! pricing_key ft = pricing_entry df t ft.
Proof.
  intros Hft. unfold pricing_for, flat_types in *. simpl foldl.
  rewrite !add_pricing_lookup, lookup_empty.
  repeat (apply elem_of_cons in Hft as [->|Hft]);
    [..|by apply elem_of_nil in Hft];
    generalize (pricing_entry df t "3 ROOM") (pricing_entry df t "4 ROOM")
               (pricing_entry df t "5 ROOM");
    intros [?|] [?|] [?|]; reflexivity.
Qed.

(** C10.  For every table and town, a flat type of the pricing loop whose
    estimate is [None] or zero has no key in the pricing mapping, so the two
    cases cannot be told apart; a flat type with a non-zero estimate appears
    under its lower-cased, underscored key with the rounded value of
    estimate * 0.8; the mapping has no other keys; and this mapping is the
    [predicted_pricing] of every recommendation returned for the town. *)
Theorem pricing_omits_falsy_estimates
    (df : DataFrame) (t : string) (ft : string) :
  ft ∈ flat_types →
  let estimate := _calculate_single_pricing df t in
  let pricing := pricing_for df t flat_types in
  ((estimate ft = None ∨ ∃ p, estimate ft = Some p ∧ p == 0)
     ↔ pricing !! pricing_key ft = None)
  ∧ (∀ p, estimate ft = Some p → ¬ p == 0 →
       pricing !! Py.replace_char " " "_" (Py.lower ft)
       = Some (Py.round (p * 0.8)))
  ∧ (∀ k v, pricing !! k = Some v →
       ∃ ft' p, ft' ∈ flat_types
                ∧ k = Py.replace_char " " "_" (Py.lower ft')
                ∧ estimate ft' = Some p ∧ ¬ p == 0
                ∧ v = Py.round (p * 0.8))
  ∧ (∀ r, Recommended r ∈ recommend_estates_on (Some df) → rec_town r = t →
       predicted_pricing r = pricing).
Proof.
  intros Hft. simpl. fold (pricing_key ft).
  rewrite pricing_for_flat_types_lookup by done.
  unfold pricing_entry.
  split_and!;
    [| |intros k v Hk; by apply pricing_for_present in Hk
     |intros r (info & _ & [= ->])%elem_of_recommend_estates_on <-; done];
    destruct (_calculate_single_pricing df t ft) as [p|].
  - destruct (Py.truthy p) eqn:Ht.
    + apply truthy_true in Ht. split; [|done].
      intros [|(p' & [= <-] & ?)]; done.
    + apply truthy_false in Ht. split; [done|]. intros _. right. by exists p.
  - split; [done|]. intros _. by left.
  - intros p' [= <-] Hp. apply truthy_true in Hp. by rewrite Hp.
  - done.
Qed.


(** *** The rationale *)

(** With a four-room price in the mapping the clauses are the three of the
    specification, in its order. *)
Lemma rationale_parts_priced years recent (pricing : gmap string Z) price :
  pricing !! "4_room" = Some price →
  rationale_parts years recent pricing =
  (if decide (8 ≤ years)
   then ["No major launches for " +:+ Py.str years +:+ " years"] else [])
  ++ (if decide (50 < recent)
      then ["Active resale market (" +:+ Py.str recent
            +:+ " recent transactions)"] else [])
  ++ (if decide (price < 400000) then ["Affordable pricing segment"] else []).
Proof. intros H. unfold rationale_parts. by rewrite H. Qed.

(** Without one, the lookup default 0 is below 400000 and the third
    clause is always there. *)
Lemma rationale_parts_unpriced years recent (pricing : gmap string Z) :
  pricing !! "4_room" = None →
  rationale_parts years recent pricing =
  (if decide (8 ≤ years)
   then ["No major launches for " +:+ Py.str years +:+ " years"] else [])
  ++ (if decide (50 < recent)
      then ["Active resale market (" +:+ Py.str recent
            +:+ " recent transactions)"] else [])
  ++ ["Affordable pricing segment"].
Proof. intros H. unfold rationale_parts. by rewrite H. Qed.

Lemma rationale_moderate years recent (pricing : gmap string Z) :
  rationale_of years recent pricing = "Moderate BTO opportunity" →
  years < 8 ∧ recent ≤ 50 ∧ ∃ price, pricing !! "4_room" = Some price ∧ 400000 ≤ price.
Proof.
  unfold rationale_of.
  destruct (pricing !! "4_room") as [price|] eqn:E.
  - rewrite (rationale_parts_priced _ _ _ price E).
    repeat case_decide; simpl; try discriminate.
    intros _. split_and!; [lia..|]. exists price. split; [done|lia].
  - rewrite (rationale_parts_unpriced _ _ _ E).
    repeat case_decide; simpl; discriminate.
Qed.

Example rationale_clause_order :
  rationale_of 9 60 {["4_room" := 380000]}
  = "No major launches for 9 years; Active resale market (60 recent transactions); Affordable pricing segment".
Proof. reflexivity. Qed.

(** C5, at a table on which the code departs from the claim: a qualifying
    town without any four-room record.  Its gap is 6 and its recent
    activity 0, no four-room price is present, and the rationale is
    the affordability clause instead of the moderate default. *)
Theorem rationale_affordable_without_4room_price :
  ∃ r, recommend_estates_on (Some no_4room_table) = [Recommended r]
       ∧ rec_years_since_last_major_launch r = 6
       ∧ recent_market_activity r = 0
       ∧ predicted_pricing r !! "4_room" = None
       ∧ rationale r = "Affordable pricing segment".
Proof.
  eexists. split; [vm_compute; reflexivity|]. by vm_compute.
Qed.

(** *** The demand score *)

Lemma round_integral (q : Q) (n : Z) : q == inject_Z n → Py.round q = n.
Proof.
  intros H. unfold Py.round.
  rewrite (Qfloor_comp _ _ H), Qfloor_Z.
  assert (q - inject_Z n == 0)%Q as H0 by (rewrite H; ring).
  by rewrite (Qcompare_comp _ _ H0 (1 # 2) (1 # 2) (Qeq_refl _)).
Qed.

Lemma round2_hundredths (q : Q) (n : Z) :
  (q * 100 == inject_Z n)%Q → (Py.round2 q == q)%Q.
Proof.
  intros H. unfold Py.round2. rewrite (round_integral _ _ H), Qred_correct.
  unfold Qeq in *. simpl in *. lia.
Qed.

Lemma demand_score_of_pos (g : Z) :
  0 < g → (demand_score_of g == Qmin (inject_Z g / 10) 1)%Q.
Proof.
  intros Hg. unfold demand_score_of. rewrite decide_True by done.
  destruct (Qlt_le_dec 1 (inject_Z g / 10)) as [H|H].
  - symmetry. apply Q.min_r. by apply Qlt_le_weak.
  - symmetry. by apply Q.min_l.
Qed.

Lemma demand_score_of_hundredths (g : Z) :
  ∃ n, (demand_score_of g * 100 == inject_Z n)%Q.
Proof.
  unfold demand_score_of. case_decide.
  - destruct (Qlt_le_dec 1 (inject_Z g / 10)).
    + by exists 100.
    + exists (10 * g). unfold Qeq. simpl. lia.
  - by exists 50.
Qed.

Lemma demand_score_rounded (g : Z) :
  (Py.round2 (demand_score_of g) == demand_score_of g)%Q.
Proof.
  destruct (demand_score_of_hundredths g) as [n Hn].
  by eapply round2_hundredths.
Qed.

Lemma analyze_bto_gaps_years df info :
  info ∈ analyze_bto_gaps (Some df) →
  5 ≤ years_since_last_major_launch info.
Proof.
  rewrite analyze_bto_gaps_unfold. intros H.
  assert (info ∈ stable_sort gap_before (filter qualified (groupby_town df)))
    as [[_ Hq] _]%elem_of_ranked
    by (eapply elem_of_sublist; [done|apply sublist_take]).
  done.
Qed.

Lemma recommended_entry (loaded : option DataFrame) (r : recommendation) :
  Recommended r ∈ recommend_estates_on loaded →
  ∃ df info, loaded = Some df ∧ info ∈ analyze_bto_gaps (Some df)
             ∧ r = recommendation_for df info.
Proof.
  destruct loaded as [df|].
  - intros (i & Hi & [= ->])%elem_of_recommend_estates_on. by exists df, i.
  - simpl. intros [=]%list_elem_of_singleton.
Qed.

(** C9.  The score of an entry is min(gap / 10, 1) for a positive gap and
    0.5 otherwise, and it lies between 0 and 1.  Every entry that
    [recommend_estates] returns has a gap of at least 5, so its score is
    min(gap / 10, 1), and over the returned entries, of one table or of
    two, the score is non-decreasing in the gap. *)
Theorem demand_score_formula (df : DataFrame) (info : town_stats) :
  let g := years_since_last_major_launch info in
  let score := demand_score (recommendation_for df info) in
  (0 < g → (score == Qmin (inject_Z g / 10) 1)%Q)
  ∧ (g ≤ 0 → (score == 1 # 2)%Q)
  ∧ (0 <= score)%Q ∧ (score <= 1)%Q
  ∧ (∀ info', 0 < g → g ≤ years_since_last_major_launch info' →
       (score <= demand_score (recommendation_for df info'))%Q)
  ∧ (∀ loaded loaded' r r',
        Recommended r ∈ recommend_estates_on loaded →
        Recommended r' ∈ recommend_estates_on loaded' →
        5 ≤ rec_years_since_last_major_launch r
        ∧ (demand_score r
           == Qmin (inject_Z (rec_years_since_last_major_launch r) / 10) 1)%Q
        ∧ (rec_years_since_last_major_launch r
             ≤ rec_years_since_last_major_launch r' →
           demand_score r <= demand_score r')%Q).
Proof.
  assert (Hpos : ∀ g g', 0 < g → g ≤ g' →
    (Py.round2 (demand_score_of g) <= Py.round2 (demand_score_of g'))%Q).
  { intros g g' Hg Hgg'. rewrite !demand_score_rounded.
    rewrite !demand_score_of_pos by lia.
    apply Q.min_le_compat_r. apply Qmult_le_compat_r; [|done].
    by rewrite <-Zle_Qle. }
  intros g score. unfold score. simpl demand_score. fold g.
  split_and!.
  - intros Hg. by rewrite demand_score_rounded, demand_score_of_pos.
  - intros Hg. rewrite demand_score_rounded. unfold demand_score_of.
    by rewrite decide_False by lia.
  - rewrite demand_score_rounded. unfold demand_score_of.
    case_decide; [|done].
    destruct (Qlt_le_dec 1 (inject_Z g / 10)); [done|].
    apply Qle_shift_div_l; [done|]. rewrite Qmult_0_l.
    change 0%Q with (inject_Z 0). rewrite <-Zle_Qle. lia.
  - rewrite demand_score_rounded. unfold demand_score_of.
    case_decide; [|done].
    by destruct (Qlt_le_dec 1 (inject_Z g / 10)).
  - intros info' Hg Hle. by apply Hpos.
  - intros loaded loaded' r r'
      (d & i & _ & Hi & ->)%recommended_entry
      (d' & i' & _ & Hi' & ->)%recommended_entry.
    apply analyze_bto_gaps_years in Hi, Hi'. simpl. split_and!; [done| |].
    + rewrite demand_score_rounded, demand_score_of_pos; [done|lia].
    + intros Hle. apply Hpos; lia.
Qed.

(** *** The length of the result *)

(** C1, as the code has it.  The result never has more than 6 entries.  It
    is the one-element fallback list when the table is unavailable or when
    an exception leaves the ranking.  For an available table it has as many
    entries as the gap analysis returns candidates, up to 6: it is empty
    exactly when no town qualifies. *)
Theorem recommend_estates_length (loaded : option DataFrame) :
  (length (recommend_estates_on loaded) ≤ 6)%nat
  ∧ (loaded = None →
       recommend_estates_on loaded = [Estimate data_unavailable_fallback])
  ∧ (∀ e, or_fallback (Raise e) = [Recommended system_error_fallback])
  ∧ (∀ df, loaded = Some df →
       length (recommend_estates_on loaded)
       = Nat.min 6 (length (analyze_bto_gaps (Some df)))
       ∧ (recommend_estates_on loaded = [] ↔ analyze_bto_gaps (Some df) = []))
  ∧ (entry_town (Estimate data_unavailable_fallback) = "WOODLANDS"
     ∧ entry_rationale (Estimate data_unavailable_fallback)
       = "Data unavailable - using fallback estimate"
     ∧ entry_town (Recommended system_error_fallback) = "WOODLANDS"
     ∧ entry_rationale (Recommended system_error_fallback)
       = "Fallback recommendation - system error occurred")
  ∧ (∀ to_datetime_year io p,
       (length (recommend_estates to_datetime_year io p).2 ≤ 6)%nat).
Proof.
  assert (Hlen : ∀ l, (length (recommend_estates_on l) ≤ 6)%nat).
  { intros [df|]; [|simpl; lia]. rewrite recommend_estates_on_length. lia. }
  split_and!; try done.
  - by intros ->.
  - intros df ->. split; [apply recommend_estates_on_length|].
    rewrite <-!length_zero_iff_nil, recommend_estates_on_length. lia.
  - intros to_dt io p. unfold recommend_estates.
    destruct (load_resale_data to_dt io p) as [p' [df|e]]; simpl.
    + apply (Hlen df).
    + lia.
Qed.

(** ** The cached loader *)

Lemma missing_columns_empty (cols : list string) :
  (list_to_set required_columns ∖ list_to_set cols : gset string) = ∅
  ↔ ∀ c, c ∈ required_columns → c ∈ cols.
Proof.
  split.
  - intros H c Hc. destruct (decide (c ∈ cols)) as [|Hn]; [done|].
    assert (c ∈ (list_to_set required_columns ∖ list_to_set cols : gset string))
      as Hin by (apply elem_of_difference; rewrite !elem_of_list_to_set; done).
    rewrite H in Hin. by apply not_elem_of_empty in Hin.
  - intros H. apply set_eq. intros c.
    rewrite elem_of_difference, !elem_of_list_to_set.
    split; [|by intros ?%not_elem_of_empty]. intros [Hc Hn]. by apply H in Hc.
Qed.

Section loader_facts.
Variable to_datetime_year : string → option Z.

Lemma reload_failure io self :
  (∃ e, read_csv io = Raise e)
  ∨ (∃ csv c, read_csv io = Ok csv ∧ c ∈ required_columns
              ∧ c ∉ csv_columns csv) →
  ∃ e, reload to_datetime_year io self = (self, Raise e).
Proof.
  unfold reload, bind, lift, raise.
  intros [[e ->]|(csv & c & -> & Hc & Hn)]; [by exists e|].
  rewrite decide_False; [by eexists|].
  intros H. apply Hn. by eapply missing_columns_empty.
Qed.

Lemma reload_cases io self :
  (∃ e, reload to_datetime_year io self = (self, Raise e))
  ∨ (∃ csv, read_csv io = Ok csv
            ∧ (∀ c, c ∈ required_columns → c ∈ csv_columns csv)
            ∧ reload to_datetime_year io self
              = ({| _data_cache := Some (preprocess to_datetime_year (csv_rows csv));
                    _cache_timestamp := Some (clock_at_store io);
                    cache_duration := cache_duration self |},
                 Ok (Some (preprocess to_datetime_year (csv_rows csv))))).
Proof.
  unfold reload, bind, lift, raise.
  destruct (read_csv io) as [csv|e]; [|left; by exists e].
  case_decide as Hm; [|left; by eexists].
  right. exists csv. split; [done|]. split; [|done].
  by apply missing_columns_empty.
Qed.

Lemma load_resale_data_body_cases io self :
  (cache_fresh io self
   ∧ load_resale_data_body to_datetime_year io self
     = (self, Ok (_data_cache self)))
  ∨ (¬ cache_fresh io self
     ∧ load_resale_data_body to_datetime_year io self
       = match reload to_datetime_year io self with
         | (self', Ok df) => (self', Ok df)
         | (self', Raise _) => (self', Ok None)
         end).
Proof.
  unfold load_resale_data_body, try_except, bind, get_self, cache_fresh.
  destruct (_data_cache self) as [cached|] eqn:Ec;
    [destruct (_cache_timestamp self) as [stamp|] eqn:Es|].
  - case_decide as Hd.
    + left. split; [|done]. by exists cached, stamp.
    + right. split; [|by destruct (reload _ _ _) as [? [?|?]]].
      intros (? & ? & [= <-] & [= <-] & ?). done.
  - right. split; [|by destruct (reload _ _ _) as [? [?|?]]].
    intros (? & ? & _ & ? & _). done.
  - right. split; [|by destruct (reload _ _ _) as [? [?|?]]].
    intros (? & ? & ? & _). done.
Qed.

(** Once a result is memoised, every later call returns it and leaves the
    process as it is, whatever the clock and the extract. *)
Lemma load_resale_data_memo_hit io p hit :
  lru_cache p = Some hit →
  load_resale_data to_datetime_year io p = (p, Ok hit).
Proof. intros H. unfold load_resale_data. by rewrite H. Qed.

(** C7.  A call never lets an exception out.  When it returns [None] the
    cached table and its timestamp are what they were before the call.
    They change only in a call that read an extract with all required
    columns, and then the call returns the new table and stores the
    clock reading as its timestamp.  A failed read or a missing column,
    met by the method body without a fresh cache, gives [None] with the
    service unchanged. *)
Theorem load_failure_keeps_cache (io : load_io) (p : process) :
  let out := load_resale_data to_datetime_year io p in
  let before := bto_service p in
  let after := bto_service out.1 in
  (∃ v, out.2 = Ok v)
  ∧ (out.2 = Ok None → after = before)
  ∧ (after ≠ before →
       ∃ csv, read_csv io = Ok csv
              ∧ (∀ c, c ∈ required_columns → c ∈ csv_columns csv)
              ∧ out.2 = Ok (Some (preprocess to_datetime_year (csv_rows csv)))
              ∧ _data_cache after = Some (preprocess to_datetime_year (csv_rows csv))
              ∧ _cache_timestamp after = Some (clock_at_store io))
  ∧ (∀ self, ¬ cache_fresh io self →
       (∃ e, read_csv io = Raise e)
       ∨ (∃ csv c, read_csv io = Ok csv ∧ c ∈ required_columns
                   ∧ c ∉ csv_columns csv) →
       load_resale_data_body to_datetime_year io self = (self, Ok None)).
Proof.
  intros out before after. subst after before out.
  unfold load_resale_data.
  split_and!.
  - destruct (lru_cache p) as [hit|]; [by eexists|].
    destruct (load_resale_data_body_cases io (bto_service p)) as [[_ ->]|[_ ->]];
      [by eexists|].
    destruct (reload_cases io (bto_service p)) as [[e ->]|(csv & _ & _ & ->)];
      by eexists.
  - destruct (lru_cache p) as [hit|]; [done|].
    destruct (load_resale_data_body_cases io (bto_service p)) as [[_ ->]|[_ ->]];
      [done|].
    destruct (reload_cases io (bto_service p)) as [[e ->]|(csv & _ & _ & ->)];
      [done|]. simpl. intros [=].
  - destruct (lru_cache p) as [hit|]; [done|].
    destruct (load_resale_data_body_cases io (bto_service p)) as [[_ ->]|[_ ->]];
      [done|].
    destruct (reload_cases io (bto_service p)) as [[e ->]|(csv & ? & ? & ->)];
      [done|]. simpl. intros _. by exists csv.
  - intros self Hn Hfail.
    destruct (load_resale_data_body_cases io self) as [[? _]|[_ ->]]; [done|].
    by destruct (reload_failure io self Hfail) as [e ->].
Qed.
End loader_facts.

(** C6, at a run on which the code departs from the claim.  The first call
    at time 0 loads the first extract.  The second call comes 4000 seconds
    later, past the 3600 second lifetime, with a changed extract: it
    returns the table of the first call and leaves the timestamp at 0,
    where the method body on its own would have reloaded. *)
Theorem load_resale_data_stale_after_ttl :
  let first := load_resale_data year_of_period (call_at 0 first_extract) start in
  let second := load_resale_data year_of_period (call_at 4000 second_extract) first.1 in
  let old_table := preprocess year_of_period (csv_rows first_extract) in
  let new_table := preprocess year_of_period (csv_rows second_extract) in
  first.2 = Ok (Some old_table)
  ∧ cache_duration (bto_service first.1) = 3600
  ∧ _cache_timestamp (bto_service first.1) = Some 0
  ∧ second.2 = Ok (Some old_table)
  ∧ second.1 = first.1
  ∧ (load_resale_data_body year_of_period (call_at 4000 second_extract)
       (bto_service first.1)).2 = Ok (Some new_table)
  ∧ length old_table = 1%nat ∧ length new_table = 2%nat.
Proof. vm_compute. by split_and!. Qed.

(** The freshness test reads [timedelta.seconds], so even the method body
    takes a cache that is one day and ten seconds old for fresh. *)
Example load_body_day_old_cache :
  let first := load_resale_data_body year_of_period (call_at 0 first_extract) __init__ in
  load_resale_data_body year_of_period (call_at 86410 second_extract) first.1
  = (first.1, Ok (_data_cache first.1)).
Proof. by vm_compute. Qed.

(** ** The market report *)

Lemma upper_char_idemp c : Py.upper_char (Py.upper_char c) = Py.upper_char c.
Proof. by destruct c as [[] [] [] [] [] [] [] []]. Qed.

Lemma upper_lower_char c : Py.upper_char (Py.lower_char c) = Py.upper_char c.
Proof. by destruct c as [[] [] [] [] [] [] [] []]. Qed.

Lemma is_ascii_upper_char c :
  (N_of_ascii (Py.upper_char c) <? 128)%N = (N_of_ascii c <? 128)%N.
Proof. by destruct c as [[] [] [] [] [] [] [] []]. Qed.

Lemma is_ascii_lower_char c :
  (N_of_ascii (Py.lower_char c) <? 128)%N = (N_of_ascii c <? 128)%N.
Proof. by destruct c as [[] [] [] [] [] [] [] []]. Qed.

Lemma is_ascii_ascii_upper s : Py.is_ascii (Py.ascii_upper s) = Py.is_ascii s.
Proof.
  induction s as [|c s IH]; [done|].
  unfold Py.is_ascii, Py.ascii_upper in *. cbn [Py.map_chars list_ascii_of_string forallb].
  by rewrite is_ascii_upper_char, IH.
Qed.

Lemma is_ascii_ascii_lower s : Py.is_ascii (Py.ascii_lower s) = Py.is_ascii s.
Proof.
  induction s as [|c s IH]; [done|].
  unfold Py.is_ascii, Py.ascii_lower in *. cbn [Py.map_chars list_ascii_of_string forallb].
  by rewrite is_ascii_lower_char, IH.
Qed.

Lemma ascii_upper_idemp s : Py.ascii_upper (Py.ascii_upper s) = Py.ascii_upper s.
Proof.
  induction s as [|c s IH]; [done|]. unfold Py.ascii_upper in *. simpl.
  by rewrite upper_char_idemp, IH.
Qed.

Lemma ascii_upper_lower s : Py.ascii_upper (Py.ascii_lower s) = Py.ascii_upper s.
Proof.
  induction s as [|c s IH]; [done|].
  unfold Py.ascii_upper, Py.ascii_lower in *. simpl.
  by rewrite upper_lower_char, IH.
Qed.

(** On ASCII text the case mappings are the ASCII ones. *)
Lemma upper_ascii s : Py.is_ascii s = true → Py.upper s = Py.ascii_upper s.
Proof. intros Hs. unfold Py.upper. by rewrite Hs. Qed.

Lemma lower_ascii s : Py.is_ascii s = true → Py.lower s = Py.ascii_lower s.
Proof. intros Hs. unfold Py.lower. by rewrite Hs. Qed.

Lemma upper_idemp s :
  Py.is_ascii s = true → Py.upper (Py.upper s) = Py.upper s.
Proof.
  intros Hs. rewrite (upper_ascii s Hs).
  rewrite upper_ascii by (by rewrite is_ascii_ascii_upper).
  apply ascii_upper_idemp.
Qed.

Lemma upper_lower s :
  Py.is_ascii s = true → Py.upper (Py.lower s) = Py.upper s.
Proof.
  intros Hs. rewrite (lower_ascii s Hs), (upper_ascii s Hs).
  rewrite upper_ascii by (by rewrite is_ascii_ascii_lower).
  apply ascii_upper_lower.
Qed.

Lemma elem_of_length_pos {A} (x : A) (l : list A) :
  x ∈ l → (0 < length l)%nat.
Proof. destruct l; [by intros ?%elem_of_nil|simpl; lia]. Qed.

Lemma length_pos_elem_of {A} (l : list A) :
  (0 < length l)%nat → ∃ x, x ∈ l.
Proof. destruct l as [|x l]; [simpl; lia|]. exists x. by left. Qed.

(** C8.  The rows of the report are those whose town equals the requested
    name after both are upper-cased: names with the same upper-case form
    select the same rows, and an ASCII name selects the same rows as
    given, in lower case and in upper case.  With no such row the result
    is the error dict naming the town; with at least one it is a report
    over exactly those rows, whose recent median is absent exactly when
    none of them was sold in 2023 or later. *)
Theorem town_market_analysis_not_found (df : DataFrame) (town_name : string) :
  ((∀ r, r ∈ df → Py.upper (town r) ≠ Py.upper town_name) →
     get_town_market_analysis_on (Some df) town_name
     = ErrorDict ("No data found for " +:+ town_name))
  ∧ ((∃ r, r ∈ df ∧ Py.upper (town r) = Py.upper town_name) →
     ∃ a, get_town_market_analysis_on (Some df) town_name = Report a
          ∧ an_town a = town_name
          ∧ an_total_transactions a = Z.of_nat (length (town_rows df town_name))
          ∧ 0 < an_total_transactions a
          ∧ (recent_median (an_price_trends a) = None ↔
             ∀ r, r ∈ df → Py.upper (town r) = Py.upper town_name →
                  transaction_year r < 2023))
  ∧ (∀ r, r ∈ town_rows df town_name ↔
          r ∈ df ∧ Py.upper (town r) = Py.upper town_name)
  ∧ (∀ other, Py.upper other = Py.upper town_name →
       town_rows df other = town_rows df town_name)
  ∧ (Py.is_ascii town_name = true →
       town_rows df (Py.lower town_name) = town_rows df town_name
       ∧ town_rows df (Py.upper town_name) = town_rows df town_name)
  ∧ get_town_market_analysis_on None town_name = ErrorDict "Data not available".
Proof.
  assert (Hrows : ∀ r, r ∈ town_rows df town_name ↔
                       r ∈ df ∧ Py.upper (town r) = Py.upper town_name).
  { intros r. unfold town_rows. rewrite list_elem_of_filter. tauto. }
  split_and!; [| |done| | |done].
  - intros Hnone. unfold get_town_market_analysis_on.
    rewrite decide_True; [done|].
    unfold town_rows. rewrite filter_none; [done|].
    intros r Hr. by apply Hnone.
  - intros (r & Hr & Hm). unfold get_town_market_analysis_on.
    assert (0 < length (town_rows df town_name))%nat as Hpos.
    { eapply elem_of_length_pos. by apply Hrows. }
    rewrite decide_False by lia.
    eexists. split; [done|]. simpl. split_and!; [done..|lia|].
    set (recent := filter (λ r, 2023 ≤ transaction_year r) (town_rows df town_name)).
    case_decide as Hd; split; try done.
    + intros Hall. apply length_pos_elem_of in Hd as [x Hx].
      unfold recent in Hx. apply list_elem_of_filter in Hx as [Hy Hx].
      apply Hrows in Hx as [Hx Hxm]. specialize (Hall x Hx Hxm). lia.
    + intros _ x Hx Hxm. destruct (decide (2023 ≤ transaction_year x)); [|lia].
      exfalso. apply Hd. apply (elem_of_length_pos x).
      unfold recent. apply list_elem_of_filter. split; [done|]. by apply Hrows.
  - intros other Ho. unfold town_rows. by rewrite Ho.
  - intros Ha. unfold town_rows. by rewrite upper_lower, upper_idemp.
Qed.

(** When every task delivers its estimate, the pool-based variant builds
    the mapping of the sequential loop. *)
Lemma calculate_pricing_async_completes df t fts :
  calculate_pricing_async (λ ft, Ok (_calculate_single_pricing df t ft)) fts
  = pricing_for df t fts.
Proof.
  unfold calculate_pricing_async, pricing_for.
  generalize (∅ : gmap string Z). induction fts as [|ft fts IH]; intros acc; [done|].
  simpl. rewrite IH. unfold add_pricing.
  by destruct (_calculate_single_pricing df t ft).
Qed.

(** * Further properties *)

(** ** The summaries of the gap analysis *)

Lemma foldl_max_bounds (x : Z) (xs : list Z) :
  x ≤ foldl Z.max x xs ∧ (∀ y, y ∈ xs → y ≤ foldl Z.max x xs)
  ∧ foldl Z.max x xs ∈ x :: xs.
Proof.
  revert x. induction xs as [|a xs IH]; intros x; simpl.
  - split_and!; [lia| |by left]. by intros y ?%elem_of_nil.
  - destruct (IH (Z.max x a)) as (H1 & H2 & H3). split_and!.
    + lia.
    + intros y [->|Hy]%elem_of_cons; [lia|by apply H2].
    + apply elem_of_cons in H3 as [H3|H3]; [|by do 2 right].
      rewrite H3. destruct (Z.max_spec x a) as [[_ ->]|[_ ->]];
        [right; by left|by left].
Qed.

Lemma foldl_min_bounds (x : Z) (xs : list Z) :
  foldl Z.min x xs ≤ x ∧ (∀ y, y ∈ xs → foldl Z.min x xs ≤ y)
  ∧ foldl Z.min x xs ∈ x :: xs.
Proof.
  revert x. induction xs as [|a xs IH]; intros x; simpl.
  - split_and!; [lia| |by left]. by intros y ?%elem_of_nil.
  - destruct (IH (Z.min x a)) as (H1 & H2 & H3). split_and!.
    + lia.
    + intros y [->|Hy]%elem_of_cons; [lia|by apply H2].
    + apply elem_of_cons in H3 as [H3|H3]; [|by do 2 right].
      rewrite H3. destruct (Z.min_spec x a) as [[_ ->]|[_ ->]];
        [by left|right; by left].
Qed.

Lemma max_Z_bounds (d : Z) (xs : list Z) :
  xs ≠ [] → Pd.max_Z d xs ∈ xs ∧ ∀ y, y ∈ xs → y ≤ Pd.max_Z d xs.
Proof.
  destruct xs as [|x xs]; [done|]. intros _. simpl.
  destruct (foldl_max_bounds x xs) as (H1 & H2 & H3). split; [done|].
  intros y [->|Hy]%elem_of_cons; [done|by apply H2].
Qed.

Lemma min_Z_bounds (d : Z) (xs : list Z) :
  xs ≠ [] → Pd.min_Z d xs ∈ xs ∧ ∀ y, y ∈ xs → Pd.min_Z d xs ≤ y.
Proof.
  destruct xs as [|x xs]; [done|]. intros _. simpl.
  destruct (foldl_min_bounds x xs) as (H1 & H2 & H3). split; [done|].
  intros y [->|Hy]%elem_of_cons; [done|by apply H2].
Qed.

Lemma groupby_town_towns df : ts_town <$> groupby_town df = groupby_keys df.
Proof.
  unfold groupby_town.
  induction (groupby_keys df) as [|k ks IH]; [done|].
  rewrite !fmap_cons, IH. done.
Qed.

Lemma analyze_bto_gaps_sublist df :
  analyze_bto_gaps (Some df) `sublist_of`
    stable_sort gap_before (filter qualified (groupby_town df)).
Proof. rewrite analyze_bto_gaps_unfold. apply sublist_take. Qed.

Lemma ranked_towns_NoDup df :
  NoDup (ts_town <$> stable_sort gap_before (filter qualified (groupby_town df))).
Proof.
  rewrite (stable_sort_perm gap_before).
  eapply sublist_NoDup; [|apply fmap_sublist, sublist_filter].
  rewrite groupby_town_towns. apply groupby_keys_NoDup.
Qed.

(** X1.  No town has two summaries in the output of the gap analysis, and
    every summary is consistent with the rows of its town: its recent
    count is between 0 and its total count, which exceeds 100; its gap is
    at least 5 and is 2025 minus the newest lease year; and that lease
    year is the lease year of one row of the town and is not exceeded by
    any row of the town. *)
Theorem gap_summaries_consistent (df : DataFrame) :
  NoDup (ts_town <$> analyze_bto_gaps (Some df))
  ∧ ∀ s, s ∈ analyze_bto_gaps (Some df) →
      0 ≤ recent_transactions s ≤ total_transactions s
      ∧ 100 < total_transactions s
      ∧ 5 ≤ years_since_last_major_launch s
      ∧ years_since_last_major_launch s = 2025 - max_lease_year s
      ∧ (∃ r, r ∈ df ∧ town r = ts_town s
              ∧ lease_commence_date r = max_lease_year s)
      ∧ (∀ r, r ∈ df → town r = ts_town s →
              lease_commence_date r ≤ max_lease_year s).
Proof.
  split.
  - eapply sublist_NoDup; [|apply fmap_sublist, analyze_bto_gaps_sublist].
    apply ranked_towns_NoDup.
  - intros s Hs.
    assert (s ∈ stable_sort gap_before (filter qualified (groupby_town df)))
      as [[Hq1 Hq2] Heq]%elem_of_ranked
      by (eapply elem_of_sublist; [done|apply analyze_bto_gaps_sublist]).
    set (g := group df (ts_town s)).
    assert (g ≠ []) as Hg.
    { intros Hnil. rewrite Heq in Hq1. simpl in Hq1. fold g in Hq1.
      rewrite Hnil in Hq1. simpl in Hq1. lia. }
    destruct (max_Z_bounds 0 (lease_commence_date <$> g)) as [Hin Hub].
    { by destruct g. }
    split_and!; try done.
    + rewrite Heq. simpl. lia.
    + rewrite Heq. simpl. apply inj_le, length_filter.
    + by rewrite Heq.
    + apply list_elem_of_fmap in Hin as (r & Hr & Hrg).
      unfold g, group in Hrg. apply list_elem_of_filter in Hrg as [Ht Hrdf].
      exists r. split_and!; [done..|]. rewrite Heq. simpl. by fold g.
    + intros r Hr Ht. rewrite Heq. simpl. fold g. apply Hub.
      apply list_elem_of_fmap. exists r. split; [done|].
      unfold g, group. apply list_elem_of_filter. by split.
Qed.

Lemma max_Z_Permutation (d : Z) (xs ys : list Z) :
  xs ≡ₚ ys → Pd.max_Z d xs = Pd.max_Z d ys.
Proof.
  intros Hp. destruct (decide (xs = [])) as [->|Hx].
  { by apply Permutation_nil in Hp as ->. }
  assert (ys ≠ []) as Hy.
  { intros ->. symmetry in Hp. by apply Permutation_nil in Hp. }
  destruct (max_Z_bounds d xs Hx) as [Hin Hub].
  destruct (max_Z_bounds d ys Hy) as [Hin' Hub'].
  assert (Pd.max_Z d xs ∈ ys) as H1 by (by rewrite <-Hp).
  assert (Pd.max_Z d ys ∈ xs) as H2 by (by rewrite Hp).
  apply Hub in H2. apply Hub' in H1. lia.
Qed.

Lemma aggregate_Permutation df df' t :
  df ≡ₚ df' →
  integer_columns (aggregate df t) = integer_columns (aggregate df' t)
  ∧ (resale_price <$> group df t = resale_price <$> group df' t →
     aggregate df t = aggregate df' t).
Proof.
  intros Hp. unfold aggregate, integer_columns. simpl.
  assert (group df t ≡ₚ group df' t) as Hg
    by (unfold group; by rewrite Hp).
  rewrite (max_Z_Permutation 0 _ _ (fmap_Permutation lease_commence_date _ _ Hg)).
  rewrite (Permutation_length Hg).
  rewrite (Permutation_length
    (filter_Permutation (λ r, 2022 ≤ transaction_year r) _ _ Hg)).
  split; [done|]. by intros ->.
Qed.

Lemma groupby_keys_Permutation df df' :
  df ≡ₚ df' → groupby_keys df = groupby_keys df'.
Proof.
  intros Hp. unfold groupby_keys.
  apply (Sorted_unique String.le); [apply Sorted_merge_sort, _..|].
  rewrite !merge_sort_Permutation.
  apply NoDup_Permutation; [apply NoDup_remove_dups..|].
  intros t. rewrite !elem_of_remove_dups. by rewrite Hp.
Qed.

Lemma insert_stable_Forall2 {A} (before : A → A → bool) (R : relation A) :
  (∀ a b a' b', R a a' → R b b' → before a b = before a' b') →
  ∀ x x' l l', R x x' → Forall2 R l l' →
    Forall2 R (insert_stable before x l) (insert_stable before x' l').
Proof.
  intros Hb x x' l l' Hx Hl.
  induction Hl as [|y y' l l' Hy Hl IH]; simpl; [by repeat constructor|].
  rewrite (Hb y x y' x' Hy Hx).
  destruct (before y' x'); by repeat constructor.
Qed.

Lemma stable_sort_Forall2 {A} (before : A → A → bool) (R : relation A) :
  (∀ a b a' b', R a a' → R b b' → before a b = before a' b') →
  ∀ l l', Forall2 R l l' →
    Forall2 R (stable_sort before l) (stable_sort before l').
Proof.
  intros Hb l l' Hl. induction Hl as [|x x' l l' Hx Hl IH]; simpl; [constructor|].
  by apply insert_stable_Forall2.
Qed.

Lemma filter_Forall2 {A} (P : A → Prop) `{!∀ x, Decision (P x)} (R : relation A) :
  (∀ a a', R a a' → P a ↔ P a') →
  ∀ l l', Forall2 R l l' → Forall2 R (filter P l) (filter P l').
Proof.
  intros HP l l' Hl. induction Hl as [|x x' l l' Hx Hl IH]; [constructor|].
  rewrite !filter_cons. pose proof (HP x x' Hx).
  repeat case_decide; try tauto; by repeat constructor.
Qed.

Lemma analyze_bto_gaps_related df df' (R : relation town_stats) :
  (∀ a a', R a a' → integer_columns a = integer_columns a') →
  Forall2 R (groupby_town df) (groupby_town df') →
  Forall2 R (analyze_bto_gaps (Some df)) (analyze_bto_gaps (Some df')).
Proof.
  intros HR Hl. rewrite !analyze_bto_gaps_unfold.
  apply Forall2_take, stable_sort_Forall2, filter_Forall2; [| |done].
  - intros a b a' b' [= _ _ _ Har Hay]%HR [= _ _ _ Hbr Hby]%HR.
    unfold gap_before. by rewrite Har, Hay, Hbr, Hby.
  - intros a a' [= _ _ Hat _ Hay]%HR. unfold qualified. by rewrite Hat, Hay.
Qed.

(** X2.  The integer columns of the gap analysis (town, newest lease year,
    the two counts and the gap) and the order of its summaries do not
    depend on the order of the rows of the table.  The whole output,
    [avg_price] included, is the same for two orders of the rows that
    present the prices of every town in the same sequence. *)
Theorem analyze_bto_gaps_row_order (df df' : DataFrame) :
  df ≡ₚ df' →
  integer_columns <$> analyze_bto_gaps (Some df)
  = integer_columns <$> analyze_bto_gaps (Some df')
  ∧ ((∀ t, resale_price <$> group df t = resale_price <$> group df' t) →
     analyze_bto_gaps (Some df) = analyze_bto_gaps (Some df')).
Proof.
  intros Hp. split.
  - apply list_eq_Forall2, Forall2_fmap.
    apply analyze_bto_gaps_related; [done|].
    unfold groupby_town. rewrite (groupby_keys_Permutation df df' Hp).
    apply Forall2_fmap, Forall_Forall2_diag, Forall_forall. intros t _.
    by apply aggregate_Permutation.
  - intros Hprices. rewrite !analyze_bto_gaps_unfold. unfold groupby_town.
    rewrite (groupby_keys_Permutation df df' Hp).
    do 3 f_equal. apply list_fmap_ext. intros _ t _.
    by apply aggregate_Permutation.
Qed.

(** ** The order of the recommendations *)

Lemma stable_sort_sorted_id {A} (before : A → A → bool) (l : list A) :
  StronglySorted (λ a b, before b a = false) l → stable_sort before l = l.
Proof.
  induction 1 as [|x l Hs IH Hx]; [done|]. simpl. rewrite IH.
  destruct l as [|y l]; [done|]. simpl.
  apply Forall_cons in Hx as [-> _]. done.
Qed.

Lemma demand_score_mono (g g' : Z) :
  0 < g → g ≤ g' →
  (Py.round2 (demand_score_of g) <= Py.round2 (demand_score_of g'))%Q.
Proof.
  intros Hg Hgg'. rewrite !demand_score_rounded.
  rewrite !demand_score_of_pos by lia.
  apply Q.min_le_compat_r. apply Qmult_le_compat_r; [|done].
  by rewrite <-Zle_Qle.
Qed.

Lemma ranks_ahead_years a b :
  ranks_ahead a b →
  years_since_last_major_launch b ≤ years_since_last_major_launch a.
Proof. unfold ranks_ahead, gap_tied. intros [?|[[? _]|[[? _] _]]]; lia. Qed.

(** X3.  The final sort of [recommend_estates] never moves an entry: the
    recommendations are those of the first six candidates of the gap
    analysis, in the order of the gap analysis. *)
Theorem recommend_estates_keeps_gap_order (df : DataFrame) :
  recommend_estates_on (Some df)
  = (λ info, Recommended (recommendation_for df info))
      <$> take 6 (analyze_bto_gaps (Some df)).
Proof.
  unfold recommend_estates_on, ranking, or_fallback.
  rewrite collect_recommendations_all.
  rewrite stable_sort_sorted_id.
  - rewrite take_ge by (rewrite length_fmap, length_take; lia).
    by rewrite <-list_fmap_compose.
  - eapply StronglySorted_fmap; [|eapply StronglySorted_sublist;
      [|eapply StronglySorted_impl; [|apply (ranked_sorted df)]]].
    + intros a b Hab. exact Hab.
    + etrans; [apply sublist_take|apply analyze_bto_gaps_sublist].
    + intros a b Ha Hb Hab. simpl.
      apply elem_of_ranked in Ha as [[_ Ha] _].
      apply elem_of_ranked in Hb as [[_ Hb] _].
      apply ranks_ahead_years in Hab.
      unfold rec_before. simpl.
      assert (0 < years_since_last_major_launch b) as Hpos
        by (unfold MIN_YEARS_SINCE_LAUNCH in Hb; lia).
      pose proof (demand_score_mono _ _ Hpos Hab) as Hle.
      destruct (Qcompare_spec
                  (Py.round2 (demand_score_of (years_since_last_major_launch b)))
                  (Py.round2 (demand_score_of (years_since_last_major_launch a))))
        as [Heq|Hlt|Hgt]; [|done|].
      * apply Z.ltb_ge. done.
      * exfalso. by apply (Qlt_not_le _ _ Hgt).
Qed.

(** ** The tables the loader hands out *)

Section loader_invariant.
Variable to_datetime_year : string → option Z.

Lemma preprocess_row_Some raw r :
  preprocess_row to_datetime_year raw = Some r ↔
  raw_month raw = Some (month r)
  ∧ to_datetime_year (month r) = Some (transaction_year r)
  ∧ raw_resale_price raw = Some (resale_price r)
  ∧ (0 < resale_price r)%Q
  ∧ raw_lease_commence_date raw = Some (lease_commence_date r)
  ∧ town r = raw_town raw ∧ flat_type r = raw_flat_type raw
  ∧ floor_area_sqm r = raw_floor_area_sqm raw.
Proof.
  unfold preprocess_row. split.
  - destruct (raw_month raw) as [m|]; simpl; [|done].
    destruct (to_datetime_year m) as [y|] eqn:Ey; simpl; [|done].
    destruct (raw_resale_price raw) as [p|]; simpl; [|done].
    destruct (raw_lease_commence_date raw) as [l|]; simpl; [|done].
    destruct (Qlt_le_dec 0 p); [|done]. intros [= <-]. simpl. done.
  - intros (-> & Hy & -> & Hp & -> & Ht & Hf & Ha). simpl. rewrite Hy. simpl.
    destruct (Qlt_le_dec 0 (resale_price r)) as [_|Hle].
    + f_equal. destruct r. simpl in *. by subst.
    + exfalso. by apply (Qlt_not_le _ _ Hp).
Qed.

Lemma preprocess_clean rows :
  Forall (clean_row to_datetime_year) (preprocess to_datetime_year rows).
Proof.
  apply Forall_forall. intros r. unfold preprocess.
  rewrite list_elem_of_omap. intros (raw & _ & H).
  apply preprocess_row_Some in H as (_ & Hy & _ & Hp & _). by split.
Qed.

(** X4.  Preprocessing keeps a row of the extract exactly when its period
    parses, its price is present and positive and its lease year is
    present; the kept rows carry the cells of the extract unchanged,
    follow the order of the extract, and are clean. *)
Theorem preprocess_keeps_valid_rows (rows : list raw_row) :
  (∀ r, r ∈ preprocess to_datetime_year rows ↔
        ∃ raw, raw ∈ rows
               ∧ raw_month raw = Some (month r)
               ∧ to_datetime_year (month r) = Some (transaction_year r)
               ∧ raw_resale_price raw = Some (resale_price r)
               ∧ (0 < resale_price r)%Q
               ∧ raw_lease_commence_date raw = Some (lease_commence_date r)
               ∧ town r = raw_town raw ∧ flat_type r = raw_flat_type raw
               ∧ floor_area_sqm r = raw_floor_area_sqm raw)
  ∧ (length (preprocess to_datetime_year rows) ≤ length rows)%nat
  ∧ (∀ rows', preprocess to_datetime_year (rows ++ rows')
              = preprocess to_datetime_year rows
                ++ preprocess to_datetime_year rows')
  ∧ Forall (clean_row to_datetime_year) (preprocess to_datetime_year rows).
Proof.
  assert (Hiff : ∀ r, r ∈ preprocess to_datetime_year rows ↔
        ∃ raw, raw ∈ rows
               ∧ raw_month raw = Some (month r)
               ∧ to_datetime_year (month r) = Some (transaction_year r)
               ∧ raw_resale_price raw = Some (resale_price r)
               ∧ (0 < resale_price r)%Q
               ∧ raw_lease_commence_date raw = Some (lease_commence_date r)
               ∧ town r = raw_town raw ∧ flat_type r = raw_flat_type raw
               ∧ floor_area_sqm r = raw_floor_area_sqm raw).
  { intros r. unfold preprocess. rewrite list_elem_of_omap.
    split; intros (raw & Hraw & H); exists raw; split; try done;
      by apply preprocess_row_Some. }
  split_and!; [done| | |].
  - unfold preprocess. clear Hiff.
    induction rows as [|raw rows IH]; [done|].
    change (omap (preprocess_row to_datetime_year) (raw :: rows))
      with (match preprocess_row to_datetime_year raw with
            | Some r => r :: omap (preprocess_row to_datetime_year) rows
            | None => omap (preprocess_row to_datetime_year) rows
            end).
    destruct (preprocess_row to_datetime_year raw); simpl length; lia.
  - intros rows'. unfold preprocess. apply omap_app.
  - apply preprocess_clean.
Qed.

Lemma reload_clean io self self' df :
  reload to_datetime_year io self = (self', Ok (Some df)) →
  Forall (clean_row to_datetime_year) df ∧ _data_cache self' = Some df.
Proof.
  destruct (reload_cases to_datetime_year io self)
    as [[e ->]|(csv & _ & _ & ->)]; [done|].
  intros [= <- <-]. split; [|done]. apply preprocess_clean.
Qed.
End loader_invariant.

Section loader_runs.
Variable to_datetime_year : string → option Z.

Lemma load_resale_data_body_Ok io self :
  ∃ v, (load_resale_data_body to_datetime_year io self).2 = Ok v.
Proof.
  destruct (load_resale_data_body_cases to_datetime_year io self)
    as [[_ ->]|[_ ->]]; [by eexists|].
  destruct (reload to_datetime_year io self) as [? [?|?]]; by eexists.
Qed.

Lemma load_resale_data_body_clean io self self' df :
  (∀ df, _data_cache self = Some df → Forall (clean_row to_datetime_year) df) →
  load_resale_data_body to_datetime_year io self = (self', Ok df) →
  (∀ df', _data_cache self' = Some df' → Forall (clean_row to_datetime_year) df')
  ∧ (∀ df', df = Some df' → Forall (clean_row to_datetime_year) df').
Proof.
  intros Hclean.
  destruct (load_resale_data_body_cases to_datetime_year io self)
    as [[_ ->]|[_ ->]].
  - intros [= <- <-]. by split.
  - destruct (reload to_datetime_year io self) as [s'' [[d|]|e]] eqn:E.
    + apply reload_clean in E as [Hd Hc]. intros [= <- <-]. split.
      * intros df'. rewrite Hc. by intros [= <-].
      * by intros df' [= <-].
    + destruct (reload_cases to_datetime_year io self)
        as [[e Hr]|(csv & _ & _ & Hr)]; rewrite Hr in E; done.
    + destruct (reload_cases to_datetime_year io self)
        as [[e' Hr]|(csv & _ & _ & Hr)]; rewrite Hr in E; [|done].
      injection E as <- _. intros [= <- <-]. by split.
Qed.

(** X5.  The loader keeps its tables clean: if every table the process
    holds consists of rows with a positive price and a transaction year
    read off their period, the same is true after a call, and of the table
    the call returns.  A process that has just started holds no table. *)
Theorem load_resale_data_keeps_clean (io : load_io) (p : process) :
  clean_process to_datetime_year p →
  clean_process to_datetime_year (load_resale_data to_datetime_year io p).1
  ∧ (∀ df, (load_resale_data to_datetime_year io p).2 = Ok (Some df) →
           Forall (clean_row to_datetime_year) df)
  ∧ clean_process to_datetime_year start.
Proof.
  intros [Hc Hm]. unfold load_resale_data.
  split_and!; [..|split; intros df; simpl; discriminate].
  - destruct (lru_cache p) as [hit|] eqn:El.
    { simpl. split; [exact Hc|]. by rewrite El. }
    destruct (load_resale_data_body to_datetime_year io (bto_service p))
      as [self' [df|e]] eqn:E; simpl.
    + apply load_resale_data_body_clean in E as [H1 H2]; [|done].
      split; simpl; [done|]. intros df' [= ->]. by apply H2.
    + pose proof (load_resale_data_body_Ok io (bto_service p)) as [v Hv].
      rewrite E in Hv. done.
  - destruct (lru_cache p) as [hit|] eqn:El.
    + simpl. intros df [= ->]. by apply Hm.
    + destruct (load_resale_data_body to_datetime_year io (bto_service p))
        as [self' [df|e]] eqn:E; simpl; [|done].
      apply load_resale_data_body_clean in E as [H1 H2]; [|done].
      intros df' [= ->]. by apply H2.
Qed.

(** X6.  Once the loader has been called, every further call in the same
    process returns the result of that first call and changes nothing,
    whatever the clock shows and whatever the extract holds by then; the
    recommendations and the market report of a town repeat in the same
    way. *)
Theorem load_resale_data_repeats (io io' : load_io) (p : process) :
  load_resale_data to_datetime_year io'
    (load_resale_data to_datetime_year io p).1
  = load_resale_data to_datetime_year io p
  ∧ recommend_estates to_datetime_year io'
      (recommend_estates to_datetime_year io p).1
    = recommend_estates to_datetime_year io p
  ∧ ∀ town_name,
      get_town_market_analysis to_datetime_year io' town_name
        (get_town_market_analysis to_datetime_year io town_name p).1
      = get_town_market_analysis to_datetime_year io town_name p.
Proof.
  assert (Hload : load_resale_data to_datetime_year io'
                    (load_resale_data to_datetime_year io p).1
                  = load_resale_data to_datetime_year io p).
  { unfold load_resale_data at 2 3.
    destruct (lru_cache p) as [hit|] eqn:El; simpl.
    - by apply load_resale_data_memo_hit.
    - pose proof (load_resale_data_body_Ok io (bto_service p)) as [v Hv].
      destruct (load_resale_data_body to_datetime_year io (bto_service p))
        as [self' r]. simpl in Hv. subst r. simpl.
      by apply load_resale_data_memo_hit. }
  split_and!; [done| |intros town_name];
    unfold recommend_estates, get_town_market_analysis;
    destruct (load_resale_data to_datetime_year io p) as [p1 [df|e]] eqn:E;
    simpl in *; by rewrite Hload.
Qed.

(** X7.  A first call that fails is final: when the extract cannot be read
    or lacks a required column at the first call of a process, that call
    and every later one return [None], and [recommend_estates] keeps
    returning the data-unavailable fallback, whatever a later extract
    holds. *)
Theorem first_load_failure_is_final (io io' : load_io) :
  (∃ e, read_csv io = Raise e)
  ∨ (∃ csv c, read_csv io = Ok csv ∧ c ∈ required_columns
              ∧ c ∉ csv_columns csv) →
  let first := load_resale_data to_datetime_year io start in
  first.2 = Ok None
  ∧ (load_resale_data to_datetime_year io' first.1).2 = Ok None
  ∧ (recommend_estates to_datetime_year io' first.1).2
    = [Estimate data_unavailable_fallback].
Proof.
  intros Hfail first.
  assert (first = ({| bto_service := __init__; lru_cache := Some None |}, Ok None))
    as Hfirst.
  { unfold first, load_resale_data. simpl lru_cache. cbv iota.
    destruct (load_resale_data_body_cases to_datetime_year io __init__)
      as [[(? & ? & Hc & _) _]|[_ Hb]]; [done|].
    simpl bto_service. rewrite Hb.
    by destruct (reload_failure to_datetime_year io __init__ Hfail) as [e ->]. }
  rewrite Hfirst. unfold recommend_estates.
  rewrite (load_resale_data_memo_hit to_datetime_year io' _ None) by done.
  done.
Qed.
End loader_runs.

(** ** Estimates on clean tables *)

Lemma insert_asc_Forall (P : Q → Prop) x l :
  P x → Forall P l → Forall P (Pd.insert_asc x l).
Proof.
  intros Hx. induction 1 as [|y l Hy Hl IH]; simpl.
  - by constructor.
  - destruct (Qle_bool x y); repeat constructor; done.
Qed.

Lemma insert_asc_length x l : length (Pd.insert_asc x l) = S (length l).
Proof.
  induction l as [|y l IH]; simpl; [done|].
  destruct (Qle_bool x y); simpl; by rewrite ?IH.
Qed.

Lemma sort_values_Forall (P : Q → Prop) xs :
  Forall P xs → Forall P (Pd.sort_values xs).
Proof.
  induction 1; simpl; [constructor|]. by apply insert_asc_Forall.
Qed.

Lemma sort_values_length xs : length (Pd.sort_values xs) = length xs.
Proof.
  induction xs as [|x xs IH]; simpl; [done|].
  by rewrite insert_asc_length, IH.
Qed.

Lemma median_pos (xs : list Q) :
  xs ≠ [] → Forall (λ x, 0 < x)%Q xs → (0 < Pd.median xs)%Q.
Proof.
  intros Hne Hpos. unfold Pd.median.
  pose proof (sort_values_Forall _ _ Hpos) as Hs.
  pose proof (sort_values_length xs) as Hl.
  set (s := Pd.sort_values xs) in *.
  assert (0 < length s)%nat as Hn by (rewrite Hl; destruct xs; simpl; [done|lia]).
  pose proof (proj1 (Forall_nth _ 0%Q s) Hs) as Hnth.
  assert (length s / 2 < length s)%nat as H2
    by (apply Nat.div_lt; lia).
  destruct (Nat.even (length s)).
  - rewrite Qred_correct.
    assert (length s / 2 - 1 < length s)%nat as H1 by lia.
    pose proof (Hnth _ H1) as Ha. pose proof (Hnth _ H2) as Hb. simpl in Ha, Hb.
    apply Qlt_shift_div_l; [done|]. rewrite Qmult_0_l.
    apply Qlt_trans with (nth (length s / 2 - 1) s 0%Q); [done|].
    rewrite <-(Qplus_0_r (nth (length s / 2 - 1) s 0%Q)) at 1.
    by apply Qplus_lt_r.
  - apply (Hnth _ H2).
Qed.

Lemma filter_prices_pos (P : transaction → Prop) `{!∀ r, Decision (P r)} df :
  Forall (λ r, 0 < resale_price r)%Q df →
  Forall (λ x, 0 < x)%Q (resale_price <$> filter P df).
Proof.
  intros Hpos. apply Forall_fmap, Forall_forall.
  intros r [_ Hr]%list_elem_of_filter.
  by eapply Forall_forall in Hpos.
Qed.

(** X8.  On a table whose prices are all positive, as the loader delivers
    it, every estimate is positive; so a flat type of the pricing loop has
    a key in the pricing mapping exactly when the town has a record of
    that flat type. *)
Theorem pricing_on_positive_prices (df : DataFrame) (t ft : string) :
  Forall (λ r, 0 < resale_price r)%Q df →
  ft ∈ flat_types →
  (∀ p, _calculate_single_pricing df t ft = Some p → (0 < p)%Q)
  ∧ (is_Some (pricing_for df t flat_types !! pricing_key ft)
     ↔ ∃ r, r ∈ df ∧ town r = t ∧ flat_type r = ft).
Proof.
  intros Hpos Hft.
  assert (Hest : ∀ p, _calculate_single_pricing df t ft = Some p → (0 < p)%Q).
  { unfold _calculate_single_pricing. intros p.
    repeat case_decide; [| |done]; intros [= <-]; apply median_pos.
    - destruct (filter (matching_recent t ft) df); [simpl in *; lia|done].
    - by apply filter_prices_pos.
    - destruct (filter (matching t ft) df); [simpl in *; lia|done].
    - by apply filter_prices_pos. }
  split; [done|].
  rewrite pricing_for_flat_types_lookup by done. unfold pricing_entry.
  destruct (_calculate_single_pricing df t ft) as [p|] eqn:E.
  - assert (Py.truthy p = true) as ->.
    { apply truthy_true. intros H0. specialize (Hest p eq_refl).
      rewrite H0 in Hest. by apply Qlt_irrefl in Hest. }
    split; [intros _|by eexists].
    unfold _calculate_single_pricing in E.
    destruct (filter (matching t ft) df) as [|r l] eqn:Ef.
    + assert (filter (matching_recent t ft) df = []) as Hr.
      { apply filter_none. intros y Hy (? & ? & _).
        assert (y ∈ filter (matching t ft) df) as Hin
          by (apply list_elem_of_filter; by repeat split).
        rewrite Ef in Hin. by apply elem_of_nil in Hin. }
      rewrite Hr in E. simpl in E. repeat case_decide; try done; lia.
    + assert (r ∈ filter (matching t ft) df) as Hin by (rewrite Ef; by left).
      apply list_elem_of_filter in Hin as [[? ?] ?]. by exists r.
  - split; [by intros [? ?]|]. intros (r & Hr & Ht & Hf). exfalso.
    unfold _calculate_single_pricing in E.
    assert (r ∈ filter (matching t ft) df) as Hin
      by (apply list_elem_of_filter; by repeat split).
    repeat case_decide; try done.
    apply elem_of_length_pos in Hin. lia.
Qed.

(** ** Counting flat types *)

Lemma unique_NoDup xs : NoDup (unique xs).
Proof. unfold unique. rewrite reverse_Permutation. apply NoDup_remove_dups. Qed.

Lemma elem_of_unique x xs : x ∈ unique xs ↔ x ∈ xs.
Proof.
  unfold unique. by rewrite elem_of_reverse, elem_of_remove_dups, elem_of_reverse.
Qed.

Lemma sum_list_Permutation (l k : list nat) :
  l ≡ₚ k → sum_list l = sum_list k.
Proof.
  induction 1 as [|x l k _ IH|x y l|l k m _ IH1 _ IH2]; simpl; lia.
Qed.

Lemma length_filter_split {A} (P : A → Prop) `{!∀ x, Decision (P x)} (l : list A) :
  (length (filter P l) + length (filter (λ x, ¬ P x) l))%nat = length l.
Proof.
  rewrite <-length_app. apply Permutation_length, filter_app_complement.
Qed.

Lemma counts_sum (ks xs : list string) :
  NoDup ks → (∀ x, x ∈ xs → x ∈ ks) →
  sum_list ((λ k, length (filter (λ x, x = k) xs)) <$> ks) = length xs.
Proof.
  intros Hnd. revert xs. induction Hnd as [|k ks Hk Hnd IH]; intros xs Hin.
  - destruct xs as [|x xs]; [done|]. exfalso.
    eapply elem_of_nil, Hin. by left.
  - rewrite fmap_cons. simpl.
    rewrite <-(length_filter_split (λ x, x = k) xs). f_equal.
    rewrite <-(IH (filter (λ x, ¬ x = k) xs)).
    + f_equal. apply list_fmap_ext. intros i k' Hk'.
      apply list_elem_of_lookup_2 in Hk'. f_equal.
      rewrite list_filter_filter. apply list_filter_iff.
      intros x. split; [|by intros [? _]]. intros ->. split; [done|].
      by intros ->.
    + intros x [Hx Hxs]%list_elem_of_filter.
      apply Hin in Hxs. apply elem_of_cons in Hxs as [->|]; done.
Qed.

Lemma value_counts_perm xs :
  value_counts xs ≡ₚ (λ k, (k, length (filter (λ x, x = k) xs))) <$> unique xs.
Proof. apply stable_sort_perm. Qed.

Lemma value_counts_keys xs : fst <$> value_counts xs ≡ₚ unique xs.
Proof.
  rewrite value_counts_perm, <-list_fmap_compose.
  induction (unique xs) as [|k ks IH]; [done|]. rewrite fmap_cons. simpl.
  by rewrite IH.
Qed.

Lemma value_counts_total xs : sum_list (snd <$> value_counts xs) = length xs.
Proof.
  rewrite (sum_list_Permutation _ _ (fmap_Permutation snd _ _ (value_counts_perm xs))).
  rewrite <-list_fmap_compose.
  rewrite <-(counts_sum (unique xs) xs);
    [|apply unique_NoDup|intros x; by rewrite elem_of_unique].
  induction (unique xs) as [|k ks IH]; [done|]. rewrite !fmap_cons. simpl.
  by rewrite IH.
Qed.

Lemma shares_sum (n : Z) (vc : list (string * nat)) :
  (Pd.sum (snd <$> ((λ kc : string * nat,
                       (kc.1, Qred (inject_Z (Z.of_nat kc.2) / inject_Z n)))
                    <$> vc))
   == inject_Z (Z.of_nat (sum_list (snd <$> vc))) / inject_Z n)%Q.
Proof.
  induction vc as [|[k c] vc IH].
  - simpl. unfold Qdiv. by rewrite Qmult_0_l.
  - rewrite !fmap_cons. cbn [snd fst Pd.sum foldr sum_list sum_list_with].
    fold (Pd.sum (snd <$> ((λ kc : string * nat,
                       (kc.1, Qred (inject_Z (Z.of_nat kc.2) / inject_Z n)))
                    <$> vc))).
    rewrite IH, Qred_correct.
    change (sum_list_with id (snd <$> vc)) with (sum_list (snd <$> vc)).
    rewrite Nat2Z.inj_add, inject_Z_plus. unfold id, Qdiv.
    by rewrite Qmult_plus_distr_l.
Qed.

Lemma town_characteristics_parts (df : DataFrame) (t : string) :
  (get_town_characteristics (Some df) t = None ↔ ∀ r, r ∈ df → town r ≠ t)
  ∧ ∀ c, get_town_characteristics (Some df) t = Some c →
      ch_total_transactions c = Z.of_nat (length (filter (λ r, town r = t) df))
      ∧ 0 < ch_total_transactions c
      ∧ NoDup (fst <$> flat_type_mix c)
      ∧ (∀ ft, ft ∈ fst <$> flat_type_mix c ↔
               ∃ r, r ∈ df ∧ town r = t ∧ flat_type r = ft).
Proof.
  unfold get_town_characteristics.
  set (town_data := filter (λ r, town r = t) df).
  split.
  - case_decide as Hd; split; try done.
    + intros _ r Hr Ht. assert (r ∈ town_data) as Hin
        by (apply list_elem_of_filter; by split).
      apply elem_of_length_pos in Hin. lia.
    + intros Hnone. exfalso. apply Hd.
      unfold town_data. rewrite filter_none; [done|].
      intros r Hr. by apply Hnone.
  - intros c. case_decide as Hd; [done|]. intros [= <-]. simpl.
    assert (0 < length town_data)%nat as Hpos by lia.
    split_and!; [done|lia| |].
    + rewrite <-list_fmap_compose.
      erewrite list_fmap_ext; [|intros ? [? ?] _; reflexivity].
      change (λ x : string * nat, (let '(s, _) := x in s)) with (@fst string nat).
      rewrite value_counts_keys. apply unique_NoDup.
    + intros ft. rewrite <-list_fmap_compose.
      erewrite list_fmap_ext; [|intros ? [? ?] _; reflexivity].
      change (λ x : string * nat, (let '(s, _) := x in s)) with (@fst string nat).
      rewrite value_counts_keys, elem_of_unique, list_elem_of_fmap.
      split.
      * intros (r & -> & [Ht Hr]%list_elem_of_filter). by exists r.
      * intros (r & Hr & Ht & Hf). exists r. split; [done|].
        apply list_elem_of_filter. by split.
Qed.

(** X9.  [get_town_characteristics] returns the empty dict exactly when no
    row carries the town name, letter for letter.  Otherwise the total is
    the number of rows of the town, the flat-type mix lists each flat type
    of the town once, and its shares add up to 1. *)
Theorem town_characteristics_mix (df : DataFrame) (t : string) :
  (get_town_characteristics (Some df) t = None ↔ ∀ r, r ∈ df → town r ≠ t)
  ∧ ∀ c, get_town_characteristics (Some df) t = Some c →
      ch_total_transactions c = Z.of_nat (length (filter (λ r, town r = t) df))
      ∧ 0 < ch_total_transactions c
      ∧ NoDup (fst <$> flat_type_mix c)
      ∧ (∀ ft, ft ∈ fst <$> flat_type_mix c ↔
               ∃ r, r ∈ df ∧ town r = t ∧ flat_type r = ft)
      ∧ (Pd.sum (snd <$> flat_type_mix c) == 1)%Q.
Proof.
  destruct (town_characteristics_parts df t) as [Hnone Hsome].
  split; [done|]. intros c Hc.
  destruct (Hsome c Hc) as (H1 & H2 & H3 & H4). split_and!; [done..|].
  unfold get_town_characteristics in Hc.
  case_decide as Hd; [done|]. injection Hc as <-. simpl.
  rewrite shares_sum, value_counts_total, length_fmap.
  apply Qmult_inv_r. change 0%Q with (inject_Z 0).
  rewrite inject_Z_injective. lia.
Qed.

(** ** What a recommendation reports about its town *)

Lemma entry_towns_of_recommendations df :
  entry_town <$> recommend_estates_on (Some df)
  ≡ₚ ts_town <$> take 6 (take 6 (analyze_bto_gaps (Some df))).
Proof.
  unfold recommend_estates_on, ranking, or_fallback.
  rewrite collect_recommendations_all, <-list_fmap_compose.
  rewrite take_ge
    by (rewrite stable_sort_length, length_fmap, length_take; lia).
  rewrite (stable_sort_perm rec_before), <-list_fmap_compose, take_idemp.
  done.
Qed.

(** X10.  The recommendations name pairwise different towns.  Each one
    reports as its total the number of rows of its town, which exceeds
    100, a recent activity between 0 and that total, and between one and
    three predominant flat types, pairwise different, each the flat type
    of a row of the town. *)
Theorem recommendation_market_summary (df : DataFrame) :
  NoDup (entry_town <$> recommend_estates_on (Some df))
  ∧ ∀ r, Recommended r ∈ recommend_estates_on (Some df) →
      let summary := market_characteristics r in
      ms_total_transactions summary
      = Z.of_nat (length (filter (λ x, town x = rec_town r) df))
      ∧ 100 < ms_total_transactions summary
      ∧ 0 ≤ recent_market_activity r ≤ ms_total_transactions summary
      ∧ (1 ≤ length (predominant_flat_types summary) ≤ 3)%nat
      ∧ NoDup (predominant_flat_types summary)
      ∧ ∀ ft, ft ∈ predominant_flat_types summary →
              ∃ x, x ∈ df ∧ town x = rec_town r ∧ flat_type x = ft.
Proof.
  split.
  - rewrite entry_towns_of_recommendations, take_idemp.
    eapply sublist_NoDup; [apply ranked_towns_NoDup|].
    apply fmap_sublist. etrans; [apply sublist_take|apply analyze_bto_gaps_sublist].
  - intros r (info & Hinfo & [= ->])%elem_of_recommend_estates_on.
    assert (info ∈ stable_sort gap_before (filter qualified (groupby_town df)))
      as [[Hq1 Hq2] Heq]%elem_of_ranked
      by (eapply elem_of_sublist; [done|apply analyze_bto_gaps_sublist]).
    cbn -[get_town_characteristics].
    assert (total_transactions info
            = Z.of_nat (length (filter (λ x, town x = ts_town info) df)))
      as Htot by (by rewrite Heq).
    destruct (get_town_characteristics (Some df) (ts_town info)) as [c|] eqn:Ec.
    + destruct (proj2 (town_characteristics_parts df (ts_town info)) c Ec)
        as (Hc1 & Hc2 & Hc3 & Hc4). simpl.
      split_and!; [done|lia| | | | | |].
      * rewrite Heq. simpl. lia.
      * rewrite Hc1, Heq. simpl. apply inj_le, length_filter.
      * assert (0 < length (fst <$> flat_type_mix c))%nat.
        { rewrite length_fmap.
          destruct (filter (λ x, town x = ts_town info) df) as [|x l] eqn:Ef;
            [simpl in *; lia|].
          assert (x ∈ filter (λ x, town x = ts_town info) df) as Hx
            by (rewrite Ef; by left).
          apply list_elem_of_filter in Hx as [Hx1 Hx2].
          assert (flat_type x ∈ fst <$> flat_type_mix c) as Hin
            by (apply Hc4; by exists x).
          apply elem_of_length_pos in Hin. by rewrite length_fmap in Hin. }
        rewrite length_take. lia.
      * rewrite length_take. lia.
      * eapply sublist_NoDup; [done|apply sublist_take].
      * intros ft Hft. apply Hc4.
        eapply elem_of_sublist; [done|apply sublist_take].
    + exfalso.
      destruct (town_characteristics_parts df (ts_town info)) as [[Hn _] _].
      pose proof (Hn Ec) as Ec'. clear Hn.
      rewrite Htot in Hq1.
      destruct (filter (λ x, town x = ts_town info) df) as [|x l] eqn:Ef;
        [simpl in Hq1; lia|].
      assert (x ∈ filter (λ x, town x = ts_town info) df) as Hx
        by (rewrite Ef; by left).
      apply list_elem_of_filter in Hx as [Hx1 Hx2]. by apply Ec' in Hx2.
Qed.

(** ** The figures of the market report *)

(** X11.  In a market report the lease vintage brackets the rows it is
    about: every selected row has a lease year between [oldest] and
    [newest], both are the lease year of a selected row, and the counts per
    flat type add up to the total. *)
Theorem town_market_report_figures
    (df : DataFrame) (town_name : string) (a : analysis) :
  get_town_market_analysis_on (Some df) town_name = Report a →
  (∀ r, r ∈ town_rows df town_name →
        oldest (an_lease_vintage a) ≤ lease_commence_date r
                                    ≤ newest (an_lease_vintage a))
  ∧ (∃ r, r ∈ town_rows df town_name
          ∧ lease_commence_date r = oldest (an_lease_vintage a))
  ∧ (∃ r, r ∈ town_rows df town_name
          ∧ lease_commence_date r = newest (an_lease_vintage a))
  ∧ Z.of_nat (sum_list (snd <$> an_flat_types a)) = an_total_transactions a
  ∧ NoDup (fst <$> an_flat_types a).
Proof.
  unfold get_town_market_analysis_on.
  case_decide as Hd; [done|]. intros [= <-]. simpl.
  set (rows := town_rows df town_name) in *.
  assert (lease_commence_date <$> rows ≠ []) as Hne.
  { destruct rows; [done|]. done. }
  destruct (max_Z_bounds 0 _ Hne) as [Hmax_in Hmax].
  destruct (min_Z_bounds 0 _ Hne) as [Hmin_in Hmin].
  split_and!.
  - intros r Hr.
    assert (lease_commence_date r ∈ lease_commence_date <$> rows) as Hin
      by (apply list_elem_of_fmap; by exists r).
    split; [by apply Hmin|by apply Hmax].
  - apply list_elem_of_fmap in Hmin_in as (r & Hr & Hin). by exists r.
  - apply list_elem_of_fmap in Hmax_in as (r & Hr & Hin). by exists r.
  - by rewrite value_counts_total, length_fmap.
  - rewrite value_counts_keys. apply unique_NoDup.
Qed.

(** ** The rationale *)

(** X12.  As the code has it, the rationale is the default "Moderate BTO
    opportunity" exactly when the gap is below 8, the recent activity is at
    most 50, and a four-room price is present and at least 400000. *)
Theorem rationale_moderate_iff
    (years recent : Z) (pricing : gmap string Z) :
  rationale_of years recent pricing = "Moderate BTO opportunity"
  ↔ years < 8 ∧ recent ≤ 50
    ∧ ∃ price, pricing !! "4_room" = Some price ∧ 400000 ≤ price.
Proof.
  split; [apply rationale_moderate|].
  intros (Hy & Hr & price & Hp & Hprice). unfold rationale_of.
  rewrite (rationale_parts_priced _ _ _ price Hp).
  by rewrite !decide_False by lia.
Qed.

(** ** The pool-based pricing *)

(** X13.  Whatever the tasks of [calculate_pricing_async] deliver, a key of
    its mapping stands for a flat type whose task completed with a non-zero
    estimate and holds the rounded 80% of that estimate; a key all of whose
    flat types failed, timed out or had no estimate is absent. *)
Theorem calculate_pricing_async_keys
    (task_result : string → result (option Q)) (fts : list string)
    (k : string) :
  (∀ v, calculate_pricing_async task_result fts !! k = Some v →
        ∃ ft p, ft ∈ fts ∧ k = pricing_key ft
                ∧ task_result ft = Ok (Some p) ∧ ¬ p == 0
                ∧ v = Py.round (p * 0.8))
  ∧ ((∀ ft, ft ∈ fts → pricing_key ft = k →
            (∃ e, task_result ft = Raise e) ∨ task_result ft = Ok None
            ∨ ∃ p, task_result ft = Ok (Some p) ∧ p == 0) →
     calculate_pricing_async task_result fts !! k = None).
Proof.
  assert (Hgen : ∀ (acc : gmap string Z) v,
    foldl (λ pricing ft,
             match task_result ft with
             | Ok (Some resale) =>
                 if Py.truthy resale
                 then <[pricing_key ft := bto_price resale]> pricing
                 else pricing
             | Ok None | Raise _ => pricing
             end) acc fts !! k = Some v →
    acc !! k = Some v ∨
    ∃ ft p, ft ∈ fts ∧ k = pricing_key ft
            ∧ task_result ft = Ok (Some p) ∧ ¬ p == 0
            ∧ v = Py.round (p * 0.8)).
  { induction fts as [|ft fts IH]; intros acc v; simpl; [by left|].
    intros [Hacc|(ft' & p & Hin & ?)]%IH.
    - destruct (task_result ft) as [[p|]|e] eqn:E; [|by left..].
      destruct (Py.truthy p) eqn:Ht; [|by left].
      destruct (decide (pricing_key ft = k)) as [<-|Hne].
      + rewrite lookup_insert_eq in Hacc. injection Hacc as <-.
        right. exists ft, p. apply truthy_true in Ht.
        split_and!; [by left|done..].
      + rewrite lookup_insert_ne in Hacc by done. by left.
    - right. exists ft', p. split; [by right|done]. }
  assert (Hpresent : ∀ v, calculate_pricing_async task_result fts !! k = Some v →
        ∃ ft p, ft ∈ fts ∧ k = pricing_key ft
                ∧ task_result ft = Ok (Some p) ∧ ¬ p == 0
                ∧ v = Py.round (p * 0.8)).
  { intros v [Hempty|?]%Hgen; [|done]. by rewrite lookup_empty in Hempty. }
  split; [done|]. intros Hall.
  destruct (calculate_pricing_async task_result fts !! k) as [v|] eqn:E; [|done].
  destruct (Hpresent v eq_refl) as (ft & p & Hin & -> & Hres & Hp & _).
  destruct (Hall ft Hin eq_refl) as [[e He]|[Hn|(p' & Hp' & H0)]];
    rewrite Hres in *; try done.
  injection Hp' as <-. done.
Qed.

(** ** Ordered dicts *)

Lemma dict_get_set {V} (d : list (string * V)) k v k' :
  Dict.get (Dict.set d k v) k' = if decide (k = k') then Some v else Dict.get d k'.
Proof.
  induction d as [|[k0 v0] d IH]; simpl.
  - by repeat case_decide.
  - destruct (decide (k0 = k)) as [->|Hne]; simpl.
    + by repeat case_decide.
    + rewrite IH. repeat case_decide; congruence.
Qed.

Lemma dict_get_from_keys {V} (ks : list string) (v : V) k :
  Dict.get (Dict.from_keys ks v) k = if decide (k ∈ ks) then Some v else None.
Proof.
  unfold Dict.from_keys.
  assert (∀ acc, Dict.get (foldl (λ d k, Dict.set d k v) acc ks) k
                 = if decide (k ∈ ks) then Some v else Dict.get acc k) as H.
  { induction ks as [|k0 ks IH]; intros acc.
    - cbn [foldl]. rewrite decide_False; [done|]. by intros ?%elem_of_nil.
    - cbn [foldl]. rewrite IH, dict_get_set.
      destruct (decide (k ∈ ks)) as [Hin|Hnin].
      + rewrite decide_True; [done|by right].
      + destruct (decide (k0 = k)) as [->|Hne].
        * rewrite decide_True; [done|by left].
        * rewrite decide_False; [done|].
          intros [->|?]%elem_of_cons; done. }
  rewrite H. by case_decide.
Qed.

Lemma dict_keys_set {V} (d : list (string * V)) k v :
  Dict.keys (Dict.set d k v)
  = if decide (k ∈ Dict.keys d) then Dict.keys d else Dict.keys d ++ [k].
Proof.
  unfold Dict.keys. induction d as [|[k0 v0] d IH].
  - cbn [Dict.set fmap list_fmap fst app]. rewrite decide_False; [done|].
    by intros ?%elem_of_nil.
  - cbn [Dict.set]. destruct (decide (k0 = k)) as [->|Hne].
    + rewrite !fmap_cons. cbn [fst]. rewrite decide_True; [done|by left].
    + rewrite !fmap_cons. cbn [fst]. rewrite IH.
      destruct (decide (k ∈ d.*1)) as [Hin|Hnin].
      * rewrite decide_True; [done|by right].
      * rewrite decide_False; [done|].
        intros [->|?]%elem_of_cons; done.
Qed.

Lemma dict_set_NoDup {V} (d : list (string * V)) k v :
  NoDup (Dict.keys d) → NoDup (Dict.keys (Dict.set d k v)).
Proof.
  intros Hnd. rewrite dict_keys_set. case_decide; [done|].
  apply NoDup_app. split_and!; [done| |apply NoDup_singleton].
  intros x Hx ->%list_elem_of_singleton. done.
Qed.

Lemma dict_from_keys_NoDup {V} (ks : list string) (v : V) :
  NoDup (Dict.keys (Dict.from_keys ks v)).
Proof.
  unfold Dict.from_keys.
  assert (∀ acc : list (string * V), NoDup (Dict.keys acc) →
            NoDup (Dict.keys (foldl (λ d k, Dict.set d k v) acc ks))) as H.
  { induction ks as [|k ks IH]; intros acc Hacc; simpl; [done|].
    by apply IH, dict_set_NoDup. }
  apply H. constructor.
Qed.

(** ** The features of a prediction *)

Lemma numeric_features_get (d : list (string * Q))
    (floor_area : Q) (storey lease_year : Z) (c : string) :
  Dict.get
    (Dict.set (Dict.set (Dict.set (Dict.set (Dict.set (Dict.set d
       "floor_area_sqm" floor_area)
       "storey_low" (inject_Z storey))
       "storey_high" (inject_Z storey))
       "lease_commence_year" (inject_Z lease_year))
       "tx_year" 2025%Q)
       "tx_month" 6%Q) c
  = match numeric_feature floor_area storey lease_year c with
    | Some v => Some v
    | None => Dict.get d c
    end.
Proof.
  rewrite !dict_get_set. unfold numeric_feature.
  destruct (decide ("tx_month" = c)) as [<-|?]; [done|].
  destruct (decide ("tx_year" = c)) as [<-|?]; [done|].
  destruct (decide ("lease_commence_year" = c)) as [<-|?]; [done|].
  destruct (decide ("storey_high" = c)) as [<-|?]; [done|].
  destruct (decide ("storey_low" = c)) as [<-|?]; [done|].
  destruct (decide ("floor_area_sqm" = c)) as [<-|?]; [done|].
  rewrite !decide_False; [done|..]; try (intros [?|?]); congruence.
Qed.

Lemma town_feature_not_numeric (t : string) (a : Q) (s l : Z) :
  numeric_feature a s l ("town_" +:+ t) = None.
Proof.
  unfold numeric_feature.
  rewrite !decide_False; [done|..]; try (intros [?|?]); discriminate.
Qed.

Lemma flat_type_feature_not_numeric (t : string) (a : Q) (s l : Z) :
  numeric_feature a s l ("flat_type_" +:+ t) = None.
Proof.
  unfold numeric_feature.
  rewrite !decide_False; [done|..]; try (intros [?|?]); discriminate.
Qed.

Lemma one_hot_get (d : list (string * Q)) (k c : string) :
  Dict.get (if decide (is_Some (Dict.get d k)) then Dict.set d k 1%Q else d) c
  = if decide (k = c ∧ is_Some (Dict.get d k)) then Some 1%Q else Dict.get d c.
Proof.
  destruct (decide (is_Some (Dict.get d k))) as [Hs|Hn].
  - rewrite dict_get_set. destruct (decide (k = c)) as [->|?].
    + by rewrite decide_True.
    + rewrite decide_False; [done|]. by intros [? _].
  - rewrite decide_False; [done|]. by intros [_ ?].
Qed.

Lemma one_hot_NoDup (d : list (string * Q)) (k : string) :
  NoDup (Dict.keys d) →
  NoDup (Dict.keys (if decide (is_Some (Dict.get d k)) then Dict.set d k 1%Q else d)).
Proof. intros Hd. case_decide; [by apply dict_set_NoDup|done]. Qed.

Ltac decide_solver :=
  solve [ done | split; [done|by eexists] | by left | by right
        | by intros [? _] | by intros [_ [? [=]]] | by intros [_ ?]
        | intros [?|?]; congruence | congruence ].

Ltac decide_step :=
  match goal with
  | |- context [decide ?P] =>
      first [ rewrite (decide_True (P := P)) by decide_solver
            | rewrite (decide_False (P := P)) by decide_solver ]
  end.

Lemma create_prediction_features_get
    (expected_features : list string) (town0 flat_type0 : string)
    (floor_area : Q) (storey lease_year : Z) (c : string) :
  Dict.get
    (create_prediction_features expected_features town0 flat_type0
       floor_area storey lease_year) c
  = feature_value expected_features town0 flat_type0
      floor_area storey lease_year c.
Proof.
  unfold create_prediction_features, feature_value. cbv zeta.
  rewrite !one_hot_get, !numeric_features_get, !dict_get_from_keys.
  rewrite town_feature_not_numeric, flat_type_feature_not_numeric.
  assert (Hne : "town_" +:+ town0 ≠ "flat_type_" +:+ flat_type0) by discriminate.
  destruct (decide ("town_" +:+ town0 ∈ expected_features)) as [Ht|Ht];
    destruct (decide ("flat_type_" +:+ flat_type0 ∈ expected_features)) as [Hf|Hf];
    (destruct (decide ("flat_type_" +:+ flat_type0 = c)) as [<-|Hfc];
     [rewrite flat_type_feature_not_numeric; repeat decide_step; done|]);
    (destruct (decide ("town_" +:+ town0 = c)) as [<-|Htc];
     [rewrite town_feature_not_numeric; repeat decide_step; done|]);
    repeat decide_step;
    (destruct (numeric_feature floor_area storey lease_year c); [done|]);
    case_decide; [|done..]; by repeat decide_step.
Qed.

(** X14.  The dict of [create_prediction_features] has each key once.  It
    holds the six numeric features with the request's values, and every
    other expected feature with 0, except the one-hot columns of the
    requested town and flat type, which hold 1.  A town or flat type
    without an expected column adds no key. *)
Theorem create_prediction_features_values
    (expected_features : list string) (town0 flat_type0 : string)
    (floor_area : Q) (storey lease_year : Z) :
  let features :=
    create_prediction_features expected_features town0 flat_type0
      floor_area storey lease_year in
  NoDup (Dict.keys features)
  ∧ (∀ c, Dict.get features c
          = feature_value expected_features town0 flat_type0
              floor_area storey lease_year c)
  ∧ ("town_" +:+ town0 ∉ expected_features →
       Dict.get features ("town_" +:+ town0) = None)
  ∧ ("flat_type_" +:+ flat_type0 ∉ expected_features →
       Dict.get features ("flat_type_" +:+ flat_type0) = None).
Proof.
  intros features. split_and!.
  - unfold features, create_prediction_features. cbv zeta.
    do 2 apply one_hot_NoDup. do 6 apply dict_set_NoDup.
    apply dict_from_keys_NoDup.
  - intros c. apply create_prediction_features_get.
  - intros Hn. unfold features.
    rewrite create_prediction_features_get. unfold feature_value.
    rewrite town_feature_not_numeric. by rewrite decide_False.
  - intros Hn. unfold features.
    rewrite create_prediction_features_get. unfold feature_value.
    rewrite flat_type_feature_not_numeric. by rewrite decide_False.
Qed.

(** ** Substrings and whitespace *)

Lemma prefix_app (n a b : string) :
  String.prefix n a = true → String.prefix n (a +:+ b) = true.
Proof.
  revert n. induction a as [|c' a IH]; intros [|c n]; simpl; try done.
  - by destruct b.
  - destruct (ascii_dec c c'); [apply IH|done].
Qed.

Lemma contains_app_l (n a b : string) :
  PyStr.contains n a = true → PyStr.contains n (a +:+ b) = true.
Proof.
  induction a as [|c a IH]; simpl.
  - rewrite orb_false_r. intros H. destruct n; [|done].
    by destruct b.
  - intros [H|H]%orb_true_iff; apply orb_true_iff.
    + left. by apply (prefix_app n (String c a) b).
    + right. by apply IH.
Qed.

Lemma contains_app_r (n a b : string) :
  PyStr.contains n b = true → PyStr.contains n (a +:+ b) = true.
Proof.
  intros H. induction a as [|c a IH]; simpl; [done|].
  rewrite IH. apply orb_true_r.
Qed.

Lemma after_prefix_Some p s r : PyStr.after_prefix p s = Some r ↔ s = p ++ r.
Proof.
  revert s. induction p as [|a p IH]; intros s; simpl.
  - split; congruence.
  - destruct s as [|c s]; [done|].
    destruct (Ascii.eqb_spec a c) as [->|Hne].
    + rewrite IH. split; [by intros ->|by intros [= ->]].
    + split; [done|]. intros [= -> _]. done.
Qed.

Lemma drop_first_Some codes s r :
  PyStr.drop_first codes s = Some r → ∃ p, p ∈ codes ∧ s = p ++ r.
Proof.
  induction codes as [|p codes IH]; simpl; [done|].
  destruct (PyStr.after_prefix p s) as [r'|] eqn:E.
  - intros [= ->]. exists p. split; [by left|]. by apply after_prefix_Some.
  - intros (q & Hq & ->)%IH. exists q. split; [by right|done].
Qed.

Lemma drop_first_None codes s p r :
  PyStr.drop_first codes s = None → p ∈ codes → s ≠ p ++ r.
Proof.
  induction codes as [|q codes IH]; simpl; [by intros _ ?%elem_of_nil|].
  destruct (PyStr.after_prefix q s) as [r'|] eqn:E; [done|].
  intros Hd [->|Hp]%elem_of_cons.
  - intros Hs. apply after_prefix_Some in Hs. congruence.
  - by apply IH.
Qed.

Lemma drop_leading_fixed codes n s :
  PyStr.drop_first codes s = None → PyStr.drop_leading codes n s = s.
Proof. intros H. destruct n; simpl; [done|]. by rewrite H. Qed.

Lemma drop_leading_done codes n s :
  Forall (λ p, p ≠ []) codes → (length s ≤ n)%nat →
  PyStr.drop_first codes (PyStr.drop_leading codes n s) = None.
Proof.
  intros Hc. revert s. induction n as [|n IH]; intros s Hn; simpl.
  - destruct s; [|simpl in Hn; lia].
    destruct (PyStr.drop_first codes []) as [r|] eqn:E; [|done].
    apply drop_first_Some in E as (p & Hp & Hs).
    rewrite Forall_forall in Hc. specialize (Hc p Hp). by destruct p.
  - destruct (PyStr.drop_first codes s) as [r|] eqn:E; [|done].
    apply IH. apply drop_first_Some in E as (p & Hp & ->).
    rewrite Forall_forall in Hc. specialize (Hc p Hp).
    rewrite length_app in Hn. destruct p; [done|]. simpl in Hn. lia.
Qed.

Lemma drop_leading_suffix codes n s :
  ∃ p, s = p ++ PyStr.drop_leading codes n s.
Proof.
  revert s. induction n as [|n IH]; intros s; simpl; [by exists []|].
  destruct (PyStr.drop_first codes s) as [r|] eqn:E; [|by exists []].
  apply drop_first_Some in E as (p & _ & ->).
  destruct (IH r) as [q Hq]. exists (p ++ q). by rewrite <-app_assoc, <-Hq.
Qed.

Lemma whitespace_nonempty : Forall (λ p, p ≠ []) PyStr.whitespace.
Proof. by repeat constructor. Qed.

Lemma reverse_whitespace_nonempty :
  Forall (λ p, p ≠ []) (reverse <$> PyStr.whitespace).
Proof. by repeat constructor. Qed.

Lemma drop_first_is_Some codes s p r :
  p ∈ codes → s = p ++ r → is_Some (PyStr.drop_first codes s).
Proof.
  intros Hp Hs. destruct (PyStr.drop_first codes s) eqn:E; [by eexists|].
  by destruct (drop_first_None codes s p r E Hp).
Qed.

Lemma lstrip_bytes_clean s :
  PyStr.drop_first PyStr.whitespace (PyStr.lstrip_bytes s) = None.
Proof. apply drop_leading_done; [apply whitespace_nonempty|done]. Qed.

Lemma rstrip_bytes_prefix s : ∃ q, s = PyStr.rstrip_bytes s ++ q.
Proof.
  unfold PyStr.rstrip_bytes.
  destruct (drop_leading_suffix (reverse <$> PyStr.whitespace)
              (length s) (reverse s)) as [p Hp].
  exists (reverse p).
  rewrite <-reverse_app, <-Hp. by rewrite reverse_involutive.
Qed.

Lemma lstrip_bytes_suffix s : ∃ p, s = p ++ PyStr.lstrip_bytes s.
Proof. apply drop_leading_suffix. Qed.

Lemma rstrip_bytes_keeps_clean s :
  PyStr.drop_first PyStr.whitespace s = None →
  PyStr.drop_first PyStr.whitespace (PyStr.rstrip_bytes s) = None.
Proof.
  intros Hs.
  destruct (PyStr.drop_first PyStr.whitespace (PyStr.rstrip_bytes s))
    as [r|] eqn:E; [|done].
  apply drop_first_Some in E as (p & Hp & Hu).
  destruct (rstrip_bytes_prefix s) as [q Hq].
  rewrite Hu, <-app_assoc in Hq.
  by destruct (drop_first_None _ _ _ _ Hs Hp Hq).
Qed.

Lemma rstrip_bytes_idemp s :
  PyStr.rstrip_bytes (PyStr.rstrip_bytes s) = PyStr.rstrip_bytes s.
Proof.
  unfold PyStr.rstrip_bytes at 1 2. rewrite reverse_involutive.
  rewrite drop_leading_fixed; [done|].
  apply drop_leading_done; [apply reverse_whitespace_nonempty|].
  by rewrite length_reverse.
Qed.

Lemma lstrip_bytes_fixed s :
  PyStr.drop_first PyStr.whitespace s = None → PyStr.lstrip_bytes s = s.
Proof. apply drop_leading_fixed. Qed.

Lemma strip_idemp s : PyStr.strip (PyStr.strip s) = PyStr.strip s.
Proof.
  unfold PyStr.strip. rewrite list_ascii_of_string_of_list_ascii.
  rewrite lstrip_bytes_fixed
    by apply rstrip_bytes_keeps_clean, lstrip_bytes_clean.
  by rewrite rstrip_bytes_idemp.
Qed.

(** *** Case mapping and whitespace *)

Lemma list_ascii_of_map_chars f s :
  list_ascii_of_string (Py.map_chars f s) = f <$> list_ascii_of_string s.
Proof. induction s as [|c s IH]; [done|]. simpl. by rewrite IH. Qed.

(** [f] neither makes nor unmakes the byte [a]. *)
Definition keeps_byte (f : ascii → ascii) (a : ascii) : Prop :=
  ∀ c, f c = a ↔ c = a.

Lemma after_prefix_fmap (f : ascii → ascii) (p s : list ascii) :
  Forall (keeps_byte f) p →
  PyStr.after_prefix p (f <$> s)
  = (λ r : list ascii, f <$> r) <$> PyStr.after_prefix p s.
Proof.
  intros Hp. revert s. induction Hp as [|a p Ha Hp IH]; intros s; [done|].
  destruct s as [|c s]; [done|]. rewrite fmap_cons. simpl.
  destruct (Ascii.eqb_spec a c) as [->|Hne].
  - rewrite (proj2 (Ha c) eq_refl), Ascii.eqb_refl. apply IH.
  - destruct (Ascii.eqb_spec a (f c)) as [Hfc|_]; [|done].
    symmetry in Hfc. apply (proj1 (Ha c)) in Hfc. by subst.
Qed.

Lemma drop_first_fmap (f : ascii → ascii) codes (s : list ascii) :
  Forall (Forall (keeps_byte f)) codes →
  PyStr.drop_first codes (f <$> s)
  = (λ r : list ascii, f <$> r) <$> PyStr.drop_first codes s.
Proof.
  induction 1 as [|p codes Hp Hc IH]; [done|]. simpl.
  rewrite after_prefix_fmap by done.
  by destruct (PyStr.after_prefix p s).
Qed.

Lemma drop_leading_fmap (f : ascii → ascii) codes n (s : list ascii) :
  Forall (Forall (keeps_byte f)) codes →
  PyStr.drop_leading codes n (f <$> s) = f <$> PyStr.drop_leading codes n s.
Proof.
  intros Hc. revert s. induction n as [|n IH]; intros s; [done|]. simpl.
  rewrite drop_first_fmap by done.
  destruct (PyStr.drop_first codes s); simpl; [apply IH|done].
Qed.

Lemma strip_bytes_fmap (f : ascii → ascii) (s : list ascii) :
  Forall (Forall (keeps_byte f)) PyStr.whitespace →
  PyStr.rstrip_bytes (PyStr.lstrip_bytes (f <$> s))
  = f <$> PyStr.rstrip_bytes (PyStr.lstrip_bytes s).
Proof.
  intros Hc. unfold PyStr.lstrip_bytes, PyStr.rstrip_bytes.
  rewrite length_fmap, drop_leading_fmap by done.
  rewrite length_fmap, <-fmap_reverse, drop_leading_fmap.
  - by rewrite fmap_reverse.
  - apply Forall_fmap. eapply Forall_impl; [exact Hc|].
    intros p Hp. simpl. by apply Forall_reverse.
Qed.

Lemma upper_char_cases c :
  Py.upper_char c = c
  ∨ ((65 <=? N_of_ascii (Py.upper_char c)) && (N_of_ascii (Py.upper_char c) <=? 90))%N
    = true.
Proof.
  destruct c as [[] [] [] [] [] [] [] []];
    first [left; reflexivity | right; reflexivity].
Qed.

Lemma upper_char_keeps a :
  ((65 <=? N_of_ascii a) && (N_of_ascii a <=? 90))%N = false →
  ((97 <=? N_of_ascii a) && (N_of_ascii a <=? 122))%N = false →
  keeps_byte Py.upper_char a.
Proof.
  intros Hup Hlow c. split.
  - intros Hc. destruct (upper_char_cases c) as [Heq|Hr]; [congruence|].
    rewrite Hc in Hr. congruence.
  - intros ->. unfold Py.upper_char. cbv zeta. by rewrite Hlow.
Qed.

Lemma upper_char_keeps_whitespace :
  Forall (Forall (keeps_byte Py.upper_char)) PyStr.whitespace.
Proof. repeat constructor; apply upper_char_keeps; reflexivity. Qed.

Lemma ascii_upper_strip s :
  Py.ascii_upper (PyStr.strip s) = PyStr.strip (Py.ascii_upper s).
Proof.
  unfold PyStr.strip, Py.ascii_upper.
  rewrite list_ascii_of_map_chars.
  rewrite strip_bytes_fmap by apply upper_char_keeps_whitespace.
  rewrite <-(string_of_list_ascii_of_string (Py.map_chars _ _)).
  by rewrite list_ascii_of_map_chars, list_ascii_of_string_of_list_ascii.
Qed.

Lemma is_ascii_strip s : Py.is_ascii s = true → Py.is_ascii (PyStr.strip s) = true.
Proof.
  unfold Py.is_ascii, PyStr.strip. rewrite list_ascii_of_string_of_list_ascii.
  set (l := list_ascii_of_string s).
  destruct (lstrip_bytes_suffix l) as [p Hp].
  destruct (rstrip_bytes_prefix (PyStr.lstrip_bytes l)) as [q Hq].
  rewrite Hp, Hq at 1. rewrite !forallb_app, !andb_true_iff. tauto.
Qed.

(** For an ASCII name, the cleaned name of the endpoint is its own
    upper-case form. *)
Lemma upper_strip_upper s :
  Py.is_ascii s = true →
  Py.upper (PyStr.strip (Py.upper s)) = PyStr.strip (Py.upper s).
Proof.
  intros Hs. rewrite (upper_ascii s Hs).
  rewrite upper_ascii
    by (apply is_ascii_strip; by rewrite is_ascii_ascii_upper).
  by rewrite ascii_upper_strip, ascii_upper_idemp.
Qed.

(** ** The digest handed to the LLM *)

Section digest_facts.

Variable str_pricing : gmap string Z → string.

Lemma digest_line_mentions_years (e : entry) :
  PyStr.contains "Years since BTO" (digest_line str_pricing e) = true.
Proof.
  destruct e; unfold digest_line;
    apply (contains_app_r _ "Town: "), contains_app_r; reflexivity.
Qed.

Lemma digest_mentions_years (recs : list entry) :
  recs ≠ [] →
  PyStr.contains "Years since BTO" (digest str_pricing recs) = true.
Proof.
  intros Hne. unfold digest, Py.join.
  destruct recs as [|e recs]; [done|].
  change (take 5 (e :: recs)) with (e :: take 4 recs).
  rewrite fmap_cons. cbn [concat].
  destruct (digest_line str_pricing <$> take 4 recs).
  - apply digest_line_mentions_years.
  - apply contains_app_l, digest_line_mentions_years.
Qed.

End digest_facts.

(** ** The model input *)

Lemma aligned_frame_columns (expected : list string) (features : list (string * Q)) :
  expected ≠ [] →
  Dict.keys (aligned_frame (Some expected) features) = expected.
Proof.
  intros Hne. unfold aligned_frame, Dict.keys.
  destruct expected as [|c l]; [done|].
  rewrite <-list_fmap_compose.
  rewrite <-(list_fmap_id (c :: l)) at 2. by apply list_fmap_ext.
Qed.

(** X15.  When the features file lists at least one column, the model is
    called on exactly the listed columns, in the file's order.  A numeric
    column carries the request's value, the one-hot column of the requested
    town or flat type carries 1, every other column 0; a numeric feature
    that the file does not list never reaches the model. *)
Theorem predict_price_model_input
    (model_predict : list (string * Q) → result Q)
    (expected : list string) (town0 flat_type0 : string)
    (floor_area : Q) (storey lease_year : Z) :
  expected ≠ [] →
  let features :=
    create_prediction_features expected town0 flat_type0
      floor_area storey lease_year in
  Dict.keys (aligned_frame (Some expected) features) = expected
  ∧ predict_price model_predict (Some expected) features
    = model_predict
        ((λ c, (c, match numeric_feature floor_area storey lease_year c with
                   | Some v => v
                   | None =>
                       if decide (c = "town_" +:+ town0
                                  ∨ c = "flat_type_" +:+ flat_type0)
                       then 1%Q else 0%Q
                   end)) <$> expected).
Proof.
  intros Hne features. split; [by apply aligned_frame_columns|].
  unfold predict_price, aligned_frame. f_equal.
  destruct expected as [|c0 l]; [done|].
  apply list_fmap_ext. intros i c Hc%list_elem_of_lookup_2.
  unfold features. rewrite create_prediction_features_get.
  unfold feature_value.
  destruct (numeric_feature floor_area storey lease_year c); [done|].
  by rewrite decide_True.
Qed.

(** ** Sorted listings *)

Lemma sorted_unique_dedup (column : list string) :
  sorted_unique column = merge_sort String.le (remove_dups column).
Proof.
  unfold sorted_unique. apply (Sorted_unique String.le).
  - apply Sorted_merge_sort, _.
  - apply Sorted_merge_sort, _.
  - rewrite !merge_sort_Permutation.
    apply NoDup_Permutation; [apply unique_NoDup|apply NoDup_remove_dups|].
    intros x. by rewrite elem_of_unique, elem_of_remove_dups.
Qed.

Lemma elem_of_sorted_dedup (column : list string) (x : string) :
  x ∈ merge_sort String.le (remove_dups column) ↔ x ∈ column.
Proof. by rewrite merge_sort_Permutation, elem_of_remove_dups. Qed.

Lemma sorted_dedup_ascending (column : list string) :
  StronglySorted (λ a b : string, (a ≤ b)%string ∧ a ≠ b)
    (merge_sort String.le (remove_dups column)).
Proof.
  assert (NoDup (merge_sort String.le (remove_dups column))) as Hnd.
  { rewrite merge_sort_Permutation. apply NoDup_remove_dups. }
  assert (StronglySorted String.le (merge_sort String.le (remove_dups column)))
    as Hs.
  { apply Sorted_StronglySorted; [apply _|]. apply Sorted_merge_sort, _. }
  induction Hs as [|a l Hs IH Ha]; [constructor|].
  apply NoDup_cons in Hnd as [Hnotin Hnd]. constructor; [by apply IH|].
  eapply Forall_forall. intros b Hb. split.
  - by eapply Forall_forall in Ha.
  - by intros ->.
Qed.

(** ** The endpoints *)

Section endpoint_facts.

Variable str_raised : raised → string.
Variable str_pricing : gmap string Z → string.
Variable model_predict : list (string * Q) → result Q.

(** X16.  [POST /predict] answers 503 when the model is not loaded.  With
    the model loaded, a request out of range is answered with status 500,
    not 400: the [HTTPException] of the validation is caught by the
    handler's own [except Exception].  A request in range is answered with
    the two prices rounded to cents and the bracket of the unrounded BTO
    price, with 400 when the prediction raises [ValueError], and with 500
    when it raises anything else. *)
Theorem predict_statuses (model_loaded : bool) (expected_features : list string)
    (predict_expected : option (list string)) (env_discount : Q)
    (req : PredictRequest) :
  let out := predict str_raised model_predict model_loaded expected_features
               predict_expected env_discount req in
  let in_range :=
    (0 < req_floor_area_sqm req)%Q ∧ (req_floor_area_sqm req <= 300)%Q
    ∧ 1 ≤ req_storey req ≤ 50
    ∧ 1960 ≤ req_lease_commence_year req ≤ 2025 in
  let prediction :=
    predict_price model_predict predict_expected
      (create_prediction_features expected_features (req_town req)
         (req_flat_type req) (req_floor_area_sqm req) (req_storey req)
         (req_lease_commence_year req)) in
  (model_loaded = false →
     out = HttpError 503 "Model not available. Please check model files.")
  ∧ (model_loaded = true → ¬ in_range →
     ∃ detail,
       detail ∈ ["Invalid floor area"; "Invalid storey level";
                 "Invalid lease commence year"]
       ∧ out = HttpError 500
                 ("Prediction failed: " +:+ str_raised (HTTPException 400 detail)))
  ∧ (model_loaded = true → in_range →
     match prediction with
     | Ok resale_price =>
         out = Respond
                 {| resp_town := req_town req;
                    resp_flat_type := req_flat_type req;
                    predicted_resale_price := Py.round2 resale_price;
                    predicted_bto_price :=
                      Py.round2 (resale_price * (1 - env_discount));
                    affordability :=
                      calculate_affordability (resale_price * (1 - env_discount)) |}
     | Raise (ValueError msg) =>
         out = HttpError 400
                 ("Invalid input: " +:+ str_raised (PyError (ValueError msg)))
     | Raise e =>
         out = HttpError 500 ("Prediction failed: " +:+ str_raised (PyError e))
     end)
  ∧ (∀ detail, out = HttpError 400 detail →
     in_range ∧ ∃ msg, prediction = Raise (ValueError msg)).
Proof.
  intros out in_range prediction.
  assert (Hrange : model_loaded = true →
    (in_range ∧
       out = match prediction with
             | Ok resale_price =>
                 Respond
                   {| resp_town := req_town req;
                      resp_flat_type := req_flat_type req;
                      predicted_resale_price := Py.round2 resale_price;
                      predicted_bto_price :=
                        Py.round2 (resale_price * (1 - env_discount));
                      affordability :=
                        calculate_affordability (resale_price * (1 - env_discount)) |}
             | Raise (ValueError msg) =>
                 HttpError 400
                   ("Invalid input: " +:+ str_raised (PyError (ValueError msg)))
             | Raise e =>
                 HttpError 500 ("Prediction failed: " +:+ str_raised (PyError e))
             end)
    ∨ (¬ in_range ∧
       ∃ detail,
         detail ∈ ["Invalid floor area"; "Invalid storey level";
                   "Invalid lease commence year"]
         ∧ out = HttpError 500
                   ("Prediction failed: " +:+ str_raised (HTTPException 400 detail)))).
  { intros ->. unfold out, predict, in_range. simpl negb. cbv iota.
    destruct (Qle_bool (req_floor_area_sqm req) 0) eqn:E0.
    { right. split.
      - intros (Hpos & _). apply Qle_bool_iff in E0.
        by apply Qlt_not_le in Hpos.
      - exists "Invalid floor area". split; [set_solver|done]. }
    destruct (Qle_bool (req_floor_area_sqm req) 300) eqn:E1; simpl.
    2:{ right. split.
      - intros (_ & Hle & _). apply Qle_bool_iff in Hle. congruence.
      - exists "Invalid floor area". split; [set_solver|done]. }
    destruct (req_storey req <? 1) eqn:E2.
    { right. split.
      - apply Z.ltb_lt in E2. intros (_ & _ & ? & _). lia.
      - exists "Invalid storey level". split; [set_solver|done]. }
    destruct (50 <? req_storey req) eqn:E3; simpl.
    { right. split.
      - apply Z.ltb_lt in E3. intros (_ & _ & ? & _). lia.
      - exists "Invalid storey level". split; [set_solver|done]. }
    destruct (req_lease_commence_year req <? 1960) eqn:E4.
    { right. split.
      - apply Z.ltb_lt in E4. intros (_ & _ & _ & ?). lia.
      - exists "Invalid lease commence year". split; [set_solver|done]. }
    destruct (2025 <? req_lease_commence_year req) eqn:E5; simpl.
    { right. split.
      - apply Z.ltb_lt in E5. intros (_ & _ & _ & ?). lia.
      - exists "Invalid lease commence year". split; [set_solver|done]. }
    left. split.
    - apply Z.ltb_ge in E2, E3, E4, E5. apply Qle_bool_iff in E1.
      split_and!; try lia; [|done].
      apply Qnot_le_lt. intros H%Qle_bool_iff. congruence.
    - fold prediction. by destruct prediction as [?|[]]. }
  split_and!.
  - by intros ->.
  - intros Hl Hn. destruct (Hrange Hl) as [[? _]|[_ ?]]; done.
  - intros Hl Hin. destruct (Hrange Hl) as [[_ ->]|[? _]]; [|done].
    by destruct prediction as [?|[]].
  - intros detail Hout. destruct model_loaded.
    + destruct (Hrange eq_refl) as [[Hin Ho]|[_ (d & _ & Ho)]].
      * split; [done|]. rewrite Ho in Hout.
        destruct prediction as [?|[]]; try done. by eexists.
      * rewrite Ho in Hout. done.
    + done.
Qed.

(** X17.  [GET /recommend] never answers 404: an empty list of
    recommendations is answered with status 500, because the handler's
    [except Exception] catches its own [HTTPException].  A list that is not
    empty is returned unchanged beside the analysis.  On the output of
    [recommend_estates], the 500 arises exactly when the table is loaded
    and the gap analysis returns no candidate. *)
Theorem recommend_responses (openai : result string) (api_key : bool)
    (post : result perplexity_reply) :
  recommend str_raised str_pricing [] openai api_key post
  = HttpError 500
      ("Recommendation failed: "
       +:+ str_raised (HTTPException 404 "No recommendations available"))
  ∧ (∀ e recs,
       recommend str_raised str_pricing (e :: recs) openai api_key post
       = Respond
           {| prompt := "limited_bto_last_decade_with_pricing_analysis";
              rr_analysis :=
                analyze_with_llm openai api_key post
                  (digest str_pricing (e :: recs));
              recommended_towns := e :: recs |})
  ∧ (∀ loaded,
       (∃ detail,
          recommend str_raised str_pricing (recommend_estates_on loaded)
            openai api_key post = HttpError 500 detail)
       ↔ ∃ df, loaded = Some df ∧ analyze_bto_gaps (Some df) = [])
  ∧ (∀ loaded code detail,
       recommend str_raised str_pricing (recommend_estates_on loaded)
         openai api_key post = HttpError code detail → code = 500).
Proof.
  split_and!; [done|done| |].
  - intros loaded. destruct loaded as [df|].
    + pose proof (recommend_estates_on_length df) as Hlen.
      destruct (recommend_estates_on (Some df)) as [|e recs] eqn:E.
      * split; [|by eexists]. intros _. exists df. split; [done|].
        destruct (analyze_bto_gaps (Some df)); [done|]. simpl in Hlen. lia.
      * split; [by intros [? ?]|]. intros (df' & [= <-] & Hg).
        rewrite Hg in Hlen. simpl in Hlen. lia.
    + split; [by intros [? ?]|]. by intros (? & ? & _).
  - intros loaded code detail.
    destruct (recommend_estates_on loaded); [|done].
    by intros [= <- _].
Qed.

(** X18.  The analysis of [analyze_with_llm] is the stripped content of
    the OpenAI completion when that call succeeds, whatever Perplexity
    would do; else the stripped content of the first Perplexity choice,
    which needs a configured key, status 200 and a first choice with
    content; else the fallback text.  A service's content comes back with
    no blank left at either end. *)
Theorem analyze_with_llm_cases (openai : result string) (api_key : bool)
    (post : result perplexity_reply) (data : string) :
  let a := analyze_with_llm openai api_key post data in
  (∀ c, openai = Ok c → a = PyStr.strip c ∧ PyStr.strip a = a)
  ∧ (∀ e, openai = Raise e →
       ((∃ c, analyze_with_perplexity api_key post = Ok c)
        ↔ api_key = true
          ∧ ∃ reply c rest, post = Ok reply ∧ reply_status reply = 200
              ∧ reply_choices reply = Some (Some c :: rest))
       ∧ (∀ reply c rest,
            api_key = true → post = Ok reply → reply_status reply = 200 →
            reply_choices reply = Some (Some c :: rest) →
            a = PyStr.strip c ∧ PyStr.strip a = a)
       ∧ (∀ e', analyze_with_perplexity api_key post = Raise e' →
            a = generate_fallback_analysis data
                  "Both OpenAI and Perplexity APIs unavailable")).
Proof.
  intros a. split.
  - intros c ->. unfold a. simpl. split; [done|apply strip_idemp].
  - intros e ->. unfold a, analyze_with_llm, analyze_with_perplexity.
    split_and!.
    + destruct api_key; simpl.
      2:{ split; [by intros [? ?]|by intros [? _]]. }
      destruct post as [reply|e0].
      2:{ split; [by intros [? ?]|]. by intros (_ & ? & ? & ? & ? & _). }
      destruct (decide (reply_status reply ≠ 200)) as [Hs|Hs].
      { split; [by intros [? ?]|].
        intros (_ & ? & ? & ? & [= <-] & ? & _). done. }
      apply dec_stable in Hs.
      destruct (reply_choices reply) as [[|[c|] rest]|] eqn:Ec.
      * split; [by intros [? ?]|].
        intros (_ & ? & ? & ? & [= <-] & _ & ?). congruence.
      * split; [|by eexists]. intros _. split; [done|].
        by exists reply, c, rest.
      * split; [by intros [? ?]|].
        intros (_ & ? & ? & ? & [= <-] & _ & ?). congruence.
      * split; [by intros [? ?]|].
        intros (_ & ? & ? & ? & [= <-] & _ & ?). congruence.
    + intros reply c rest -> -> Hs Hc. simpl. rewrite Hc.
      rewrite decide_False by (by intros ?).
      split; [done|apply strip_idemp].
    + intros e'.
      destruct api_key; simpl; [|done].
      destruct post as [reply|e0]; [|done].
      destruct (decide (reply_status reply ≠ 200)); [done|].
      by destruct (reply_choices reply) as [[|[c|] rest]|].
Qed.

(** X19.  When both LLM services fail, the analysis that [GET /recommend]
    returns is always the long fallback text: every digest line carries the
    words "Years since BTO", so the short fallback sentence is never
    used by this endpoint. *)
Theorem recommend_fallback_analysis (e : entry) (recs : list entry)
    (failure : exn) (api_key : bool) (post : result perplexity_reply) :
  (∀ c, analyze_with_perplexity api_key post ≠ Ok c) →
  recommend str_raised str_pricing (e :: recs) (Raise failure) api_key post
  = Respond
      {| prompt := "limited_bto_last_decade_with_pricing_analysis";
         rr_analysis :=
           "LLM analysis unavailable - Both OpenAI and Perplexity APIs unavailable."
           +:+ PyStr.newline +:+ PyStr.newline +:+ fallback_long_text;
         recommended_towns := e :: recs |}.
Proof.
  intros Hp. unfold recommend. cbv zeta iota. do 2 f_equal.
  unfold analyze_with_llm.
  destruct (analyze_with_perplexity api_key post) as [c|e'] eqn:E;
    [by destruct (Hp c)|].
  unfold generate_fallback_analysis.
  rewrite (digest_mentions_years str_pricing (e :: recs)) by done.
  rewrite orb_true_r. reflexivity.
Qed.

(** X20.  [GET /town/{town_name}/analysis] answers either with the report
    or with status 404, never with another status.  It is 404 exactly when
    the table is not loaded or no row's town, in upper case, equals the
    upper case of the cleaned name, which is the requested name in upper
    case without blanks at its ends.  The report names the town by the
    cleaned name.  For an ASCII name the cleaned name is its own upper
    case, and the answer is the same for the name in lower case. *)
Theorem get_town_analysis_statuses (loaded : option DataFrame) (town_name : string) :
  let clean := PyStr.strip (Py.upper town_name) in
  let matching_rows df := filter (λ r, Py.upper (town r) = Py.upper clean) df in
  (∀ code detail,
     get_town_analysis loaded town_name = HttpError code detail → code = 404)
  ∧ ((∃ detail, get_town_analysis loaded town_name = HttpError 404 detail)
     ↔ loaded = None ∨ ∃ df, loaded = Some df ∧ matching_rows df = [])
  ∧ (∀ a, get_town_analysis loaded town_name = Respond a →
       an_town a = clean
       ∧ ∃ df, loaded = Some df
               ∧ an_total_transactions a = Z.of_nat (length (matching_rows df))
               ∧ 0 < an_total_transactions a)
  ∧ (Py.is_ascii town_name = true →
       Py.upper clean = clean
       ∧ get_town_analysis loaded (Py.lower town_name)
         = get_town_analysis loaded town_name).
Proof.
  intros clean matching_rows.
  assert (Hrows : ∀ df, town_rows df clean = matching_rows df) by done.
  unfold get_town_analysis. fold clean.
  split_and!.
  - intros code detail.
    destruct (get_town_market_analysis_on loaded clean); [|done].
    by intros [= <- _].
  - destruct loaded as [df|]; simpl.
    + rewrite Hrows. case_decide as Hl.
      * split; [|by eexists]. intros _. right. exists df. split; [done|].
        by apply nil_length_inv.
      * split; [by intros [? ?]|]. intros [?|(df' & [= <-] & Hm)]; [done|].
        by rewrite Hm in Hl.
    + split; [|by eexists]. intros _. by left.
  - intros a. destruct loaded as [df|]; simpl; [|done].
    rewrite Hrows. case_decide as Hl; [done|]. intros [= <-]. simpl.
    split; [done|]. exists df. split_and!; [done|done|lia].
  - intros Ha. split; [by apply upper_strip_upper|].
    by rewrite upper_lower.
Qed.

(** X21.  [GET /towns] and [GET /flat-types] answer 500 when the table is
    not loaded, not the 503 that the handler raises.  On a loaded table
    they list each town, or flat type, of the table once, in strictly
    ascending order, with the length of the list as the count; the lists
    are the group keys of [groupby('town')] and [groupby('flat_type')]. *)
Theorem listing_endpoints (loaded : option DataFrame) :
  match loaded with
  | None =>
      list_available_towns loaded = HttpError 500 "Failed to fetch towns"
      ∧ list_flat_types loaded = HttpError 500 "Failed to fetch flat types"
  | Some df =>
      list_available_towns loaded
      = Respond {| listed := groupby_keys df;
                   listed_count := length (groupby_keys df) |}
      ∧ list_flat_types loaded
        = Respond {| listed := groupby_flat_type df;
                     listed_count := length (groupby_flat_type df) |}
      ∧ StronglySorted (λ a b : string, (a ≤ b)%string ∧ a ≠ b) (groupby_keys df)
      ∧ StronglySorted (λ a b : string, (a ≤ b)%string ∧ a ≠ b)
          (groupby_flat_type df)
      ∧ (∀ t, t ∈ groupby_keys df ↔ ∃ r, r ∈ df ∧ town r = t)
      ∧ (∀ ft, ft ∈ groupby_flat_type df ↔ ∃ r, r ∈ df ∧ flat_type r = ft)
  end.
Proof.
  destruct loaded as [df|]; [|done].
  unfold list_available_towns, list_flat_types. cbv zeta iota.
  rewrite !sorted_unique_dedup.
  fold (groupby_keys df). fold (groupby_flat_type df).
  split_and!; [done|done|..].
  - apply sorted_dedup_ascending.
  - apply sorted_dedup_ascending.
  - intros t. unfold groupby_keys.
    rewrite elem_of_sorted_dedup, list_elem_of_fmap.
    split; intros (r & ? & ?); exists r; by split.
  - intros ft. unfold groupby_flat_type.
    rewrite elem_of_sorted_dedup, list_elem_of_fmap.
    split; intros (r & ? & ?); exists r; by split.
Qed.

End endpoint_facts.

End Service.

(** * Concrete runs *)

(** The strings of the concrete runs are all ASCII, so the Unicode mapping
    is never consulted; the prices of each table are one whole number, so
    the float mean is exact. *)
#[global] Instance ascii_text : Unicode :=
  {| unicode_upper := id; unicode_lower := id |}.
#[global] Instance exact_floats : Float64 :=
  {| mean_round2 xs := Py.round2 (Pd.exact_mean xs) |}.

Example twelve_recent_uses_tier_one :
  _calculate_single_pricing twelve_recent "A" "4 ROOM" = Some 400000%Q.
Proof. reflexivity. Qed.

Example three_recent_uses_all_time :
  _calculate_single_pricing three_recent_twenty_old "A" "4 ROOM" = Some 300000%Q.
Proof. reflexivity. Qed.

Example town_a_is_a_candidate :
  analyze_bto_gaps (Some town_a_table) = [aggregate town_a_table "A"]
  ∧ years_since_last_major_launch (aggregate town_a_table "A") = 15
  ∧ total_transactions (aggregate town_a_table "A") = 150
  ∧ recent_transactions (aggregate town_a_table "A") = 40.
Proof. by vm_compute. Qed.

Lemma calculate_single_pricing_tiers_witness :
  (10 ≤ length (filter (matching_recent "A" "4 ROOM") twelve_recent))%nat
  ∧ _calculate_single_pricing twelve_recent "A" "4 ROOM"
    = Some (Pd.median (resale_price
                         <$> filter (matching_recent "A" "4 ROOM") twelve_recent)).
Proof.
  assert (10 ≤ length (filter (matching_recent "A" "4 ROOM") twelve_recent))%nat
    as H by (vm_compute; lia).
  split; [exact H|].
  exact (proj1 (calculate_single_pricing_tiers twelve_recent "A" "4 ROOM") H).
Defined.

Lemma pricing_omits_falsy_estimates_witness :
  "4 ROOM" ∈ flat_types
  ∧ pricing_for town_a_table "A" flat_types !! "4_room" = Some 380000
  ∧ pricing_for town_a_table "A" flat_types !! "3_room" = None.
Proof.
  assert ("4 ROOM" ∈ flat_types) as H4 by (right; left).
  assert ("3 ROOM" ∈ flat_types) as H3 by left.
  split_and!; [exact H4| |].
  - destruct (pricing_omits_falsy_estimates town_a_table "A" "4 ROOM" H4)
      as (_ & Hpresent & _).
    apply (Hpresent 475000%Q); [reflexivity|discriminate].
  - destruct (pricing_omits_falsy_estimates town_a_table "A" "3 ROOM" H3)
      as (Habsent & _ & _).
    apply Habsent. left. reflexivity.
Defined.

Lemma demand_score_formula_witness :
  let info := aggregate town_a_table "A" in
  0 < years_since_last_major_launch info
  ∧ (demand_score (recommendation_for town_a_table info)
     == Qmin (inject_Z (years_since_last_major_launch info) / 10) 1)%Q
  ∧ Recommended (recommendation_for town_a_table info)
    ∈ recommend_estates_on (Some town_a_table)
  ∧ rec_years_since_last_major_launch (recommendation_for town_a_table info) = 15
  ∧ (demand_score (recommendation_for town_a_table info) == 1)%Q.
Proof.
  intros info.
  assert (0 < years_since_last_major_launch info) as H by (vm_compute; reflexivity).
  assert (Recommended (recommendation_for town_a_table info)
          ∈ recommend_estates_on (Some town_a_table)) as Hin
    by (vm_compute; apply list_elem_of_here).
  split_and!; [exact H| |exact Hin|reflexivity|].
  - exact (proj1 (demand_score_formula town_a_table info) H).
  - destruct (proj2 (proj2 (proj2 (proj2 (proj2
               (demand_score_formula town_a_table info)))))
               _ _ _ _ Hin Hin) as (_ & Hs & _).
    rewrite Hs. reflexivity.
Defined.

Lemma recommend_estates_length_witness :
  recommend_estates_on None = [Estimate data_unavailable_fallback]
  ∧ (length (recommend_estates_on (Some town_a_table)) ≤ 6)%nat.
Proof.
  split.
  - exact (proj1 (proj2 (recommend_estates_length None)) eq_refl).
  - exact (proj1 (recommend_estates_length (Some town_a_table))).
Defined.

Lemma load_failure_keeps_cache_witness :
  let io := {| clock_at_check := 10; read_csv := Raise FileNotFoundError;
               clock_at_store := 10 |} in
  ¬ cache_fresh io __init__
  ∧ load_resale_data_body year_of_period io __init__ = (__init__, Ok None).
Proof.
  intros io.
  assert (¬ cache_fresh io __init__) as H.
  { intros (? & ? & Hc & _). discriminate Hc. }
  split; [exact H|].
  apply (proj2 (proj2 (proj2 (load_failure_keeps_cache year_of_period io start)))
           __init__ H).
  left. by exists FileNotFoundError.
Defined.

Lemma town_market_analysis_not_found_witness :
  (∀ r, r ∈ town_a_table → Py.upper (town r) ≠ Py.upper "b")
  ∧ get_town_market_analysis_on (Some town_a_table) "b"
    = ErrorDict "No data found for b"
  ∧ (∃ r, r ∈ town_a_table ∧ Py.upper (town r) = Py.upper "a")
  ∧ (∃ a, get_town_market_analysis_on (Some town_a_table) "a" = Report a
          ∧ an_town a = "a" ∧ an_total_transactions a = 150)
  ∧ town_rows town_a_table "a" = town_rows town_a_table "A".
Proof.
  assert (∀ r, r ∈ town_a_table → Py.upper (town r) ≠ Py.upper "b") as H.
  { intros r Hr. unfold town_a_table in Hr.
    apply elem_of_app in Hr as [Hr|Hr]; apply elem_of_replicate in Hr as [-> _];
      discriminate. }
  assert (∃ r, r ∈ town_a_table ∧ Py.upper (town r) = Py.upper "a") as Hhit.
  { exists (sample_row "A" "4 ROOM" 2010 475000 2023). split; [|reflexivity].
    apply elem_of_app. left. apply elem_of_replicate. by split. }
  split_and!; [exact H| |exact Hhit| |].
  - exact (proj1 (town_market_analysis_not_found town_a_table "b") H).
  - destruct (proj1 (proj2 (town_market_analysis_not_found town_a_table "a")) Hhit)
      as (a & Ha & Hn & Ht & _).
    exists a. split_and!; [exact Ha|exact Hn|]. rewrite Ht. reflexivity.
  - exact (proj1 (proj2 (proj2 (proj2
             (town_market_analysis_not_found town_a_table "A")))) "a" eq_refl).
Defined.

Lemma analyze_bto_gaps_members_witness :
  100 < Z.of_nat (length (filter (λ r, town r = "A") town_a_table))
  ∧ (zones_ahead town_a_table "A" < 8)%nat
  ∧ ∃ s, s ∈ analyze_bto_gaps (Some town_a_table) ∧ ts_town s = "A".
Proof.
  assert (100 < Z.of_nat (length (filter (λ r, town r = "A") town_a_table)))
    as H1 by (vm_compute; reflexivity).
  assert (zones_ahead town_a_table "A" < 8)%nat as H2 by (vm_compute; lia).
  split_and!; [exact H1|exact H2|].
  apply (proj1 (analyze_bto_gaps_members town_a_table "A")).
  split_and!; [exact H1|vm_compute; discriminate|exact H2].
Defined.

Lemma analyze_bto_gaps_sorted_stable_witness :
  analyze_bto_gaps (Some tied_towns_table)
  = [aggregate tied_towns_table "A"; aggregate tied_towns_table "B"]
  ∧ gap_tied (aggregate tied_towns_table "A") (aggregate tied_towns_table "B")
  ∧ precedes (groupby_town tied_towns_table)
      (aggregate tied_towns_table "A") (aggregate tied_towns_table "B").
Proof.
  assert (analyze_bto_gaps (Some tied_towns_table)
          = [aggregate tied_towns_table "A"; aggregate tied_towns_table "B"])
    as Hout by (vm_compute; reflexivity).
  assert (gap_tied (aggregate tied_towns_table "A")
                   (aggregate tied_towns_table "B")) as Htie
    by (split; vm_compute; reflexivity).
  split_and!; [exact Hout|exact Htie|].
  pose proof (analyze_bto_gaps_sorted_stable tied_towns_table) as Hs.
  rewrite Hout in Hs. apply StronglySorted_inv in Hs as [_ Hs].
  apply Forall_cons in Hs as [[_ Hs] _]. exact (Hs Htie).
Defined.

(** C1 as stated fails on the empty table: no town qualifies and the
    result is the empty list. *)
Lemma recommend_estates_empty_table :
  ¬ (recommend_estates_on (Some []) ≠ []
     ∧ (length (recommend_estates_on (Some [])) ≤ 6)%nat).
Proof. intros [H _]. by apply H. Qed.

(** ** Concrete runs of the further properties *)

Lemma gap_summaries_consistent_witness :
  aggregate town_a_table "A" ∈ analyze_bto_gaps (Some town_a_table)
  ∧ max_lease_year (aggregate town_a_table "A") = 2010
  ∧ ∃ r, r ∈ town_a_table ∧ town r = "A" ∧ lease_commence_date r = 2010.
Proof.
  assert (aggregate town_a_table "A" ∈ analyze_bto_gaps (Some town_a_table))
    as Hin by (vm_compute; apply list_elem_of_here).
  split_and!; [exact Hin|reflexivity|].
  destruct (proj2 (gap_summaries_consistent town_a_table) _ Hin)
    as (_ & _ & _ & _ & Hr & _).
  exact Hr.
Defined.

Lemma analyze_bto_gaps_row_order_witness :
  tied_towns_table
  ≡ₚ replicate 101 (sample_row "A" "4 ROOM" 2000 400000 2023)
     ++ replicate 101 (sample_row "B" "4 ROOM" 2000 400000 2023)
  ∧ integer_columns <$> analyze_bto_gaps (Some tied_towns_table)
    = integer_columns
        <$> analyze_bto_gaps
              (Some (replicate 101 (sample_row "A" "4 ROOM" 2000 400000 2023)
                     ++ replicate 101 (sample_row "B" "4 ROOM" 2000 400000 2023))).
Proof.
  assert (tied_towns_table
          ≡ₚ replicate 101 (sample_row "A" "4 ROOM" 2000 400000 2023)
             ++ replicate 101 (sample_row "B" "4 ROOM" 2000 400000 2023))
    as Hp by apply Permutation_app_comm.
  split; [exact Hp|]. exact (proj1 (analyze_bto_gaps_row_order _ _ Hp)).
Defined.

Lemma load_resale_data_keeps_clean_witness :
  clean_process year_of_period start
  ∧ clean_process year_of_period
      (load_resale_data year_of_period (call_at 0 first_extract) start).1.
Proof.
  assert (clean_process year_of_period start) as H.
  { split; intros df; simpl; discriminate. }
  split; [exact H|].
  exact (proj1 (load_resale_data_keeps_clean year_of_period
                  (call_at 0 first_extract) start H)).
Defined.

Lemma first_load_failure_is_final_witness :
  let io := {| clock_at_check := 0; read_csv := Raise FileNotFoundError;
               clock_at_store := 0 |} in
  (∃ e, read_csv io = Raise e)
  ∧ (recommend_estates year_of_period (call_at 4000 first_extract)
       (load_resale_data year_of_period io start).1).2
    = [Estimate data_unavailable_fallback].
Proof.
  intros io.
  assert (∃ e, read_csv io = Raise e) as H by (by exists FileNotFoundError).
  split; [exact H|].
  exact (proj2 (proj2 (first_load_failure_is_final year_of_period io
                         (call_at 4000 first_extract) (or_introl H)))).
Defined.

Lemma pricing_on_positive_prices_witness :
  Forall (λ r, 0 < resale_price r)%Q town_a_table
  ∧ "4 ROOM" ∈ flat_types
  ∧ is_Some (pricing_for town_a_table "A" flat_types !! pricing_key "4 ROOM").
Proof.
  assert (Forall (λ r, 0 < resale_price r)%Q town_a_table) as Hpos.
  { unfold town_a_table. apply Forall_app. split; apply Forall_replicate;
      reflexivity. }
  assert ("4 ROOM" ∈ flat_types) as H4 by (right; left).
  split_and!; [exact Hpos|exact H4|].
  apply (proj2 (pricing_on_positive_prices town_a_table "A" "4 ROOM" Hpos H4)).
  exists (sample_row "A" "4 ROOM" 2010 475000 2023).
  split_and!; [|reflexivity..]. unfold town_a_table.
  apply elem_of_app. left. apply elem_of_replicate. split; [reflexivity|lia].
Defined.

Lemma town_market_report_figures_witness :
  ∃ a, get_town_market_analysis_on (Some town_a_table) "a" = Report a
       ∧ ∀ r, r ∈ town_rows town_a_table "a" →
              oldest (an_lease_vintage a) ≤ lease_commence_date r
                                          ≤ newest (an_lease_vintage a).
Proof.
  eexists. split; [vm_compute; reflexivity|].
  refine (proj1 (town_market_report_figures town_a_table "a" _ _)).
  vm_compute. reflexivity.
Defined.

Lemma predict_price_model_input_witness :
  ["floor_area_sqm"; "town_BEDOK"; "town_YISHUN"; "flat_type_4 ROOM"] ≠ []
  ∧ predict_price (λ frame, Ok (Pd.sum (snd <$> frame)))
      (Some ["floor_area_sqm"; "town_BEDOK"; "town_YISHUN"; "flat_type_4 ROOM"])
      (create_prediction_features
         ["floor_area_sqm"; "town_BEDOK"; "town_YISHUN"; "flat_type_4 ROOM"]
         "YISHUN" "4 ROOM" 93%Q 7 1988)
    = Ok (Pd.sum [93%Q; 0%Q; 1%Q; 1%Q]).
Proof.
  split; [done|].
  by destruct (predict_price_model_input
                 (λ frame, Ok (Pd.sum (snd <$> frame)))
                 ["floor_area_sqm"; "town_BEDOK"; "town_YISHUN"; "flat_type_4 ROOM"]
                 "YISHUN" "4 ROOM" 93%Q 7 1988 ltac:(done)) as [_ ->].
Defined.

Lemma recommend_fallback_analysis_witness :
  (∀ c, analyze_with_perplexity false (Raise FileNotFoundError) ≠ Ok c)
  ∧ recommend (λ _, "") (λ _, "{}") [Estimate data_unavailable_fallback]
      (Raise (OtherError "rate limit")) false (Raise FileNotFoundError)
    = Respond
        {| prompt := "limited_bto_last_decade_with_pricing_analysis";
           rr_analysis :=
             "LLM analysis unavailable - Both OpenAI and Perplexity APIs unavailable."
             +:+ PyStr.newline +:+ PyStr.newline +:+ fallback_long_text;
           recommended_towns := [Estimate data_unavailable_fallback] |}.
Proof.
  split; [done|]. by apply recommend_fallback_analysis.
Defined.
